(** * Custom-Domain: DNS verification and domain lifecycle scripts

    A shallow embedding of [Custom-Domain/python-scripts/verify-dns.py] and
    [Custom-Domain/python-scripts/manage-domain.py] together with the
    properties of the natural-language specification that concern them.

    Python code that talks to the outside world (DNS, the file system,
    certbot, nginx, the clock, the log) is embedded as a program tree over a
    fixed set of calls; the outside world is an arbitrary handler that
    answers each call.  Pure Python code is embedded as a Rocq function.

    The first part holds the embedding: the string operations, the program
    trees, verify-dns.py, the regular expression matcher, manage-domain.py,
    the hostname grammar of the specification, what is read off a trace,
    some sample worlds, and the rendering, the renewal and the DNS check
    of manage-domain.py.  The second part holds the properties. *)

From Stdlib Require Import String Ascii List ZArith Bool Lia Arith DecimalString.
Import ListNotations.
Local Open Scope list_scope.
Local Open Scope string_scope.

(** ** Python string operations used by the scripts *)

Module PyStr.

(** [s.lstrip(chars)], [s.rstrip(chars)] and [s.strip(chars)], the set of
    characters being given as a predicate. *)
Fixpoint lstrip (p : ascii -> bool) (s : string) : string :=
  match s with
  | EmptyString => EmptyString
  | String c r => if p c then lstrip p r else s
  end.

Fixpoint rstrip (p : ascii -> bool) (s : string) : string :=
  match s with
  | EmptyString => EmptyString
  | String c r =>
      match rstrip p r with
      | EmptyString => if p c then EmptyString else String c EmptyString
      | r' => String c r'
      end
  end.

Definition strip (p : ascii -> bool) (s : string) : string :=
  rstrip p (lstrip p s).

Definition is_dot (c : ascii) : bool := Ascii.eqb c ".".

(** The ASCII characters Python's [str.isspace] accepts: tab, line feed,
    vertical tab, form feed, carriage return, the four separators 28..31
    and the space.  Strings are byte strings here, so the white space
    outside ASCII is not covered. *)
Definition is_space (c : ascii) : bool :=
  let n := nat_of_ascii c in
  (((9 <=? n) && (n <=? 13)) || ((28 <=? n) && (n <=? 32)))%nat.

(** [s.strip()] *)
Definition strip_ws (s : string) : string := strip is_space s.

(** [s.split(sep)] for a one-character separator: one more part than there
    are separators, the empty string giving one empty part. *)
Fixpoint split (sep : ascii) (s : string) : list string :=
  match s with
  | EmptyString => [EmptyString]
  | String c r =>
      if Ascii.eqb c sep then EmptyString :: split sep r
      else match split sep r with
           | h :: t => String c h :: t
           | [] => [String c EmptyString]
           end
  end.

(** [sep.join(parts)] *)
Definition join (sep : string) (parts : list string) : string :=
  String.concat sep parts.

(** [parts[-n:]] for [n > 0] *)
Definition last_n {A} (n : nat) (parts : list A) : list A :=
  skipn (List.length parts - n) parts.

(** [s.lower()] on ASCII letters *)
Definition lower_char (c : ascii) : ascii :=
  let n := nat_of_ascii c in
  if ((65 <=? n) && (n <=? 90))%nat then ascii_of_nat (n + 32) else c.

Fixpoint lower (s : string) : string :=
  match s with
  | EmptyString => EmptyString
  | String c r => String (lower_char c) (lower r)
  end.

(** [pat in s] *)
Fixpoint contains (pat s : string) : bool :=
  String.prefix pat s ||
  match s with
  | EmptyString => false
  | String _ r => contains pat r
  end.

(** [x in xs] for a list of strings *)
Definition mem (x : string) (xs : list string) : bool :=
  existsb (String.eqb x) xs.

(** The Python text of a list of strings as an f-string shows it, for
    strings that need no escaping. *)
Definition repr_list (xs : list string) : string :=
  "[" ++ join ", " (map (fun x => "'" ++ x ++ "'") xs) ++ "]".

(** The line feed, as a string. *)
Definition LF : string := String "010" EmptyString.

(** Truth value of a list: [if xs:] *)
Definition nonempty {A} (xs : list A) : bool :=
  match xs with [] => false | _ :: _ => true end.

(** Number of occurrences of a character. *)
Fixpoint count (c : ascii) (s : string) : nat :=
  match s with
  | EmptyString => 0
  | String d r => (if Ascii.eqb d c then 1 else 0) + count c r
  end.

End PyStr.

(** ** Programs that call the outside world *)

Module Py.

(** Values of the configuration attributes that [load_env_overrides] may
    replace: a [bool], an [int] or a [str]. *)
Inductive PyVal : Type :=
| VBool (b : bool)
| VInt (z : Z)
| VStr (s : string).

(** Python truth value, as [if config.STAGING:] takes it. *)
Definition truthy (v : PyVal) : bool :=
  match v with
  | VBool b => b
  | VInt z => negb (z =? 0)%Z
  | VStr s => negb (s =? "")
  end.

(** What [subprocess.run] gives: a completed process with its return code
    and captured output, or an exception (the executable cannot be started,
    an argument is no string). *)
Inductive RunResult : Type :=
| Completed (returncode : Z) (stdout : string)
| RunError (what : string).

(** The calls the two scripts make to their environment. *)
Inductive Call : Type :=
| Log (color msg : string)             (* log(msg, color) *)
| PrintJson (obj : list (string * string))   (* print(json.dumps({...})) *)
| Sleep (seconds : Z)                  (* time.sleep, errors swallowed *)
| NewResolver (nameservers : list string) (timeout : Z)
                                       (* dns.resolver.Resolver(), configured *)
| DnsResolve (nameservers : list string) (timeout : Z) (qname rtype : string)
                                       (* resolver.resolve(qname, rtype) *)
| FetchCloudflareIps                   (* GET /client/v4/ips, decoded *)
| Geteuid                              (* os.geteuid() *)
| Environ (name : string)              (* os.environ lookup *)
| Which (path : string)                (* shutil.which(path) is not None *)
| PathExists (path : string)           (* Path.exists() *)
| PathIsSymlink (path : string)        (* Path.is_symlink() *)
| Unlink (path : string)               (* Path.unlink() *)
| Mkdir (path : string)                (* Path.mkdir(parents=True, exist_ok=True) *)
| WriteText (path : string)            (* Path.write_text(rendered config) *)
| SymlinkTo (link target : string)     (* link.symlink_to(target) *)
| Run (args : list PyVal).             (* subprocess.run(args, ...) *)

(** The answer to each call.  A file-system change answers [None] when it
    went through and [Some e] when it raised an exception with text [e],
    and so does the making of a resolver (which reads the resolver
    configuration of the host and is given the servers and the timeout);
    a DNS query and the Cloudflare fetch answer [None] when they raised.
    Writing a log line is taken to succeed. *)
Definition Resp (c : Call) : Type :=
  match c with
  | Log _ _ | PrintJson _ | Sleep _ => unit
  | NewResolver _ _ => option string
  | DnsResolve _ _ _ _ => option (list string)
  | FetchCloudflareIps => option (list string * list string)
  | Geteuid => Z
  | Environ _ => option string
  | Which _ | PathExists _ | PathIsSymlink _ => bool
  | Unlink _ | Mkdir _ | WriteText _ | SymlinkTo _ _ => option string
  | Run _ => RunResult
  end.

(** [SystemExit] is no [Exception]: an [except Exception] lets it through. *)
Inductive Exn : Type :=
| SystemExit (code : Z)
| PyException (what : string).

Inductive Prog (A : Type) : Type :=
| Ret (a : A)
| Raise (e : Exn)
| Do (c : Call) (k : Resp c -> Prog A).

Arguments Ret {A} a.
Arguments Raise {A} e.
Arguments Do {A} c k.

Fixpoint bind {A B} (p : Prog A) (f : A -> Prog B) : Prog B :=
  match p with
  | Ret a => f a
  | Raise e => Raise e
  | Do c k => Do c (fun r => bind (k r) f)
  end.

Definition call (c : Call) : Prog (Resp c) := Do c Ret.

(** [try: p except Exception as e: h e] *)
Fixpoint try_except {A} (p : Prog A) (h : string -> Prog A) : Prog A :=
  match p with
  | Ret a => Ret a
  | Raise (PyException e) => h e
  | Raise (SystemExit n) => Raise (SystemExit n)
  | Do c k => Do c (fun r => try_except (k r) h)
  end.

(** [sys.exit(code)] *)
Definition sys_exit {A} (code : Z) : Prog A := Raise (SystemExit code).

(** A pure computation that may raise. *)
Inductive PyResult (A : Type) : Type :=
| Value (a : A)
| Raises (what : string).

Arguments Value {A} a.
Arguments Raises {A} what.

Definition lift {A} (r : PyResult A) : Prog A :=
  match r with
  | Value a => Ret a
  | Raises e => Raise (PyException e)
  end.

(** The answer of a file-system change turned back into control flow. *)
Definition raise_if (r : option string) : Prog unit :=
  match r with
  | None => Ret tt
  | Some e => Raise (PyException e)
  end.

Declare Scope prog_scope.
Delimit Scope prog_scope with prog.
Notation "x <- p ;; k" := (bind p (fun x => k))
  (at level 61, p at next level, right associativity) : prog_scope.
Notation "p ;; k" := (bind p (fun _ => k))
  (at level 61, right associativity) : prog_scope.

(** *** Running a program in a world *)

Inductive Outcome (A : Type) : Type :=
| Returned (a : A)
| Raised (e : Exn).

Arguments Returned {A} a.
Arguments Raised {A} e.

(** One call and the answer it got. *)
Inductive Event : Type :=
| Ev (c : Call) (r : Resp c).

Definition Trace : Type := list Event.

(** A world of states [W] answers every call and moves to a new state. *)
Definition Handler (W : Type) : Type := forall c : Call, W -> Resp c * W.

Fixpoint run {W A} (h : Handler W) (p : Prog A) (w : W)
  : Outcome A * W * Trace :=
  match p with
  | Ret a => (Returned a, w, [])
  | Raise e => (Raised e, w, [])
  | Do c k =>
      let (r, w1) := h c w in
      let '(o, w2, t) := run h (k r) w1 in
      (o, w2, Ev c r :: t)
  end.

Definition outcome_of {W A} (x : Outcome A * W * Trace) : Outcome A := fst (fst x).
Definition trace_of {W A} (x : Outcome A * W * Trace) : Trace := snd x.

(** The exit status of the interpreter when the script's [main] ended with
    the given outcome: 0 on return, the code of [sys.exit], 1 after an
    uncaught exception. *)
Definition exit_status {A} (o : Outcome A) : Z :=
  match o with
  | Returned _ => 0
  | Raised (SystemExit n) => n
  | Raised (PyException _) => 1
  end%Z.

(** [always P p]: whatever the world answers, the outcome and the trace of
    [p] satisfy [P]. *)
Fixpoint always {A} (P : Outcome A -> Trace -> Prop) (p : Prog A) : Prop :=
  match p with
  | Ret a => P (Returned a) []
  | Raise e => P (Raised e) []
  | Do c k => forall r : Resp c, always (fun o t => P o (Ev c r :: t)) (k r)
  end.

(** The calls of a trace, without their answers. *)
Definition call_of (e : Event) : Call :=
  match e with Ev c _ => c end.

Definition calls (t : Trace) : list Call := map call_of t.

(** Logging, as both scripts define it. *)
Definition log (msg : string) : Prog unit := call (Log "BLUE" msg).
Definition success (msg : string) : Prog unit :=
  call (Log "GREEN" ("[SUCCESS] " ++ msg)).
Definition warning (msg : string) : Prog unit :=
  call (Log "YELLOW" ("[WARNING] " ++ msg)).
Definition error (msg : string) : Prog unit :=
  call (Log "RED" ("[ERROR] " ++ msg)).

(** config.py, the attributes the embedded functions read. *)
Record Config : Type := {
  BACKEND_APP_PORT : PyVal;
  BACKEND_APP_HOST : PyVal;
  EMAIL : PyVal;
  STAGING : PyVal;
  FORCE_RENEWAL : PyVal;
  NGINX_SITES_AVAILABLE : string;
  NGINX_SITES_ENABLED : string;
  CERTBOT_PATH : string;
  DNS_SERVERS : list string;
  DNS_TIMEOUT : Z;
  DNS_RETRIES : Z
}.

Definition config : Config := {|
  BACKEND_APP_PORT := VInt 3000;
  BACKEND_APP_HOST := VStr "127.0.0.1";
  EMAIL := VStr "siddhant@pearlthoughts";
  STAGING := VBool false;
  FORCE_RENEWAL := VBool false;
  NGINX_SITES_AVAILABLE := "/etc/nginx/sites-available";
  NGINX_SITES_ENABLED := "/etc/nginx/sites-enabled";
  CERTBOT_PATH := "/usr/bin/certbot";
  DNS_SERVERS := ["8.8.8.8"; "8.8.4.4"; "1.1.1.1"; "1.0.0.1"];
  DNS_TIMEOUT := 30;
  DNS_RETRIES := 3
|}.

End Py.

(** ** The [ipaddress] module of the Python library

    [ip_in_any_cidr] relies on three operations of the library: parsing an
    address, parsing a network (strictly: host bits set are an error) and
    the membership test.  They are an interface here; [IPv4] below is the
    instance for dotted-quad addresses and prefix-length networks. *)

Class IpAddress : Type := {
  Address : Type;
  Network : Type;
  ip_address : string -> option Address;   (* None: ValueError *)
  ip_network : string -> option Network;   (* None: ValueError *)
  net_contains : Network -> Address -> bool  (* address in network *)
}.

Module IPv4.
Import PyStr.

Definition digit_value (c : ascii) : option Z :=
  let n := nat_of_ascii c in
  if ((48 <=? n) && (n <=? 57))%nat then Some (Z.of_nat (n - 48)) else None.

Fixpoint decimal_acc (acc : Z) (s : string) : option Z :=
  match s with
  | EmptyString => Some acc
  | String c r =>
      match digit_value c with
      | Some d => decimal_acc (10 * acc + d)%Z r
      | None => None
      end
  end.

(** A non-empty string of ASCII digits. *)
Definition decimal (s : string) : option Z :=
  match s with
  | EmptyString => None
  | _ => decimal_acc 0 s
  end.

(** One octet: at most three digits, no leading zero, at most 255. *)
Definition octet (s : string) : option Z :=
  match decimal s with
  | Some v =>
      if ((String.length s <=? 3)%nat
          && ((String.length s =? 1)%nat || negb (String.prefix "0" s))
          && (v <=? 255)%Z)%bool
      then Some v else None
  | None => None
  end.

Definition parse_address (s : string) : option Z :=
  match map octet (split "." s) with
  | [Some a; Some b; Some c; Some d] =>
      Some (((a * 256 + b) * 256 + c) * 256 + d)%Z
  | _ => None
  end.

Definition prefix_length (s : string) : option Z :=
  match decimal s with
  | Some v => if (v <=? 32)%Z then Some v else None
  | None => None
  end.

(** The netmask of a prefix length: that many leading ones in 32 bits. *)
Definition netmask (len : Z) : Z :=
  Z.shiftl (Z.ones len) (32 - len).

(** A network is its network address and its netmask; an address with host
    bits set is refused.  Without a prefix the network is the single host. *)
Definition parse_network (s : string) : option (Z * Z) :=
  match split "/" s with
  | [a] =>
      match parse_address a with
      | Some addr => Some (addr, netmask 32)
      | None => None
      end
  | [a; p] =>
      match parse_address a, prefix_length p with
      | Some addr, Some len =>
          if (Z.land addr (netmask len) =? addr)%Z
          then Some (addr, netmask len) else None
      | _, _ => None
      end
  | _ => None
  end.

(** [address in network]: the address under the netmask is the network
    address. *)
Definition contains (net : Z * Z) (addr : Z) : bool :=
  (Z.land addr (snd net) =? fst net)%Z.

#[export] Instance ipv4 : IpAddress := {|
  Address := Z;
  Network := Z * Z;
  ip_address := parse_address;
  ip_network := parse_network;
  net_contains := contains
|}.

End IPv4.

(** ** verify-dns.py *)

Module VerifyDns.
Import PyStr Py.
Local Open Scope prog_scope.

(** [extract_base_domain], lines 38-42. *)
Definition extract_base_domain (domain : string) : string :=
  let parts := split "." (strip is_dot domain) in
  if (2 <? List.length parts)%nat then join "." (last_n 2 parts) else domain.

(** [resolve_records], lines 44-54.  The resolver is made and configured
    outside the [try] (lines 45-49): an exception there is not caught.  Any
    exception of the query gives the empty list, and the trailing dots of
    the answers are dropped. *)
Definition resolve_records (cfg : Config) (domain rtype : string)
  : Prog (list string) :=
  made <- call (NewResolver (DNS_SERVERS cfg) (DNS_TIMEOUT cfg)) ;;
  raise_if made ;;
  r <- call (DnsResolve (DNS_SERVERS cfg) (DNS_TIMEOUT cfg) domain rtype) ;;
  match r with
  | Some answers => Ret (map (rstrip is_dot) answers)
  | None => Ret []
  end.

(** The chain of substring tests of lines 66-80, in its order. *)
Definition SIGNATURES : list (string * string) :=
  [ ("awsdns", "Route 53");
    ("cloudflare", "Cloudflare");
    ("godaddy", "GoDaddy");
    ("dns.google", "Google Cloud DNS");
    ("dnsmadeeasy", "DNS Made Easy");
    ("registrar-servers", "Namecheap");
    ("networksolutions", "Network Solutions");
    ("azure-dns", "Microsoft Azure DNS");
    ("ns.digitalocean", "DigitalOcean");
    ("ns1", "NS1");
    ("ultradns", "UltraDNS");
    ("yahoo", "Yahoo Small Business");
    ("akamai", "Akamai");
    ("rackspace", "Rackspace Cloud DNS");
    ("oraclecloud", "Oracle Cloud DNS") ].

Definition signature_of (ns : string) : option string :=
  match find (fun sg => contains (fst sg) ns) SIGNATURES with
  | Some sg => Some (snd sg)
  | None => None
  end.

(** The loop of lines 65-81 over the lower-cased name servers. *)
Fixpoint provider_of (nss : list string) : string :=
  match nss with
  | [] => "Unknown provider"
  | ns :: rest =>
      match signature_of ns with
      | Some p => p
      | None => provider_of rest
      end
  end.

(** The loop of lines 61-64: query until an answer is not empty. *)
Fixpoint ns_lookup (cfg : Config) (base : string) (tries : nat)
  : Prog (list string) :=
  match tries with
  | O => Ret []
  | S n =>
      ns_records <- resolve_records cfg base "NS" ;;
      if nonempty ns_records then Ret ns_records else ns_lookup cfg base n
  end.

(** [identify_dns_provider], lines 56-81. *)
Definition identify_dns_provider (cfg : Config) (domain : string)
  : Prog string :=
  let base := extract_base_domain domain in
  log ("Identifying DNS provider for base domain: " ++ base) ;;
  ns_records <- ns_lookup cfg base (Nat.max 1 (List.length (DNS_SERVERS cfg))) ;;
  Ret (provider_of (map lower ns_records)).

Definition FALLBACK_CIDRS : list string :=
  [ "173.245.48.0/20"; "103.21.244.0/22"; "103.22.200.0/22"; "103.31.4.0/22";
    "141.101.64.0/18"; "108.162.192.0/18"; "190.93.240.0/20"; "188.114.96.0/20";
    "197.234.240.0/22"; "198.41.128.0/17"; "162.158.0.0/15"; "104.16.0.0/13";
    "104.24.0.0/14"; "172.64.0.0/13"; "131.0.72.0/22" ].

(** [fetch_cloudflare_cidrs], lines 83-98. *)
Definition fetch_cloudflare_cidrs : Prog (list string * list string) :=
  log "Fetching Cloudflare IP ranges..." ;;
  r <- call FetchCloudflareIps ;;
  match r with
  | Some (v4, v6) => Ret (v4, v6)
  | None =>
      warning "Failed to fetch Cloudflare IP ranges, using a minimal fallback" ;;
      Ret (FALLBACK_CIDRS, [])
  end.

Definition IN_RANGE (domain ip : string) : string :=
  domain ++ " resolves to " ++ ip ++ " which is in Cloudflare range".

Section WithIpAddress.
Context {ipaddress : IpAddress}.

(** The address lies in the network a string denotes; a string that
    denotes none holds no address. *)
Definition in_network (ip_obj : Address) (c : string) : bool :=
  match ip_network c with
  | Some net => net_contains net ip_obj
  | None => false
  end.

(** The loop of lines 102-108: a network that does not parse is passed
    over by the [except] clause. *)
Fixpoint in_any (ip_obj : Address) (cidrs : list string) : bool :=
  match cidrs with
  | [] => false
  | c :: rest =>
      match ip_network c with
      | Some net => if net_contains net ip_obj then true else in_any ip_obj rest
      | None => in_any ip_obj rest
      end
  end.

(** [ip_in_any_cidr], lines 100-108.  The address is parsed outside the
    [try], so an address that does not parse raises. *)
Definition ip_in_any_cidr (ip : string) (cidrs : list string) : PyResult bool :=
  match ip_address ip with
  | Some ip_obj => Value (in_any ip_obj cidrs)
  | None => Raises "ValueError"
  end.

(** The text [ip] is an address that lies in the network [c] denotes. *)
Definition in_cidr (ip c : string) : bool :=
  match ip_address ip with
  | Some ip_obj => in_network ip_obj c
  | None => false
  end.

(** The loop of lines 115-119. *)
Fixpoint proxy_scan (domain : string) (cf4 : list string)
  (a_records : list string) : Prog bool :=
  match a_records with
  | [] => Ret false
  | ip :: rest =>
      hit <- lift (ip_in_any_cidr ip cf4) ;;
      if hit : bool then
        log (IN_RANGE domain ip) ;;
        Ret true
      else proxy_scan domain cf4 rest
  end.

(** [check_cloudflare_proxy], lines 110-119. *)
Definition check_cloudflare_proxy (cfg : Config) (domain : string)
  (cf4 cf6 : list string) : Prog bool :=
  log ("Checking Cloudflare proxy for " ++ domain ++ "...") ;;
  a_records <- resolve_records cfg domain "A" ;;
  if nonempty a_records then proxy_scan domain cf4 a_records else Ret false.

End WithIpAddress.

(** [any(ip in resolved for ip in expected_ips)] *)
Definition any_expected (resolved expected_ips : list string) : bool :=
  existsb (fun ip => mem ip resolved) expected_ips.

(** The text of an integer in a log line. *)
Definition show_Z (z : Z) : string :=
  NilEmpty.string_of_int (Z.to_int z).

(** The [for attempt in range(retries)] loop of lines 128-158, over the
    attempts still to make. *)
Fixpoint attempts (cfg : Config) (domain : string) (expected_ips : list string)
  (retries : Z) (todo : list Z) : Prog bool :=
  match todo with
  | [] => Ret false
  | attempt :: rest =>
      (if negb (attempt =? 0)%Z then
         let delay := (2 ^ attempt)%Z in
         log ("Retry " ++ show_Z attempt ++ " with " ++ show_Z delay ++ "s delay") ;;
         call (Sleep delay)
       else Ret tt) ;;
      resolved <- resolve_records cfg domain "A" ;;
      if negb (nonempty resolved) then
        cname <- resolve_records cfg domain "CNAME" ;;
        if nonempty cname then
          log ("Domain has CNAME record: " ++ join ", " cname) ;;
          if (attempt =? retries - 1)%Z then
            warning "CNAME present, but no A records resolved" ;;
            Ret false
          else attempts cfg domain expected_ips retries rest
        else if (attempt =? retries - 1)%Z then
          error ("No A or CNAME records found for " ++ domain) ;;
          Ret false
        else attempts cfg domain expected_ips retries rest
      else
        log ("Resolved IPs: " ++ join " " resolved) ;;
        if any_expected resolved expected_ips then
          success "DNS verification successful: domain points to expected IPs" ;;
          Ret true
        else if (attempt =? retries - 1)%Z then
          warning ("DNS verification failed: " ++ domain ++ " points to "
                   ++ repr_list resolved ++ ", expected: "
                   ++ repr_list expected_ips) ;;
          Ret false
        else attempts cfg domain expected_ips retries rest
  end.

(** [range(n)] *)
Definition range (n : Z) : list Z :=
  map Z.of_nat (seq 0 (Z.to_nat n)).

(** [verify_domain_a_records], lines 121-158. *)
Definition verify_domain_a_records (cfg : Config) (domain : string)
  (expected_ips : list string) : Prog bool :=
  log ("Verifying A records for domain: " ++ domain) ;;
  if negb (nonempty expected_ips) then
    error "No expected IPs provided for verification" ;;
    Ret false
  else
    let retries := Z.max 1 (DNS_RETRIES cfg) in
    attempts cfg domain expected_ips retries (range retries).

Definition matched_text (matched : bool) : string :=
  if matched then "matched" else "not matched".

(** The object printed at lines 180-184. *)
Definition PROXY_ENABLED (provider : string) : list (string * string) :=
  [ ("message", "Please disable the proxy in Cloudflare to match SSL certificate");
    ("dnsProvider", provider);
    ("cloudflare_proxy", "enabled") ].

Section Main.
Context {ipaddress : IpAddress}.

(** [main], lines 160-201, on the parsed command line. *)
Definition main (cfg : Config) (arg_domain : string)
  (expected_ips : list string) : Prog unit :=
  let domain := strip_ws arg_domain in
  log ("Starting DNS verification for domain: " ++ domain) ;;
  provider <- identify_dns_provider cfg domain ;;
  log ("DNS provider identified: " ++ provider) ;;
  cf <- fetch_cloudflare_cidrs ;;
  let cf4 := fst cf in
  let cf6 := snd cf in
  if (provider =? "Cloudflare")%string then
    proxied <- check_cloudflare_proxy cfg domain cf4 cf6 ;;
    if proxied : bool then
      warning ("Domain " ++ domain ++ " is using Cloudflare proxy") ;;
      call (PrintJson (PROXY_ENABLED provider)) ;;
      sys_exit 0
    else
      log "Cloudflare proxy is disabled; checking A records..." ;;
      matched <- verify_domain_a_records cfg domain expected_ips ;;
      call (PrintJson
              [ ("message", matched_text matched);
                ("dnsProvider", provider);
                ("cloudflare_proxy", "disabled") ]) ;;
      sys_exit (if matched then 0 else 1)
  else
    matched <- verify_domain_a_records cfg domain expected_ips ;;
    call (PrintJson
            [ ("message", matched_text matched);
              ("dnsProvider", provider) ]) ;;
    sys_exit (if matched then 0 else 1).

End Main.

End VerifyDns.

(** ** Regular expressions, as [re.match] runs them *)

Module Re.

(** The constructs [DOMAIN_RE] is made of.  [Eol] is the pattern [$]. *)
Inductive regex : Type :=
| Eps
| Chr (p : ascii -> bool)
| Cat (a b : regex)
| Opt (a : regex)
| Star (a : regex)
| Eol.

(** [a{0,n}] *)
Fixpoint upto (n : nat) (a : regex) : regex :=
  match n with
  | O => Eps
  | S m => Opt (Cat a (upto m a))
  end.

(** Without the MULTILINE flag, [$] matches at the end of the string and
    just before a line feed that ends the string. *)
Definition at_end (s : string) : bool :=
  match s with
  | EmptyString => true
  | String c EmptyString => Ascii.eqb c "010"
  | _ => false
  end.

(** The loop of a repetition: try the body once more, then the rest of the
    pattern.  A round that consumed nothing is not repeated, so as many
    rounds as the string has characters suffice. *)
Fixpoint star_loop (body : string -> (string -> bool) -> bool)
  (k : string -> bool) (fuel : nat) (s : string) {struct fuel} : bool :=
  match fuel with
  | O => k s
  | S fuel' =>
      if body s (fun s1 =>
                   if (String.length s1 <? String.length s)%nat
                   then star_loop body k fuel' s1 else false)
      then true else k s
  end.

(** Backtracking matcher: [matches r s k] holds when [r] matches a prefix
    of [s] whose remainder satisfies the continuation [k]. *)
Fixpoint matches (r : regex) (s : string) (k : string -> bool) {struct r} : bool :=
  match r with
  | Eps => k s
  | Chr p =>
      match s with
      | EmptyString => false
      | String c rest => if p c then k rest else false
      end
  | Cat a b => matches a s (fun s1 => matches b s1 k)
  | Opt a => if matches a s k then true else k s
  | Star a => star_loop (matches a) k (String.length s) s
  | Eol => if at_end s then k s else false
  end.

(** What the matcher decides: [derives r s rest] when [r] can consume [s]
    down to its suffix [rest]. *)
Inductive derives : regex -> string -> string -> Prop :=
| D_eps s : derives Eps s s
| D_chr (p : ascii -> bool) c s : p c = true -> derives (Chr p) (String c s) s
| D_cat a b s s1 s2 :
    derives a s s1 -> derives b s1 s2 -> derives (Cat a b) s s2
| D_opt_some a s s1 : derives a s s1 -> derives (Opt a) s s1
| D_opt_none a s : derives (Opt a) s s
| D_star_stop a s : derives (Star a) s s
| D_star_more a s s1 s2 :
    derives a s s1 -> (String.length s1 < String.length s)%nat ->
    derives (Star a) s1 s2 -> derives (Star a) s s2
| D_eol s : at_end s = true -> derives Eol s s.

(** [bool(pattern.match(s))]: the pattern is tried at the start of [s]
    and may stop anywhere. *)
Definition re_match (r : regex) (s : string) : bool :=
  matches r s (fun _ => true).

End Re.

(** ** manage-domain.py *)

Module ManageDomain.
Import PyStr Py Re.
Local Open Scope prog_scope.

Definition is_alnum (c : ascii) : bool :=
  let n := nat_of_ascii c in
  (((65 <=? n) && (n <=? 90)) || ((97 <=? n) && (n <=? 122))
   || ((48 <=? n) && (n <=? 57)))%nat.

Definition is_alnum_hyphen (c : ascii) : bool :=
  is_alnum c || Ascii.eqb c "-".

(** [[A-Za-z0-9]([A-Za-z0-9\-]{0,61}[A-Za-z0-9])?] *)
Definition LABEL_RE : regex :=
  Cat (Chr is_alnum) (Opt (Cat (upto 61 (Chr is_alnum_hyphen)) (Chr is_alnum))).

(** [DOMAIN_RE], line 90.  The leading [^] is void under [re.match]. *)
Definition DOMAIN_RE : regex :=
  Cat LABEL_RE (Cat (Star (Cat (Chr is_dot) LABEL_RE)) Eol).

(** The test of line 93. *)
Definition domain_ok (domain : string) : bool :=
  re_match DOMAIN_RE domain.

(** [validate_domain], lines 92-96. *)
Definition validate_domain (domain : string) : Prog bool :=
  if negb (domain_ok domain) then
    error ("Invalid domain format: " ++ domain) ;;
    Ret false
  else Ret true.

(** [Path(dir)/name] for a name that is no absolute path. *)
Definition path (dir name : string) : string := dir ++ "/" ++ name.

Definition LIVE : string := "/etc/letsencrypt/live".

(** [subprocess.run(args, ...)]: an exception of the call is not caught
    anywhere in the script. *)
Definition subprocess_run (args : list PyVal) : Prog (Z * string) :=
  r <- call (Run args) ;;
  match r with
  | Completed returncode stdout => Ret (returncode, stdout)
  | RunError e => Raise (PyException e)
  end.

Definition strs (xs : list string) : list PyVal := map VStr xs.

(** [require_root], lines 56-59. *)
Definition require_root : Prog unit :=
  uid <- call Geteuid ;;
  if negb (uid =? 0)%Z then
    error "This script must be run as root (use sudo)" ;;
    sys_exit 1
  else Ret tt.

(** [which_or_die], lines 61-64. *)
Definition which_or_die (p hint : string) : Prog unit :=
  found <- call (Which p) ;;
  missing <- (if found : bool then Ret false
              else e <- call (PathExists p) ;; Ret (negb e)) ;;
  if missing : bool then
    error (p ++ " not found. " ++ hint) ;;
    sys_exit 1
  else Ret tt.

(** [check_dependencies], lines 66-72. *)
Definition check_dependencies (cfg : Config) : Prog unit :=
  log "Checking dependencies..." ;;
  which_or_die (CERTBOT_PATH cfg)
    "Install: apt-get install certbot python3-certbot-nginx" ;;
  which_or_die "/usr/sbin/nginx" "Install: apt-get install nginx" ;;
  dig <- call (Which "dig") ;;
  (if negb dig then
     warning "dig not found. DNS checks will use dnspython only (recommended). Install bind9-utils for parity."
   else Ret tt) ;;
  success "All dependencies are available (or reasonable fallbacks present)".

Section WithInt.

(** Python's [int(s)] on a string; [None] when it raises [ValueError]. *)
Variable py_int : string -> option Z.

Definition OVERRIDABLE : list string :=
  ["BACKEND_APP_PORT"; "BACKEND_APP_HOST"; "EMAIL"; "STAGING"; "FORCE_RENEWAL"].

(** [setattr(config, name, v)] for the names of [OVERRIDABLE]. *)
Definition setattr (cfg : Config) (name : string) (v : PyVal) : Config :=
  let upd port host email staging force :=
    {| BACKEND_APP_PORT := port; BACKEND_APP_HOST := host; EMAIL := email;
       STAGING := staging; FORCE_RENEWAL := force;
       NGINX_SITES_AVAILABLE := NGINX_SITES_AVAILABLE cfg;
       NGINX_SITES_ENABLED := NGINX_SITES_ENABLED cfg;
       CERTBOT_PATH := CERTBOT_PATH cfg;
       DNS_SERVERS := DNS_SERVERS cfg;
       DNS_TIMEOUT := DNS_TIMEOUT cfg;
       DNS_RETRIES := DNS_RETRIES cfg |} in
  let port := BACKEND_APP_PORT cfg in
  let host := BACKEND_APP_HOST cfg in
  let email := EMAIL cfg in
  let staging := STAGING cfg in
  let force := FORCE_RENEWAL cfg in
  if name =? "BACKEND_APP_PORT" then upd v host email staging force
  else if name =? "BACKEND_APP_HOST" then upd port v email staging force
  else if name =? "EMAIL" then upd port host v staging force
  else if name =? "STAGING" then upd port host email v force
  else if name =? "FORCE_RENEWAL" then upd port host email staging v
  else cfg.

(** The value lines 80-88 store for a variable found in the environment. *)
Definition override (name val : string) : PyVal :=
  let l := lower val in
  if (l =? "true") || (l =? "false") then VBool (l =? "true")
  else if name =? "BACKEND_APP_PORT" then
    match py_int val with
    | Some z => VInt z
    | None => VStr val
    end
  else VStr val.

(** The loop of lines 76-88. *)
Fixpoint load_names (cfg : Config) (names : list string) : Prog Config :=
  match names with
  | [] => Ret cfg
  | name :: rest =>
      v <- call (Environ name) ;;
      match v with
      | Some val => load_names (setattr cfg name (override name val)) rest
      | None => load_names cfg rest
      end
  end.

(** [load_env_overrides], lines 74-88, the module [config] being passed
    in and given back. *)
Definition load_env_overrides (cfg : Config) : Prog Config :=
  load_names cfg OVERRIDABLE.

End WithInt.

(** [nginx_test], lines 98-101. *)
Definition nginx_test : Prog bool :=
  res <- subprocess_run (strs ["/usr/sbin/nginx"; "-t"]) ;;
  log (strip_ws (snd res)) ;;
  Ret (fst res =? 0)%Z.

(** [nginx_reload], lines 103-110. *)
Definition nginx_reload : Prog bool :=
  log "Reloading Nginx..." ;;
  res <- subprocess_run (strs ["systemctl"; "reload"; "nginx"]) ;;
  if (fst res =? 0)%Z then
    success "Nginx reloaded successfully" ;;
    Ret true
  else
    error "Failed to reload Nginx" ;;
    Ret false.

(** [request_certificate], lines 132-151. *)
Definition request_certificate (cfg : Config) (domain : string) (email : PyVal)
  : Prog bool :=
  log ("Requesting SSL certificate for domain: " ++ domain) ;;
  let args :=
    [ VStr (CERTBOT_PATH cfg); VStr "certonly"; VStr "--nginx";
      VStr "--non-interactive"; VStr "--agree-tos";
      VStr "--email"; email;
      VStr "--domains"; VStr domain ] in
  args <- (if truthy (STAGING cfg) then
             log "Using Let's Encrypt staging environment" ;;
             Ret (args ++ [VStr "--staging"])%list
           else Ret args) ;;
  args <- (if truthy (FORCE_RENEWAL cfg) then
             log "Forcing certificate renewal" ;;
             Ret (args ++ [VStr "--force-renewal"])%list
           else Ret args) ;;
  res <- subprocess_run args ;;
  if (fst res =? 0)%Z then
    success ("SSL certificate obtained successfully for " ++ domain) ;;
    Ret true
  else
    error ("Failed to obtain SSL certificate for " ++ domain) ;;
    Ret false.

(** [create_nginx_config], lines 220-227.  The text [_nginx_server_block]
    renders is not part of the call. *)
Definition create_nginx_config (cfg : Config) (domain : string) : Prog string :=
  let target := path (NGINX_SITES_AVAILABLE cfg) domain in
  log ("Creating Nginx configuration for " ++ domain ++ ": " ++ target) ;;
  r <- call (Mkdir (NGINX_SITES_AVAILABLE cfg)) ;; raise_if r ;;
  r <- call (WriteText target) ;; raise_if r ;;
  success ("Nginx configuration created: " ++ target) ;;
  Ret target.

(** [enable_nginx_site], lines 229-241. *)
Definition enable_nginx_site (cfg : Config) (domain : string) : Prog bool :=
  let src := path (NGINX_SITES_AVAILABLE cfg) domain in
  let dst := path (NGINX_SITES_ENABLED cfg) domain in
  present <- call (PathExists src) ;;
  if negb present then
    error ("Nginx configuration file not found: " ++ src) ;;
    Ret false
  else
    r <- call (Mkdir (NGINX_SITES_ENABLED cfg)) ;; raise_if r ;;
    link <- call (PathIsSymlink dst) ;;
    there <- (if link : bool then Ret true else call (PathExists dst)) ;;
    if there : bool then
      log ("Site already enabled: " ++ domain) ;;
      Ret true
    else
      r <- call (SymlinkTo dst src) ;; raise_if r ;;
      success ("Nginx site enabled: " ++ domain) ;;
      Ret true.

(** [check_domain_exists], lines 243-244. *)
Definition check_domain_exists (cfg : Config) (domain : string) : Prog bool :=
  available <- call (PathExists (path (NGINX_SITES_AVAILABLE cfg) domain)) ;;
  if available : bool then Ret true
  else call (PathExists (path (NGINX_SITES_ENABLED cfg) domain)).

(** Lines 298-306 of [delete_domain]: the enabled reference.  [ok] is the
    local flag of line 294, passed from one step to the next. *)
Definition disable_site (cfg : Config) (domain : string) (ok : bool)
  : Prog bool :=
  let en := path (NGINX_SITES_ENABLED cfg) domain in
  link <- call (PathIsSymlink en) ;;
  enabled <- (if link : bool then Ret true else call (PathExists en)) ;;
  if enabled : bool then
    try_except
      (r <- call (Unlink en) ;; raise_if r ;;
       success ("Nginx site disabled: " ++ domain) ;;
       Ret ok)
      (fun e =>
         error ("Failed to disable Nginx site: " ++ domain
                ++ " (" ++ e ++ ")") ;;
         Ret false)
  else
    log ("Nginx site not enabled for: " ++ domain) ;;
    Ret ok.

(** Lines 308-316: the available configuration file. *)
Definition remove_config (cfg : Config) (domain : string) (ok : bool)
  : Prog bool :=
  let av := path (NGINX_SITES_AVAILABLE cfg) domain in
  available <- call (PathExists av) ;;
  if available : bool then
    try_except
      (r <- call (Unlink av) ;; raise_if r ;;
       success ("Nginx configuration removed: " ++ domain) ;;
       Ret ok)
      (fun e =>
         error ("Failed to remove Nginx configuration: " ++ domain
                ++ " (" ++ e ++ ")") ;;
         Ret false)
  else
    log ("Nginx configuration not found for: " ++ domain) ;;
    Ret ok.

Definition revoke_args (cfg : Config) (domain : string) : list PyVal :=
  strs [CERTBOT_PATH cfg; "revoke"; "--cert-path";
        path (path LIVE domain) "cert.pem"; "--non-interactive"].

Definition delete_args (cfg : Config) (domain : string) : list PyVal :=
  strs [CERTBOT_PATH cfg; "delete"; "--cert-name"; domain; "--non-interactive"].

(** Lines 318-326: the certificate.  Neither return code is looked at. *)
Definition revoke_certificate (cfg : Config) (domain : string) : Prog unit :=
  let live_dir := path LIVE domain in
  live <- call (PathExists live_dir) ;;
  if live : bool then
    log ("Revoking SSL certificate for " ++ domain) ;;
    subprocess_run (revoke_args cfg domain) ;;
    log ("Deleting certificate files for " ++ domain) ;;
    subprocess_run (delete_args cfg domain) ;;
    Ret tt
  else
    log ("SSL certificate not found for: " ++ domain).

Definition DELETED (domain : string) : string :=
  "Domain " ++ domain ++ " deleted successfully".

Definition PARTIALLY_DELETED (domain : string) : string :=
  "Domain " ++ domain ++ " partially deleted (some operations failed)".

(** Lines 328-339: test, reload and report.  The last message is no
    f-string in the source and is logged as it stands. *)
Definition finish_delete (domain : string) (ok : bool) : Prog unit :=
  valid <- nginx_test ;;
  if valid : bool then
    reloaded <- nginx_reload ;;
    if reloaded : bool then
      if ok then success (DELETED domain)
      else warning (PARTIALLY_DELETED domain)
    else
      error ("Failed to reload Nginx after deleting " ++ domain) ;;
      sys_exit 1
  else
    error "Nginx configuration is invalid after deleting {domain}" ;;
    sys_exit 1.

(** [delete_domain], lines 293-339. *)
Definition delete_domain (cfg : Config) (domain : string) : Prog unit :=
  let ok := true in
  ok <- disable_site cfg domain ok ;;
  ok <- remove_config cfg domain ok ;;
  revoke_certificate cfg domain ;;
  finish_delete domain ok.

(** The command lines of [main] embedded here: [request <domain> [email]]
    and [delete <domain>]. *)
Inductive Args : Type :=
| ArgsRequest (domain : string) (email : option string)
| ArgsDelete (domain : string).

Definition arg_domain (args : Args) : string :=
  match args with
  | ArgsRequest domain _ => domain
  | ArgsDelete domain => domain
  end.

Section Main.
Variable py_int : string -> option Z.

(** Lines 342-379 of [main]: the steps every [request] and [delete] goes
    through before its own branch; they give the configuration in force. *)
Definition prelude (cfg0 : Config) (args : Args) : Prog Config :=
  require_root ;;
  cfg <- load_env_overrides py_int cfg0 ;;
  check_dependencies cfg ;;
  valid <- validate_domain (arg_domain args) ;;
  if negb valid then sys_exit 1 else Ret cfg.

(** Lines 381-395 of [main]: the branch [request]. *)
Definition request (cfg : Config) (domain : string) (email : PyVal) : Prog unit :=
  configured <- check_domain_exists cfg domain ;;
  if configured : bool then
    warning ("Domain " ++ domain ++ " is already configured") ;;
    sys_exit 0
  else
    issued <- request_certificate cfg domain email ;;
    if issued : bool then
      create_nginx_config cfg domain ;;
      enable_nginx_site cfg domain ;;
      valid <- nginx_test ;;
      if valid : bool then
        nginx_reload ;;
        success ("Domain " ++ domain ++ " configured successfully")
      else
        error ("Failed to configure Nginx for " ++ domain) ;;
        sys_exit 1
    else sys_exit 1.

(** [main], lines 341-425, on a parsed command line.  The optional e-mail
    argument defaults to [config.EMAIL] as it stands after the overrides. *)
Definition main (cfg0 : Config) (args : Args) : Prog unit :=
  cfg <- prelude cfg0 args ;;
  match args with
  | ArgsRequest domain email =>
      request cfg domain
        (match email with Some e => VStr e | None => EMAIL cfg end)
  | ArgsDelete domain => delete_domain cfg domain
  end.

End Main.

End ManageDomain.

(** ** The hostname grammar in the words of the specification *)

Module Hostname.
Import PyStr ManageDomain.

(** The characters of a string. *)
Definition chars (s : string) : list ascii := list_ascii_of_string s.

Definition is_hyphen (c : ascii) : bool := Ascii.eqb c "-".

(** A label: 1 to 63 characters, alphanumerics and hyphens, no hyphen at
    either end. *)
Definition label (l : string) : bool :=
  let cs := chars l in
  ((1 <=? List.length cs)%nat && (List.length cs <=? 63)%nat
   && forallb is_alnum_hyphen cs
   && negb (is_hyphen (hd "a"%char cs))
   && negb (is_hyphen (last cs "a"%char)))%bool.

(** [label(.label)*] *)
Definition hostname (s : string) : bool :=
  forallb label (split "." s).

(** The labels after the first, each behind its dot. *)
Fixpoint dotted (labels : list string) : string :=
  match labels with
  | [] => EmptyString
  | l :: rest => "." ++ l ++ dotted rest
  end.

End Hostname.

(** ** What a trace shows *)

Module Observe.
Import PyStr Py VerifyDns.

(** The waiting and the A-record queries of a run, in their order. *)
Inductive Tick : Type :=
| Wait (seconds : Z)
| Attempt.

Definition tick_of (e : Event) : list Tick :=
  match e with
  | Ev (Sleep s) _ => [Wait s]
  | Ev (DnsResolve _ _ _ rtype) _ => if rtype =? "A" then [Attempt] else []
  | _ => []
  end.

Definition timeline (t : Trace) : list Tick := flat_map tick_of t.

(** Attempt [j] (counted from 0) with the wait before it. *)
Definition slot (j : nat) : list Tick :=
  match j with
  | O => [Attempt]
  | S _ => [Wait (2 ^ Z.of_nat j); Attempt]
  end.

(** The timeline of [m] attempts from attempt [k] on. *)
Definition schedule (k m : nat) : list Tick := flat_map slot (seq k m).

(** Seconds waited in a timeline. *)
Definition waited (ticks : list Tick) : Z :=
  fold_right (fun tk acc => match tk with
                            | Wait s => (s + acc)%Z
                            | Attempt => acc
                            end) 0%Z ticks.

Definition wait_of (e : Event) : Z :=
  match e with
  | Ev (Sleep s) _ => s
  | _ => 0%Z
  end.

(** Seconds slept during a run. *)
Definition total_wait (t : Trace) : Z :=
  fold_right (fun e acc => (wait_of e + acc)%Z) 0%Z t.

(** What [resolve_records] made of the answer to each A-record query. *)
Definition a_result_of (e : Event) : list (list string) :=
  match e with
  | Ev (DnsResolve _ _ _ rtype) r =>
      if rtype =? "A" then
        [match r with
         | Some answers => map (rstrip is_dot) answers
         | None => []
         end]
      else []
  | _ => []
  end.

Definition a_results (t : Trace) : list (list string) := flat_map a_result_of t.

(** A resolver that could not be made. *)
Definition no_resolver (e : Event) : bool :=
  match e with
  | Ev (NewResolver _ _) (Some _) => true
  | _ => false
  end.

(** The wait before attempt [j], the attempt itself not yet made. *)
Definition pending (j : nat) : list Tick :=
  match j with
  | O => []
  | S _ => [Wait (2 ^ Z.of_nat j)]
  end.

(** A run of the retry loop that starts at attempt [k] with [n] attempts
    left and makes [m] A-record queries.  Either every resolver was made:
    then it makes between 1 and [n] attempts, each after its wait, and
    returns the comparison of the last answer with the expected IPs.  Or a
    resolver could not be made and its exception ends the run: the one for
    the CNAME query of attempt [m], the A-record query of which resolved
    nothing, or the one for the A-record query of an attempt still
    allowed, after the wait before it. *)
Definition retry_run (expected_ips : list string) (k n : nat)
  (o : Outcome bool) (t : Trace) : Prop :=
  exists m,
    List.length (a_results t) = m
    /\ ((1 <= m <= n
         /\ timeline t = schedule k m
         /\ existsb no_resolver t = false
         /\ o = Returned (any_expected (last (a_results t) []) expected_ips))
        \/ ((exists e, o = Raised (PyException e))
            /\ existsb no_resolver t = true
            /\ ((1 <= m <= n
                 /\ timeline t = schedule k m
                 /\ last (a_results t) [] = [])
                \/ (m < n
                    /\ timeline t = (schedule k m ++ pending (k + m))%list)))).

(** A DNS query of any type. *)
Definition is_dns_query (c : Call) : bool :=
  match c with
  | DnsResolve _ _ _ _ => true
  | _ => false
  end.

(** A call to certbot that asks for a certificate. *)
Definition is_issuance (c : Call) : bool :=
  match c with
  | Run (_ :: VStr sub :: _) => sub =? "certonly"
  | _ => false
  end.

(** A call that creates, changes or removes something on the file
    system. *)
Definition is_fs_change (c : Call) : bool :=
  match c with
  | Unlink _ | Mkdir _ | WriteText _ | SymlinkTo _ _ => true
  | _ => false
  end.

(** A subprocess that ended with a status other than 0, or did not start. *)
Definition run_failed (r : RunResult) : bool :=
  match r with
  | Completed rc _ => negb (rc =? 0)%Z
  | RunError _ => true
  end.

(** An issuance that failed. *)
Definition failed_issuance (e : Event) : bool :=
  match e with
  | Ev (Run args) r => is_issuance (Run args) && run_failed r
  | _ => false
  end.



(** A call that neither asks for a certificate nor changes the file
    system. *)
Definition is_calm (c : Call) : bool :=
  negb (is_issuance c) && negb (is_fs_change c).

Definition calm (t : Trace) : Prop :=
  Forall (fun e => is_calm (call_of e) = true) t.

(** A run of calm calls that, if it ends early, ends with [sys.exit(1)]. *)
Definition preflight {A} (o : Outcome A) (t : Trace) : Prop :=
  calm t /\ forall e, o = Raised e -> e = SystemExit 1.

(** No event of the trace changes the file system. *)
Definition fs_untouched (t : Trace) : Prop :=
  Forall (fun e => is_fs_change (call_of e) = false) t.






(** The last call of a run. *)
Definition last_call (t : Trace) : option Call :=
  last (map (fun e => Some (call_of e)) t) None.

(** The two reports a completed [delete] ends with. *)
Definition REPORT_DELETED (domain : string) : Call :=
  Log "GREEN" ("[SUCCESS] " ++ ManageDomain.DELETED domain).


End Observe.

(** ** Sample worlds *)

Module Worlds.
Import PyStr Py.

(** A resolver that answers from three scripts, one per record type, and a
    fixed answer of the Cloudflare API. *)
Record Dns : Type := {
  a_script : list (option (list string));
  cname_script : list (option (list string));
  ns_script : list (option (list string));
  cloudflare_ips : option (list string * list string)
}.

Definition next {A} (script : list (option A)) : option A * list (option A) :=
  match script with
  | [] => (None, [])
  | x :: rest => (x, rest)
  end.

Definition dns_world : Handler Dns :=
  fun c w =>
    match c return Resp c * Dns with
    | Log _ _ => (tt, w)
    | PrintJson _ => (tt, w)
    | Sleep _ => (tt, w)
    | NewResolver _ _ => (None, w)
    | DnsResolve _ _ _ rtype =>
        if rtype =? "A" then
          let (r, rest) := next (a_script w) in
          (r, {| a_script := rest; cname_script := cname_script w;
                 ns_script := ns_script w; cloudflare_ips := cloudflare_ips w |})
        else if rtype =? "CNAME" then
          let (r, rest) := next (cname_script w) in
          (r, {| a_script := a_script w; cname_script := rest;
                 ns_script := ns_script w; cloudflare_ips := cloudflare_ips w |})
        else
          let (r, rest) := next (ns_script w) in
          (r, {| a_script := a_script w; cname_script := cname_script w;
                 ns_script := rest; cloudflare_ips := cloudflare_ips w |})
    | FetchCloudflareIps => (cloudflare_ips w, w)
    | Geteuid => (0%Z, w)
    | Environ _ => (None, w)
    | Which _ => (false, w)
    | PathExists _ => (false, w)
    | PathIsSymlink _ => (false, w)
    | Unlink _ => (None, w)
    | Mkdir _ => (None, w)
    | WriteText _ => (None, w)
    | SymlinkTo _ _ => (None, w)
    | Run _ => (RunError "FileNotFoundError", w)
    end.

(** A domain behind Cloudflare's proxy. *)
Definition proxied_zone : Dns := {|
  a_script := [Some ["104.17.2.3"; "104.18.4.5"]];
  cname_script := [];
  ns_script := [Some ["kate.ns.cloudflare.com."; "greg.ns.cloudflare.com."]];
  cloudflare_ips := None
|}.

(** A domain whose A record appears at the third query. *)
Definition slow_zone : Dns := {|
  a_script := [None; Some []; Some ["203.0.113.10"]];
  cname_script := [None; Some ["edge.example.net."]];
  ns_script := [Some ["ns-12.awsdns-01.com."]];
  cloudflare_ips := None
|}.

(** A host: its file system as the list of paths that exist and the list
    of those that are symbolic links, the paths whose removal is refused,
    and the exit statuses of the tools. *)
Record Host : Type := {
  euid : Z;
  environ : list (string * string);
  on_path : list string;
  existing : list string;
  links : list string;
  read_only : list string;
  issue_status : Z;
  revoke_status : Z;
  nginx_status : Z;
  reload_status : Z
}.

Definition with_fs (w : Host) (ex ln : list string) : Host := {|
  euid := euid w; environ := environ w; on_path := on_path w;
  existing := ex; links := ln; read_only := read_only w;
  issue_status := issue_status w; revoke_status := revoke_status w;
  nginx_status := nginx_status w; reload_status := reload_status w
|}.

Definition remove (p : string) (l : list string) : list string :=
  filter (fun q => negb (q =? p)) l.

Fixpoint lookup (name : string) (env : list (string * string)) : option string :=
  match env with
  | [] => None
  | (k, v) :: rest => if k =? name then Some v else lookup name rest
  end.

(** The tool a command line starts: its exit status on this host. *)
Definition tool (w : Host) (args : list PyVal) : RunResult :=
  match args with
  | VStr _ :: VStr "certonly" :: _ => Completed (issue_status w) ""
  | VStr _ :: VStr "revoke" :: _ => Completed (revoke_status w) ""
  | VStr _ :: VStr "delete" :: _ => Completed (revoke_status w) ""
  | VStr _ :: VStr "-t" :: _ => Completed (nginx_status w) "nginx: configuration file test"
  | VStr _ :: VStr "reload" :: _ => Completed (reload_status w) ""
  | _ => RunError "TypeError"
  end.

Definition host_world : Handler Host :=
  fun c w =>
    match c return Resp c * Host with
    | Log _ _ => (tt, w)
    | PrintJson _ => (tt, w)
    | Sleep _ => (tt, w)
    | NewResolver _ _ => (None, w)
    | DnsResolve _ _ _ _ => (None, w)
    | FetchCloudflareIps => (None, w)
    | Geteuid => (euid w, w)
    | Environ name => (lookup name (environ w), w)
    | Which p => (mem p (on_path w), w)
    | PathExists p => (mem p (existing w), w)
    | PathIsSymlink p => (mem p (links w), w)
    | Unlink p =>
        if mem p (read_only w) then (Some "Permission denied", w)
        else if mem p (existing w)
             then (None, with_fs w (remove p (existing w)) (remove p (links w)))
             else (Some "No such file or directory", w)
    | Mkdir p => (None, with_fs w (p :: existing w) (links w))
    | WriteText p => (None, with_fs w (p :: existing w) (links w))
    | SymlinkTo link _ =>
        if mem link (existing w) then (Some "File exists", w)
        else (None, with_fs w (link :: existing w) (link :: links w))
    | Run args => (tool w args, w)
    end.

(** A host where example.com is fully configured, run as root. *)
Definition live_host : Host := {|
  euid := 0;
  environ := [];
  on_path := ["/usr/bin/certbot"; "/usr/sbin/nginx"; "dig"];
  existing := [ "/etc/nginx/sites-available/example.com";
                "/etc/nginx/sites-enabled/example.com";
                "/etc/letsencrypt/live/example.com" ];
  links := ["/etc/nginx/sites-enabled/example.com"];
  read_only := [];
  issue_status := 0;
  revoke_status := 0;
  nginx_status := 0;
  reload_status := 0
|}.


(** A host without example.com where certbot cannot issue. *)
Definition issue_fails_host : Host := {|
  euid := 0;
  environ := [];
  on_path := ["/usr/bin/certbot"; "/usr/sbin/nginx"; "dig"];
  existing := [];
  links := [];
  read_only := [];
  issue_status := 1;
  revoke_status := 0;
  nginx_status := 0;
  reload_status := 0
|}.

(** A decimal reading of [int(s)] for the sample runs. *)
Definition int_of_digits (s : string) : option Z := IPv4.decimal s.

End Worlds.

(** ** More of what a trace shows *)

Module Tally.
Import PyStr Py VerifyDns Observe.

(** The name and record type of each DNS query of a run. *)
Definition dns_call_of (e : Event) : list (string * string) :=
  match e with
  | Ev (DnsResolve _ _ qname rtype) _ => [(qname, rtype)]
  | _ => []
  end.

Definition dns_calls (t : Trace) : list (string * string) :=
  flat_map dns_call_of t.

(** What [resolve_records] made of the answer to each DNS query. *)
Definition dns_answer_of (e : Event) : list (list string) :=
  match e with
  | Ev (DnsResolve _ _ _ _) r =>
      [match r with
       | Some answers => map (rstrip is_dot) answers
       | None => []
       end]
  | _ => []
  end.

Definition dns_answers (t : Trace) : list (list string) :=
  flat_map dns_answer_of t.

(** A run of the name-server lookup for [base], of [k] queries.  Either
    every resolver was made: then there are between 1 and [tries] queries,
    all but the last answered with nothing, and the last answer is
    returned.  Or, after fewer than [tries] queries all answered with
    nothing, the resolver for the next could not be made, and its exception
    ends the run. *)
Definition lookup_run (base : string) (tries : nat)
  (o : Outcome (list string)) (t : Trace) : Prop :=
  exists k,
    dns_calls t = repeat (base, "NS") k
    /\ ((exists final,
           1 <= k <= tries
           /\ dns_answers t = (repeat [] (k - 1) ++ [final])%list
           /\ (k < tries -> final <> [])
           /\ existsb no_resolver t = false
           /\ o = Returned final)
        \/ (k < tries
            /\ dns_answers t = repeat [] k
            /\ existsb no_resolver t = true
            /\ exists e, o = Raised (PyException e))).

(** The objects printed during a run. *)
Definition printed_of (e : Event) : list (list (string * string)) :=
  match e with
  | Ev (PrintJson obj) _ => [obj]
  | _ => []
  end.

Definition printed (t : Trace) : list (list (string * string)) :=
  flat_map printed_of t.

(** [obj.get(key)] on a printed object. *)
Fixpoint field (key : string) (obj : list (string * string)) : option string :=
  match obj with
  | [] => None
  | (k, v) :: rest => if k =? key then Some v else field key rest
  end.

(** A call verify-dns.py may make: a log line, a sleep, the making of a
    resolver, a DNS query, the fetch of the Cloudflare ranges, a printed
    object. *)
Definition is_lookup (c : Call) : bool :=
  match c with
  | Log _ _ | Sleep _ | NewResolver _ _ | DnsResolve _ _ _ _
  | FetchCloudflareIps | PrintJson _ => true
  | _ => false
  end.

Definition lookups_only (t : Trace) : Prop :=
  Forall (fun e => is_lookup (call_of e) = true) t.

(** A run of such calls that prints nothing, and returns or ends with an
    exception. *)
Definition silent {A} (o : Outcome A) (t : Trace) : Prop :=
  lookups_only t /\ printed t = []
  /\ ((exists a, o = Returned a) \/ exists e, o = Raised (PyException e)).

(** How a run of [main] of verify-dns.py ends when [verify_domain_a_records]
    can only return values in [V]: with an uncaught exception and nothing
    printed, or with one object printed last and the exit code that goes
    with its message. *)
Definition report_run (V : bool -> Prop) (o : Outcome unit) (t : Trace) : Prop :=
  lookups_only t
  /\ match o with
     | Returned _ => False
     | Raised (PyException e) => printed t = []
     | Raised (SystemExit code) =>
         exists obj,
           printed t = [obj]
           /\ last_call t = Some (PrintJson obj)
           /\ ((code = 0%Z /\ field "message" obj = Some "matched" /\ V true)
               \/ (code = 0%Z /\ obj = PROXY_ENABLED "Cloudflare")
               \/ (code = 1%Z /\ field "message" obj = Some "not matched"
                   /\ V false))
           /\ (field "cloudflare_proxy" obj = None
               <-> field "dnsProvider" obj <> Some "Cloudflare")
     end.

(** The sum 2 + 4 + ... + 2^(n-1): the seconds waited before [n] attempts. *)
Definition backoff_total (n : nat) : Z := (2 ^ Z.of_nat n - 2)%Z.

(** The A-record queries that resolved nothing, and the CNAME queries. *)
Definition empty_answers (results : list (list string)) : nat :=
  List.length (filter (fun r => negb (nonempty r)) results).

Definition cname_query_of (e : Event) : list unit :=
  match e with
  | Ev (DnsResolve _ _ _ rtype) _ => if rtype =? "CNAME" then [tt] else []
  | _ => []
  end.

Definition cname_queries (t : Trace) : nat :=
  List.length (flat_map cname_query_of t).

(** A run of the retry loop for [domain] with [n] attempts left: every
    query is for the domain; a CNAME query follows an A-record query that
    resolved nothing and no other, and follows each of them when the run
    returns (a resolver that cannot be made ends the run before the query);
    and false is returned only after all [n] attempts. *)
Definition budget_run (domain : string) (n : nat)
  (o : Outcome bool) (t : Trace) : Prop :=
  Forall (fun q => fst q = domain) (dns_calls t)
  /\ cname_queries t <= empty_answers (a_results t)
  /\ (forall b, o = Returned b ->
      cname_queries t = empty_answers (a_results t))
  /\ List.length (dns_calls t) = List.length (a_results t) + cname_queries t
  /\ (o = Returned false -> List.length (a_results t) = n).

End Tally.


(** ** What a run of manage-domain.py did *)

Module Ledger.
Import PyStr Py ManageDomain Observe.

(** A call that only asks or logs: it changes nothing and starts nothing. *)
Definition is_probe (c : Call) : bool :=
  match c with
  | Log _ _ | Geteuid | Environ _ | Which _ | PathExists _ | PathIsSymlink _ =>
      true
  | _ => false
  end.

Definition probes_only (t : Trace) : Prop :=
  Forall (fun e => is_probe (call_of e) = true) t.

(** A run of probes that, if it ends early, ends with [sys.exit(1)]. *)
Definition probing {A} (o : Outcome A) (t : Trace) : Prop :=
  probes_only t /\ forall e, o = Raised e -> e = SystemExit 1.

(** The command lines started during a run. *)
Definition run_of (e : Event) : list (list PyVal) :=
  match e with
  | Ev (Run args) _ => [args]
  | _ => []
  end.

Definition runs (t : Trace) : list (list PyVal) := flat_map run_of t.

(** The changes to the file system asked for during a run. *)
Definition fs_change_of (e : Event) : list Call :=
  if is_fs_change (call_of e) then [call_of e] else [].

Definition fs_changes (t : Trace) : list Call := flat_map fs_change_of t.

(** The changes [request] may make for a domain: the two directories, the
    configuration file and the link to it. *)
Definition request_change (cfg : Config) (domain : string) (c : Call) : Prop :=
  c = Mkdir (NGINX_SITES_AVAILABLE cfg)
  \/ c = WriteText (path (NGINX_SITES_AVAILABLE cfg) domain)
  \/ c = Mkdir (NGINX_SITES_ENABLED cfg)
  \/ c = SymlinkTo (path (NGINX_SITES_ENABLED cfg) domain)
         (path (NGINX_SITES_AVAILABLE cfg) domain).

(** The changes [delete] may make for a domain: the removal of the link
    and of the configuration file. *)
Definition delete_change (cfg : Config) (domain : string) (c : Call) : Prop :=
  c = Unlink (path (NGINX_SITES_ENABLED cfg) domain)
  \/ c = Unlink (path (NGINX_SITES_AVAILABLE cfg) domain).

(** The command lines [delete] may start for a domain. *)
Definition delete_command (cfg : Config) (domain : string)
  (args : list PyVal) : Prop :=
  args = revoke_args cfg domain
  \/ args = delete_args cfg domain
  \/ args = strs ["/usr/sbin/nginx"; "-t"]
  \/ args = strs ["systemctl"; "reload"; "nginx"].








(** A probe of the file system that found something. *)
Definition found (e : Event) : bool :=
  match e with
  | Ev (PathExists _) true | Ev (PathIsSymlink _) true => true
  | _ => false
  end.

(** An [nginx -t] that did not end with status 0. *)
Definition failed_test (e : Event) : bool :=
  match e with
  | Ev (Run (_ :: VStr sub :: _)) (Completed rc _) =>
      (sub =? "-t") && negb (rc =? 0)%Z
  | _ => false
  end.

(** A [systemctl reload nginx], and one that ran to its end. *)
Definition is_reload (args : list PyVal) : bool :=
  match args with
  | _ :: VStr sub :: _ => sub =? "reload"
  | _ => false
  end.

Definition reload_started (e : Event) : bool :=
  match e with
  | Ev (Run args) _ => is_reload args
  | _ => false
  end.

Definition reload_completed (e : Event) : bool :=
  match e with
  | Ev (Run args) (Completed _ _) => is_reload args
  | _ => false
  end.

Definition reload_passed (e : Event) : bool :=
  match e with
  | Ev (Run args) (Completed rc _) => is_reload args && (rc =? 0)%Z
  | _ => false
  end.

Definition reload_failed (e : Event) : bool :=
  match e with
  | Ev (Run args) (Completed rc _) => is_reload args && negb (rc =? 0)%Z
  | _ => false
  end.

(** A change to the file system that raised. *)
Definition refused (e : Event) : bool :=
  match e with
  | Ev (Unlink _) (Some _) | Ev (Mkdir _) (Some _)
  | Ev (WriteText _) (Some _) | Ev (SymlinkTo _ _) (Some _) => true
  | _ => false
  end.

(** An issuance and an [nginx -t] that ended with status 0. *)
Definition issued (e : Event) : bool :=
  match e with
  | Ev (Run args) (Completed rc _) => is_issuance (Run args) && (rc =? 0)%Z
  | _ => false
  end.

Definition test_passed (e : Event) : bool :=
  match e with
  | Ev (Run (_ :: VStr sub :: _)) (Completed rc _) => (sub =? "-t") && (rc =? 0)%Z
  | _ => false
  end.

Definition CONFIGURED (domain : string) : Call :=
  Log "GREEN" ("[SUCCESS] " ++ "Domain " ++ domain ++ " configured successfully").

(** What every run of the branch [request] keeps to, for the directories
    of [cfg]: it changes only the files of its domain; it returns exactly
    when its last line is the success line, and then certbot issued, nginx
    accepted the configuration, the configuration file was written and no
    change raised; it returns whenever the reload ran to its end; and
    after a failed [nginx -t] it ends with status 1 without a reload, the
    written file left in place. *)
Definition request_run (cfg : Config) (domain : string)
  (o : Outcome unit) (t : Trace) : Prop :=
  Forall (request_change cfg domain) (fs_changes t)
  /\ t <> []
  /\ (o = Returned tt <-> last_call t = Some (CONFIGURED domain))
  /\ (o = Returned tt ->
      existsb issued t = true
      /\ existsb test_passed t = true
      /\ In (WriteText (path (NGINX_SITES_AVAILABLE cfg) domain)) (fs_changes t)
      /\ existsb refused t = false)
  /\ (existsb reload_completed t = true -> o = Returned tt)
  /\ (existsb failed_test t = true ->
      o = Raised (SystemExit 1)
      /\ existsb reload_started t = false
      /\ In (WriteText (path (NGINX_SITES_AVAILABLE cfg) domain)) (fs_changes t)).

(** The command lines [delete] starts when no certificate is there. *)
Definition nginx_command (args : list PyVal) : Prop :=
  args = strs ["/usr/sbin/nginx"; "-t"]
  \/ args = strs ["systemctl"; "reload"; "nginx"].

(** A tool that [which_or_die] found, on the search path or as a file. *)
Definition tool_found (p : string) (t : Trace) : Prop :=
  In (Ev (Which p) true) t \/ In (Ev (PathExists p) true) t.

(** How Python takes the text of a flag that is neither true nor false:
    any text but the empty one counts as true. *)
Definition flag_text_truth (val : string) : bool :=
  negb (val =? "") && negb (lower val =? "false").

(** A run that, if it ends early, ends behind an error line. *)
Definition ends_in_error {A} (o : Outcome A) (t : Trace) : Prop :=
  forall e, o = Raised e -> exists msg, last_call t = Some (Log "RED" msg).

(** The answers of the environment to the lookups of a run. *)
Definition environ_of (e : Event) : list (string * option string) :=
  match e with
  | Ev (Environ name) r => [(name, r)]
  | _ => []
  end.

Definition environ_lookups (t : Trace) : list (string * option string) :=
  flat_map environ_of t.

(** Two configurations agree on what the environment cannot override. *)
Definition same_fixed (a b : Config) : Prop :=
  NGINX_SITES_AVAILABLE a = NGINX_SITES_AVAILABLE b
  /\ NGINX_SITES_ENABLED a = NGINX_SITES_ENABLED b
  /\ CERTBOT_PATH a = CERTBOT_PATH b
  /\ DNS_SERVERS a = DNS_SERVERS b
  /\ DNS_TIMEOUT a = DNS_TIMEOUT b
  /\ DNS_RETRIES a = DNS_RETRIES b.

(** A character an accepted domain may hold. *)
Definition domain_char (c : ascii) : bool :=
  is_alnum_hyphen c || is_dot c || Ascii.eqb c "010".

(** A host without example.com where every tool works, and the same host
    when the reload, or the test of the configuration, fails. *)
Definition new_host : Worlds.Host := {|
  Worlds.euid := 0;
  Worlds.environ := [];
  Worlds.on_path := ["/usr/bin/certbot"; "/usr/sbin/nginx"; "dig"];
  Worlds.existing := [];
  Worlds.links := [];
  Worlds.read_only := [];
  Worlds.issue_status := 0;
  Worlds.revoke_status := 0;
  Worlds.nginx_status := 0;
  Worlds.reload_status := 0
|}.


Definition with_environ (w : Worlds.Host) (env : list (string * string))
  : Worlds.Host := {|
  Worlds.euid := Worlds.euid w;
  Worlds.environ := env;
  Worlds.on_path := Worlds.on_path w;
  Worlds.existing := Worlds.existing w;
  Worlds.links := Worlds.links w;
  Worlds.read_only := Worlds.read_only w;
  Worlds.issue_status := Worlds.issue_status w;
  Worlds.revoke_status := Worlds.revoke_status w;
  Worlds.nginx_status := Worlds.nginx_status w;
  Worlds.reload_status := Worlds.reload_status w
|}.

Definition with_tools (w : Worlds.Host) (nginx reload : Z) : Worlds.Host := {|
  Worlds.euid := Worlds.euid w;
  Worlds.environ := Worlds.environ w;
  Worlds.on_path := Worlds.on_path w;
  Worlds.existing := Worlds.existing w;
  Worlds.links := Worlds.links w;
  Worlds.read_only := Worlds.read_only w;
  Worlds.issue_status := Worlds.issue_status w;
  Worlds.revoke_status := Worlds.revoke_status w;
  Worlds.nginx_status := nginx;
  Worlds.reload_status := reload
|}.

End Ledger.

(** ** manage-domain.py: rendering, renewal and the DNS check *)

Module ManageMore.
Import PyStr Py Re ManageDomain Observe.
Local Open Scope prog_scope.

(** The double quote, as a string. *)
Definition DQ : string := String "034" EmptyString.

(** config.py, the attributes only [_nginx_server_block] reads.  The
    environment cannot override them. *)
Record Site : Type := {
  SSL_PROTOCOLS : string;
  SSL_CIPHERS : string;
  SSL_SESSION_CACHE : string;
  SSL_SESSION_TIMEOUT : string;
  HEALTH_CHECK_PATH : string;
  WEBSOCKET_ENABLED : bool;
  RATE_LIMIT_ENABLED : bool;
  RATE_LIMIT_ZONE : string;
  RATE_LIMIT_RATE : string
}.

Definition site : Site := {|
  SSL_PROTOCOLS := "TLSv1.2 TLSv1.3";
  SSL_CIPHERS := "ECDHE-RSA-AES128-GCM-SHA256:ECDHE-RSA-AES256-GCM-SHA384:ECDHE-RSA-AES128-SHA256:ECDHE-RSA-AES256-SHA384";
  SSL_SESSION_CACHE := "shared:SSL:10m";
  SSL_SESSION_TIMEOUT := "10m";
  HEALTH_CHECK_PATH := "/health";
  WEBSOCKET_ENABLED := true;
  RATE_LIMIT_ENABLED := false;
  RATE_LIMIT_ZONE := "custom_domain";
  RATE_LIMIT_RATE := "10r/s"
|}.

(** [str(v)], as an f-string formats a value. *)
Definition py_str (v : PyVal) : string :=
  match v with
  | VBool true => "True"
  | VBool false => "False"
  | VInt z => VerifyDns.show_Z z
  | VStr s => s
  end.

(** [_nginx_server_block], lines 153-218. *)
Definition _nginx_server_block (st : Site) (cfg : Config) (domain : string)
  : string :=
  let header0 := "add_header X-Frame-Options DENY;" in
  let header1 := "add_header X-Content-Type-Options nosniff;" in
  let header2 :=
    "add_header X-XSS-Protection " ++ DQ ++ "1; mode=block" ++ DQ ++ ";" in
  let header3 :=
    "add_header Strict-Transport-Security " ++ DQ
    ++ "max-age=31536000; includeSubDomains" ++ DQ ++ " always;" in
  let websocket :=
    if WEBSOCKET_ENABLED st then
      LF ++
      "        proxy_http_version 1.1;" ++ LF ++
      "        proxy_set_header Upgrade $http_upgrade;" ++ LF ++
      "        proxy_set_header Connection " ++ DQ ++ "upgrade" ++ DQ ++ ";" ++ LF ++
      "    "
    else "" in
  let rate :=
    if RATE_LIMIT_ENABLED st then
      LF ++
      "    limit_req_zone $binary_remote_addr zone=" ++ RATE_LIMIT_ZONE st ++ ":10m rate=" ++ RATE_LIMIT_RATE st ++ ";" ++ LF ++
      "    "
    else "" in
  "# Custom domain configuration for " ++ domain ++ LF ++
  "server {" ++ LF ++
  "    listen 80;" ++ LF ++
  "    server_name " ++ domain ++ " www." ++ domain ++ ";" ++ LF ++
  LF ++
  "    return 301 https://$server_name$request_uri;" ++ LF ++
  "}" ++ LF ++
  LF ++
  "server {" ++ LF ++
  "    listen 443 ssl http2;" ++ LF ++
  "    server_name " ++ domain ++ " www." ++ domain ++ ";" ++ LF ++
  rate ++ LF ++
  "    ssl_certificate /etc/letsencrypt/live/" ++ domain ++ "/fullchain.pem;" ++ LF ++
  "    ssl_certificate_key /etc/letsencrypt/live/" ++ domain ++ "/privkey.pem;" ++ LF ++
  LF ++
  "    ssl_protocols " ++ SSL_PROTOCOLS st ++ ";" ++ LF ++
  "    ssl_ciphers " ++ SSL_CIPHERS st ++ ";" ++ LF ++
  "    ssl_prefer_server_ciphers off;" ++ LF ++
  "    ssl_session_cache " ++ SSL_SESSION_CACHE st ++ ";" ++ LF ++
  "    ssl_session_timeout " ++ SSL_SESSION_TIMEOUT st ++ ";" ++ LF ++
  LF ++
  "    " ++ header0 ++ LF ++
  "    " ++ header1 ++ LF ++
  "    " ++ header2 ++ LF ++
  "    " ++ header3 ++ LF ++
  LF ++
  "    location / {" ++ LF ++
  "        proxy_pass http://" ++ py_str (BACKEND_APP_HOST cfg) ++ ":" ++ py_str (BACKEND_APP_PORT cfg) ++ ";" ++ LF ++
  "        proxy_set_header Host $host;" ++ LF ++
  "        proxy_set_header X-Real-IP $remote_addr;" ++ LF ++
  "        proxy_set_header X-Forwarded-For $proxy_add_x_forwarded_for;" ++ LF ++
  "        proxy_set_header X-Forwarded-Proto $scheme;" ++ LF ++
  "        " ++ websocket ++ LF ++
  "        proxy_connect_timeout 60s;" ++ LF ++
  "        proxy_send_timeout 60s;" ++ LF ++
  "        proxy_read_timeout 60s;" ++ LF ++
  "    }" ++ LF ++
  LF ++
  "    location " ++ HEALTH_CHECK_PATH st ++ " {" ++ LF ++
  "        access_log off;" ++ LF ++
  "        return 200 " ++ DQ ++ "healthy\n" ++ DQ ++ ";" ++ LF ++
  "        add_header Content-Type text/plain;" ++ LF ++
  "    }" ++ LF ++
  "}" ++ LF.

(** The texts the rendering takes from the configuration. *)
Definition settings (st : Site) (cfg : Config) : list string :=
  [ SSL_PROTOCOLS st; SSL_CIPHERS st; SSL_SESSION_CACHE st;
    SSL_SESSION_TIMEOUT st; HEALTH_CHECK_PATH st;
    RATE_LIMIT_ZONE st; RATE_LIMIT_RATE st;
    py_str (BACKEND_APP_HOST cfg); py_str (BACKEND_APP_PORT cfg) ].

(** Lines 427-435 of [main]: the branch [renew].  The result of the reload
    is not looked at. *)
Definition renew_args (cfg : Config) : list PyVal :=
  strs [CERTBOT_PATH cfg; "renew"; "--quiet"].

Definition renew (cfg : Config) : Prog unit :=
  log "Renewing certificates..." ;;
  res <- subprocess_run (renew_args cfg) ;;
  if (fst res =? 0)%Z then
    success "All certificates renewed successfully" ;;
    nginx_reload ;;
    Ret tt
  else
    error "Certificate renewal failed" ;;
    sys_exit 1.

Section Main.
Variable py_int : string -> option Z.

(** [main], lines 341-379 and 427-435, on the command line [renew]: no
    domain is given and none is validated. *)
Definition main_renew (cfg0 : Config) : Prog unit :=
  require_root ;;
  cfg <- load_env_overrides py_int cfg0 ;;
  check_dependencies cfg ;;
  renew cfg.

End Main.

(** A renewal that ended with status 0, and one that ran to its end. *)
Definition is_renewal (args : list PyVal) : bool :=
  match args with
  | _ :: VStr sub :: _ => sub =? "renew"
  | _ => false
  end.

Definition renewed (e : Event) : bool :=
  match e with
  | Ev (Run args) (Completed rc _) => is_renewal args && (rc =? 0)%Z
  | _ => false
  end.

Definition renew_command (cfg : Config) (args : list PyVal) : Prop :=
  args = renew_args cfg \/ args = strs ["systemctl"; "reload"; "nginx"].

(** What every run of [renew] keeps to: it changes no file and starts only
    the renewal and the reload; nginx is reloaded exactly when the renewal
    ended with status 0; and the run returns exactly when the reload ran to
    its end, whatever its status. *)
Definition renew_run (cfg : Config) (o : Outcome unit) (t : Trace) : Prop :=
  Ledger.fs_changes t = []
  /\ Forall (renew_command cfg) (Ledger.runs t)
  /\ existsb Ledger.reload_started t = existsb renewed t
  /\ (o = Returned tt <-> existsb Ledger.reload_completed t = true)
  /\ (o <> Returned tt -> exit_status o = 1%Z).

(** *** [verify_dns], lines 246-282 *)

Definition is_digit (c : ascii) : bool :=
  let n := nat_of_ascii c in ((48 <=? n) && (n <=? 57))%nat.

(** [\d+], on ASCII text. *)
Definition DIGITS : regex := Cat (Chr is_digit) (Star (Chr is_digit)).

(** The pattern of line 271; the leading [^] is void under [re.match]. *)
Definition A_LINE_RE : regex :=
  Cat DIGITS (Cat (Chr is_dot)
    (Cat DIGITS (Cat (Chr is_dot)
      (Cat DIGITS (Cat (Chr is_dot) (Cat DIGITS Eol)))))).

(** The ASCII characters at which [str.splitlines] breaks, the carriage
    return apart: line feed, vertical tab, form feed and the separators
    28..30. *)
Definition is_line_break (c : ascii) : bool :=
  let n := nat_of_ascii c in
  ((n =? 10) || (n =? 11) || (n =? 12) || ((28 <=? n) && (n <=? 30)))%nat.

Definition is_cr (c : ascii) : bool := Ascii.eqb c "013".

(** [s.splitlines()], [cur] being the line read so far.  A carriage
    return and the line feed behind it break once; the text behind the
    last break is a line unless it is empty. *)
Fixpoint lines_from (s cur : string) : list string :=
  match s with
  | EmptyString =>
      match cur with
      | EmptyString => []
      | _ => [cur]
      end
  | String c r =>
      if is_cr c then
        match r with
        | String d r' =>
            if Ascii.eqb d "010" then cur :: lines_from r' ""
            else cur :: lines_from r ""
        | EmptyString => [cur]
        end
      else if is_line_break c then cur :: lines_from r ""
      else lines_from r (cur ++ String c "")
  end.

Definition splitlines (s : string) : list string := lines_from s "".

(** Lines 269-272: the lines of dig's output that read as an address. *)
Definition dig_addresses (out : string) : list string :=
  filter (re_match A_LINE_RE) (map strip_ws (splitlines out)).

(** [sorted(resolved)] for a set of strings held as a list. *)
Fixpoint insert (x : string) (l : list string) : list string :=
  match l with
  | [] => [x]
  | y :: r =>
      match String.compare x y with
      | Lt => x :: l
      | Eq => l
      | Gt => y :: insert x r
      end
  end.

Definition sorted (xs : list string) : list string :=
  fold_right insert [] xs.

Definition dig_args (domain : string) : list PyVal :=
  strs ["dig"; "+short"; domain; "A"].

(** [verify_dns].  [dnspython] tells whether the import of line 15
    succeeded.  The resolver is made and configured outside the [try]
    (lines 253-258): an exception there is not caught.  It is given
    [config.DNS_SERVERS] when the list is not empty and keeps its own
    servers otherwise: an empty list in the call stands for these.
    [subprocess.check_output] raises when dig ends with a status other
    than 0. *)
Definition verify_dns (dnspython : bool) (cfg : Config) (domain : string)
  (expected_ips : list string) : Prog bool :=
  resolved <-
    (if dnspython then
       made <- call (NewResolver (DNS_SERVERS cfg) (DNS_TIMEOUT cfg)) ;;
       raise_if made ;;
       answers <- call (DnsResolve (DNS_SERVERS cfg) (DNS_TIMEOUT cfg) domain "A") ;;
       match answers with
       | Some texts => Ret texts
       | None => Ret []
       end
     else Ret []) ;;
  resolved <-
    (if negb (nonempty resolved) then
       res <- call (Run (dig_args domain)) ;;
       match res with
       | Completed returncode out =>
           if (returncode =? 0)%Z then Ret (dig_addresses out) else Ret []
       | RunError _ => Ret []
       end
     else Ret resolved) ;;
  if negb (nonempty resolved) then
    error ("No A records found for " ++ domain) ;;
    Ret false
  else
    log ("Resolved IPs: " ++ join " " (sorted resolved)) ;;
    if negb (nonempty expected_ips) then Ret true
    else Ret (VerifyDns.any_expected resolved expected_ips).

(** The addresses a run was given: by the resolver, and by dig. *)
Definition resolver_gave (e : Event) : list string :=
  match e with
  | Ev (DnsResolve _ _ _ _) (Some texts) => texts
  | _ => []
  end.

Definition dig_gave (e : Event) : list string :=
  match e with
  | Ev (Run (VStr tool :: _)) (Completed rc out) =>
      if (tool =? "dig") && (rc =? 0)%Z then dig_addresses out else []
  | _ => []
  end.

Definition from_resolver (t : Trace) : list string := flat_map resolver_gave t.
Definition from_dig (t : Trace) : list string := flat_map dig_gave t.

(** A run of digits that is not empty. *)
Definition digits (s : string) : bool :=
  nonempty (list_ascii_of_string s) && forallb is_digit (list_ascii_of_string s).

(** Four runs of digits with dots between them. *)
Definition dotted_quad (s : string) : bool :=
  match split "." s with
  | [a; b; c; d] => digits a && digits b && digits c && digits d
  | _ => false
  end.

(** *** [read_cert_expiry] and the branch [check] *)

(** [s.split("=", 1)[-1]]: what follows the first equals sign, or all of
    [s] when it has none. *)
Fixpoint after_equals (s : string) : option string :=
  match s with
  | EmptyString => None
  | String c r => if Ascii.eqb c "=" then Some r else after_equals r
  end.

Definition last_of_split_once (s : string) : string :=
  match after_equals s with
  | Some r => r
  | None => s
  end.

Definition openssl_args (cert_file : string) : list PyVal :=
  strs ["openssl"; "x509"; "-enddate"; "-noout"; "-in"; cert_file].

Section Check.

(** Whether the imports of lines 15 and 21 succeeded. *)
Variable dnspython : bool.
Variable x509 : bool.

(** Lines 126-128: the end of validity that the cryptography library reads
    from a certificate file, as [strftime] renders it; [None] when reading,
    parsing or rendering raises.  A run reads the file once and writes it
    nowhere, so what is read is given with the run. *)
Variable cert_not_after : string -> option string.

(** [read_cert_expiry], lines 115-130.  [subprocess.check_output] raises
    when openssl ends with a status other than 0. *)
Definition read_cert_expiry (cert_file : string) : Prog string :=
  present <- call (PathExists cert_file) ;;
  if negb present then Ret "not found"
  else if negb x509 then
    res <- call (Run (openssl_args cert_file)) ;;
    match res with
    | Completed returncode out =>
        if (returncode =? 0)%Z then Ret (last_of_split_once (strip_ws out))
        else Ret "unknown"
    | RunError _ => Ret "unknown"
    end
  else
    match cert_not_after cert_file with
    | Some text => Ret text
    | None => Ret "unknown"
    end.

(** Lines 397-422 of [main]: the branch [check].  The expected addresses
    are passed on as a set, of which [verify_dns] asks membership only. *)
Definition check (cfg : Config) (domain : string) (expected_ips : list string)
  : Prog unit :=
  configured <- check_domain_exists cfg domain ;;
  (if negb configured then
     error ("Domain " ++ domain ++ " is not configured") ;;
     sys_exit 1
   else Ret tt) ;;
  let live_dir := path LIVE domain in
  live <- call (PathExists live_dir) ;;
  (if live : bool then
     success ("SSL certificate exists for " ++ domain) ;;
     exp <- read_cert_expiry (path live_dir "cert.pem") ;;
     log ("Certificate expires on: " ++ exp)
   else
     error ("SSL certificate not found for " ++ domain) ;;
     sys_exit 1) ;;
  valid <- nginx_test ;;
  (if valid : bool then success "Nginx configuration is valid"
   else
     error "Nginx configuration is invalid" ;;
     sys_exit 1) ;;
  if nonempty expected_ips then
    verified <- verify_dns dnspython cfg domain expected_ips ;;
    if verified : bool then
      success ("DNS verification successful for " ++ domain)
    else
      warning ("DNS verification failed for " ++ domain) ;;
      sys_exit 1
  else Ret tt.

Variable py_int : string -> option Z.

(** [main], lines 341-379 and 397-422, on the command line
    [check <domain> [expected_ips ...]]. *)
Definition main_check (cfg0 : Config) (domain : string)
  (expected_ips : list string) : Prog unit :=
  require_root ;;
  cfg <- load_env_overrides py_int cfg0 ;;
  check_dependencies cfg ;;
  valid <- validate_domain domain ;;
  (if negb valid then sys_exit 1 else Ret tt) ;;
  check cfg domain expected_ips.

End Check.

(** The command lines [check] may start for a domain. *)
Definition check_command (domain : string) (args : list PyVal) : Prop :=
  args = openssl_args (path (path LIVE domain) "cert.pem")
  \/ args = strs ["/usr/sbin/nginx"; "-t"]
  \/ args = dig_args domain.

(** What every run of [check] keeps to: it changes no file and starts only
    openssl on the certificate of its domain, [nginx -t] and dig; it asks
    the DNS only when an address is expected; and it returns exactly when
    [nginx -t] passed and, if an address is expected, one of the expected
    addresses is among the resolved ones. *)
Definition check_run (domain : string) (expected_ips : list string)
  (o : Outcome unit) (t : Trace) : Prop :=
  Ledger.fs_changes t = []
  /\ Forall (check_command domain) (Ledger.runs t)
  /\ (nonempty expected_ips = false ->
      Tally.dns_calls t = [] /\ ~ In (dig_args domain) (Ledger.runs t))
  /\ (o = Returned tt <->
      existsb Ledger.test_passed t = true
      /\ (nonempty expected_ips = false
          \/ VerifyDns.any_expected (from_resolver t ++ from_dig t)%list
               expected_ips = true))
  /\ (o <> Returned tt -> exit_status o = 1%Z).

End ManageMore.

(** * Properties *)

(** ** Strings *)

Module PyStrFacts.
Import PyStr.

Lemma count_append (c : ascii) (a b : string) :
  count c (a ++ b) = count c a + count c b.
Proof.
  induction a as [|d a IH]; simpl.
  - reflexivity.
  - rewrite IH. lia.
Qed.

Lemma count_lstrip_le (c : ascii) (p : ascii -> bool) (s : string) :
  count c (lstrip p s) <= count c s.
Proof.
  induction s as [|d s IH]; simpl.
  - lia.
  - destruct (p d); simpl; lia.
Qed.

Lemma count_rstrip_le (c : ascii) (p : ascii -> bool) (s : string) :
  count c (rstrip p s) <= count c s.
Proof.
  induction s as [|d s IH]; simpl.
  - lia.
  - destruct (rstrip p s) as [|e r] eqn:E.
    + destruct (p d); simpl in *; lia.
    + simpl in *. lia.
Qed.

Lemma count_strip_le (c : ascii) (p : ascii -> bool) (s : string) :
  count c (strip p s) <= count c s.
Proof.
  unfold strip.
  etransitivity; [apply count_rstrip_le | apply count_lstrip_le].
Qed.

Lemma split_nonnil (sep : ascii) (s : string) : split sep s <> [].
Proof.
  destruct s as [|c s]; simpl.
  - discriminate.
  - destruct (Ascii.eqb c sep); [discriminate|].
    destruct (split sep s); discriminate.
Qed.

(** A string splits into one more part than it has separators. *)
Lemma split_length (sep : ascii) (s : string) :
  List.length (split sep s) = S (count sep s).
Proof.
  induction s as [|c s IH]; simpl.
  - reflexivity.
  - destruct (Ascii.eqb c sep) eqn:E; simpl.
    + now rewrite IH.
    + destruct (split sep s) as [|h t] eqn:Es.
      * now destruct (split_nonnil sep s).
      * simpl in *. exact IH.
Qed.

(** No part holds a separator. *)
Lemma split_parts_clean (sep : ascii) (s : string) :
  Forall (fun part => count sep part = 0) (split sep s).
Proof.
  induction s as [|c s IH]; simpl.
  - repeat constructor.
  - destruct (Ascii.eqb c sep) eqn:E.
    + constructor; [reflexivity | exact IH].
    + destruct (split sep s) as [|h t] eqn:Es.
      * repeat constructor. simpl. now rewrite E.
      * inversion IH as [|? ? Hh Ht]; subst.
        constructor; [|exact Ht]. simpl. now rewrite E.
Qed.

(** The last two of at least two parts. *)
Lemma last_two {A} (l : list A) :
  2 <= List.length l ->
  exists p q, last_n 2 l = [p; q] /\ In p l /\ In q l.
Proof.
  unfold last_n. induction l as [|a l IH]; simpl; intros Hlen; [lia|].
  destruct l as [|b l]; simpl in *; [lia|].
  destruct l as [|c l].
  - exists a, b. simpl. auto.
  - destruct IH as (p & q & Hpq & Hp & Hq); [simpl; lia|].
    exists p, q. simpl in Hpq.
    replace (List.length l - 0) with (List.length l) in Hpq by lia.
    replace (S (S (S (List.length l))) - 2) with (S (List.length l)) by lia.
    simpl. auto.
Qed.

End PyStrFacts.

(** ** verify-dns.py: base domain *)

Module BaseDomainFacts.
Import PyStr PyStrFacts VerifyDns.

Example base_of_subdomain :
  extract_base_domain "www.shop.example.com" = "example.com".
Proof. reflexivity. Qed.

Example base_of_two_labels : extract_base_domain "example.com" = "example.com".
Proof. reflexivity. Qed.

Example base_keeps_trailing_dot :
  extract_base_domain "example.com." = "example.com.".
Proof. reflexivity. Qed.

Example base_of_empty_label : extract_base_domain "a..b" = ".b".
Proof. reflexivity. Qed.

(** What comes out of the long branch has exactly one dot. *)
Lemma joined_pair_one_dot (parts : list string) :
  Forall (fun part => count "." part = 0) parts ->
  2 <= List.length parts ->
  count "." (join "." (last_n 2 parts)) = 1.
Proof.
  intros Hclean Hlen.
  destruct (last_two parts Hlen) as (p & q & Hpq & Hp & Hq).
  rewrite Hpq. unfold join.
  change (String.concat "." [p; q]) with (p ++ "." ++ q).
  rewrite Forall_forall in Hclean.
  rewrite !count_append, (Hclean p Hp), (Hclean q Hq). reflexivity.
Qed.

(** A string with at most one dot is returned as it is. *)
Lemma short_domain_fixed (d : string) :
  count "." d <= 1 -> extract_base_domain d = d.
Proof.
  intros Hd. unfold extract_base_domain.
  rewrite split_length.
  pose proof (count_strip_le "." is_dot d) as Hs.
  destruct (Nat.ltb_spec 2 (S (count "." (strip is_dot d)))) as [H|H]; [lia|].
  reflexivity.
Qed.

(** C10: base-domain extraction is idempotent: for every string [d],
    [extract_base_domain (extract_base_domain d) = extract_base_domain d]. *)
Theorem extract_base_domain_idempotent (d : string) :
  extract_base_domain (extract_base_domain d) = extract_base_domain d.
Proof.
  unfold extract_base_domain at 2 3.
  set (parts := split "." (strip is_dot d)).
  destruct (Nat.ltb_spec 2 (List.length parts)) as [Hlong|Hshort].
  - apply short_domain_fixed.
    rewrite joined_pair_one_dot; [lia | apply split_parts_clean | lia].
  - unfold extract_base_domain. fold parts.
    destruct (Nat.ltb_spec 2 (List.length parts)) as [H|H]; [lia|reflexivity].
Qed.

End BaseDomainFacts.

(** ** Running programs *)

Module RunFacts.
Import Py.

Section Run.
Context {W : Type} (h : Handler W).

(** A sequence runs its first part and, if that returns, the rest from
    the world the first part left. *)
Lemma run_bind {A B} (p : Prog A) (f : A -> Prog B) (w : W) :
  run h (bind p f) w =
  match run h p w with
  | (Returned a, w1, t1) =>
      match run h (f a) w1 with
      | (o, w2, t2) => (o, w2, (t1 ++ t2)%list)
      end
  | (Raised e, w1, t1) => (Raised e, w1, t1)
  end.
Proof.
  revert w. induction p as [a|e|c k IH]; intros w; simpl.
  - destruct (run h (f a) w) as [[o w2] t2]. reflexivity.
  - reflexivity.
  - destruct (h c w) as [r w1]. rewrite IH.
    destruct (run h (k r) w1) as [[[a|e] w2] t1].
    + destruct (run h (f a) w2) as [[o w3] t2]. reflexivity.
    + reflexivity.
Qed.

Lemma run_bind_returned {A B} (p : Prog A) (f : A -> Prog B) w a w1 t1 :
  run h p w = (Returned a, w1, t1) ->
  run h (bind p f) w =
  match run h (f a) w1 with
  | (o, w2, t2) => (o, w2, (t1 ++ t2)%list)
  end.
Proof. intros H. now rewrite run_bind, H. Qed.

Lemma run_bind_raised {A B} (p : Prog A) (f : A -> Prog B) w e w1 t1 :
  run h p w = (Raised e, w1, t1) ->
  run h (bind p f) w = (Raised e, w1, t1).
Proof. intros H. now rewrite run_bind, H. Qed.



(** A property of every run holds of the run in the world at hand. *)
Lemma always_run {A} (p : Prog A) :
  forall (P : Outcome A -> Trace -> Prop) (w : W),
    always P p -> P (outcome_of (run h p w)) (trace_of (run h p w)).
Proof.
  induction p as [a|e|c k IH]; intros P w HP; simpl in *.
  - exact HP.
  - exact HP.
  - destruct (h c w) as [r w1].
    specialize (IH r _ w1 (HP r)).
    destruct (run h (k r) w1) as [[o w2] t]. exact IH.
Qed.

End Run.

(** One step of a run: the answer of the world to the next call. *)
Ltac answer :=
  match goal with
  | |- context [let (_, _) := ?h ?c ?w in _] =>
      let r := fresh "r" in
      let w' := fresh "w" in
      destruct (h c w) as [r w'] eqn:?; try (destruct r as [])
  end.

Tactic Notation "answer" "as" simple_intropattern(pat) :=
  match goal with
  | |- context [let (_, _) := ?h ?c ?w in _] =>
      let w' := fresh "w" in
      destruct (h c w) as [pat w'] eqn:?
  end.

Lemma always_weaken {A} (p : Prog A) :
  forall (P Q : Outcome A -> Trace -> Prop),
    (forall o t, P o t -> Q o t) -> always P p -> always Q p.
Proof.
  induction p as [a|e|c k IH]; intros P Q HPQ HP; simpl in *; auto.
  intros r. eapply IH; [|apply HP]. intros o t. apply HPQ.
Qed.

Lemma always_bind {A B} (p : Prog A) (f : A -> Prog B) :
  forall (P : Outcome B -> Trace -> Prop),
    always (fun o t =>
              match o with
              | Returned a => always (fun o' t' => P o' (t ++ t')%list) (f a)
              | Raised e => P (Raised e) t
              end) p ->
    always P (bind p f).
Proof.
  induction p as [a|e|c k IH]; intros P HP; simpl in *.
  - exact HP.
  - exact HP.
  - intros r. apply IH. exact (HP r).
Qed.

End RunFacts.

(** ** verify-dns.py: Cloudflare ranges *)

Module CidrFacts.
Import PyStr Py VerifyDns.

Section WithIpAddress.
Context {ipaddress : IpAddress}.

(** The loop finds a network exactly when one of the well-formed entries
    holds the address. *)
Lemma in_any_existsb (a : Address) (cidrs : list string) :
  in_any a cidrs = existsb (in_network a) cidrs.
Proof.
  induction cidrs as [|c rest IH]; simpl.
  - reflexivity.
  - unfold in_network at 1.
    destruct (ip_network c) as [net|]; simpl; [|exact IH].
    destruct (net_contains net a); simpl; [reflexivity | exact IH].
Qed.

(** C9: for every IP address string that parses and every list of CIDR
    strings, malformed entries included, [ip_in_any_cidr] returns a boolean
    and does not raise; the boolean says whether a well-formed entry holds
    the address, so a malformed entry is passed over wherever it stands and
    never counts as a match, and the empty list yields false. *)
Theorem ip_in_any_cidr_total (ip : string) (a : Address) (cidrs : list string) :
  ip_address ip = Some a ->
  ip_in_any_cidr ip cidrs = Value (existsb (in_network a) cidrs)
  /\ (forall before bad after,
        ip_network bad = None ->
        in_network a bad = false
        /\ ip_in_any_cidr ip (before ++ bad :: after)
           = ip_in_any_cidr ip (before ++ after))
  /\ ip_in_any_cidr ip [] = Value false.
Proof.
  intros Hip. unfold ip_in_any_cidr. rewrite Hip.
  split; [|split].
  - now rewrite in_any_existsb.
  - intros before bad after Hbad.
    assert (Hno : in_network a bad = false).
    { unfold in_network. now rewrite Hbad. }
    split; [exact Hno|].
    rewrite !in_any_existsb, !existsb_app. simpl. now rewrite Hno.
  - reflexivity.
Qed.

(** C8: the result of the Cloudflare proxy detection depends on the
    resolved A records and the IPv4 ranges only: two calls of
    [check_cloudflare_proxy] that differ in the IPv6 ranges alone are the
    same program, and so agree on outcome, trace and final world in every
    world. *)
Theorem check_cloudflare_proxy_ignores_cf6
  (cfg : Config) (domain : string) (cf4 cf6 cf6' : list string) :
  check_cloudflare_proxy cfg domain cf4 cf6
  = check_cloudflare_proxy cfg domain cf4 cf6'
  /\ forall (W : Type) (h : Handler W) (w : W),
       run h (check_cloudflare_proxy cfg domain cf4 cf6) w
       = run h (check_cloudflare_proxy cfg domain cf4 cf6') w.
Proof. split; reflexivity. Qed.

End WithIpAddress.

(** The address 104.17.2.3 against a list with two malformed entries. *)
Lemma ip_in_any_cidr_total_witness :
  @ip_address IPv4.ipv4 "104.17.2.3" = Some 1745945091%Z
  /\ @ip_in_any_cidr IPv4.ipv4 "104.17.2.3"
       ["bogus"; "10.0.0.1/8"; "104.16.0.0/13"] = Value true.
Proof.
  split; [reflexivity|].
  apply (proj1 (@ip_in_any_cidr_total IPv4.ipv4 "104.17.2.3" 1745945091%Z
                  ["bogus"; "10.0.0.1/8"; "104.16.0.0/13"] eq_refl)).
Defined.

End CidrFacts.

(** ** verify-dns.py: A-record verification *)

Module VerifyFacts.
Import PyStr Py VerifyDns Observe Worlds RunFacts.
Local Arguments String.append : simpl never.
Local Arguments Z.of_nat : simpl never.
Local Arguments Z.pow : simpl never.
Local Arguments Z.eqb : simpl never.
Local Arguments Z.sub : simpl never.

(** C1, as the code has it: for every domain and every world, when no
    expected IPs are supplied [verify_domain_a_records] logs an error and
    returns false, and makes no DNS query. *)
Theorem verify_without_expected_ips (W : Type) (h : Handler W) (w : W)
  (cfg : Config) (domain : string) :
  exists w',
    run h (verify_domain_a_records cfg domain []) w
    = (Returned false, w',
       [ Ev (Log "BLUE" ("Verifying A records for domain: " ++ domain)) tt;
         Ev (Log "RED" "[ERROR] No expected IPs provided for verification") tt ]).
Proof.
  cbn. do 2 answer. eexists. reflexivity.
Qed.

(** C1 as stated fails: for example.com and no expected IPs the verifier
    does not return true. *)
Lemma verify_without_expected_ips_not_true :
  outcome_of (run dns_world (verify_domain_a_records config "example.com" [])
                slow_zone)
  <> Returned true.
Proof. vm_compute. discriminate. Qed.

Lemma any_expected_nil (expected_ips : list string) :
  any_expected [] expected_ips = false.
Proof. induction expected_ips; simpl; auto. Qed.

Lemma schedule_step (k m : nat) :
  schedule k (S m) = (slot k ++ schedule (S k) m)%list.
Proof. reflexivity. Qed.

Lemma slot_pending (k : nat) : slot k = (pending k ++ [Attempt])%list.
Proof. now destruct k. Qed.

Section Attempts.
Variables (cfg : Config) (domain : string) (expected_ips : list string) (retries : Z).

(** The loop stops at attempt [k] with the answer [res]. *)
Lemma retry_stop (k n : nat) (t : Trace) (res : list string) (b : bool) :
  timeline t = slot k ->
  a_results t = [res] ->
  existsb no_resolver t = false ->
  b = any_expected res expected_ips ->
  retry_run expected_ips k (S n) (Returned b) t.
Proof.
  intros Ht Ha Hr ->. exists 1. rewrite Ht, Ha. split; [reflexivity|].
  left. repeat split; try lia; try assumption.
  unfold schedule. simpl. now rewrite app_nil_r.
Qed.

(** The resolver for the A-record query of attempt [k] could not be made. *)
Lemma retry_no_resolver (k n : nat) (t : Trace) (e : string) :
  timeline t = pending k ->
  a_results t = [] ->
  existsb no_resolver t = true ->
  retry_run expected_ips k (S n) (Raised (PyException e)) t.
Proof.
  intros Ht Ha Hr. exists 0. rewrite Ha. split; [reflexivity|].
  right. split; [eauto|]. split; [exact Hr|]. right.
  split; [lia|]. now rewrite Ht, Nat.add_0_r.
Qed.

(** The A-record query of attempt [k] resolved nothing, and the resolver
    for the CNAME query could not be made. *)
Lemma retry_no_cname_resolver (k n : nat) (t : Trace) (e : string) :
  timeline t = slot k ->
  a_results t = [[]] ->
  existsb no_resolver t = true ->
  retry_run expected_ips k (S n) (Raised (PyException e)) t.
Proof.
  intros Ht Ha Hr. exists 1. rewrite Ha. split; [reflexivity|].
  right. split; [eauto|]. split; [exact Hr|]. left.
  repeat split; try lia. rewrite Ht. unfold schedule. simpl.
  now rewrite app_nil_r.
Qed.

(** The loop goes on after attempt [k], whose answer [res] did not match. *)
Lemma retry_continue (k n : nat) (t t' : Trace) (res : list string) o :
  timeline t = (slot k ++ timeline t')%list ->
  a_results t = res :: a_results t' ->
  existsb no_resolver t = existsb no_resolver t' ->
  any_expected res expected_ips = false ->
  (n = 0 /\ o = Returned false /\ t' = [] \/ retry_run expected_ips (S k) n o t') ->
  retry_run expected_ips k (S n) o t.
Proof.
  intros Ht Ha Hr Hres [(Hn & Ho & Hnil)|(m & Hlen & Hcases)].
  - subst. apply retry_stop with (res := res).
    + now rewrite Ht, app_nil_r.
    + now rewrite Ha.
    + now rewrite Hr.
    + now rewrite Hres.
  - exists (S m). rewrite Ha, Hr, Ht. split; [simpl; now rewrite Hlen|].
    assert (Hlast : 1 <= m -> last (res :: a_results t') [] = last (a_results t') []).
    { intros Hm. simpl. destruct (a_results t'); [simpl in Hlen; lia | reflexivity]. }
    destruct Hcases as [(Hm & Htl & Hno & Ho)|(He & Hno & [(Hm & Htl & Hl)|(Hm & Htl)])].
    + left. rewrite Htl, Hlast by lia. repeat split; try lia; assumption.
    + right. split; [exact He|]. split; [exact Hno|]. left.
      rewrite Htl, Hlast by lia. repeat split; try lia; assumption.
    + right. split; [exact He|]. split; [exact Hno|]. right.
      split; [lia|]. rewrite Htl, schedule_step, <- app_assoc.
      now replace (k + S m) with (S k + m) by lia.
Qed.

Ltac side :=
  cbn;
  repeat match goal with
         | H : map (rstrip is_dot) _ = _ |- _ => rewrite H
         end;
  first [ reflexivity | apply any_expected_nil
        | symmetry; apply any_expected_nil | assumption | symmetry; assumption ].

Ltac stop := eapply retry_stop; [reflexivity | reflexivity | reflexivity | side].

Ltac continue Hrest :=
  eapply always_weaken; [|exact Hrest];
  cbn beta;
  let o := fresh "o" in
  let t := fresh "t" in
  let H := fresh "H" in
  intros o t H;
  eapply retry_continue with (t' := t);
  [reflexivity | reflexivity | reflexivity | side | exact H].

Ltac no_a_resolver :=
  eapply retry_no_resolver; [reflexivity | reflexivity | reflexivity].

Ltac no_cname_resolver :=
  eapply retry_no_cname_resolver; [reflexivity | side | reflexivity].

(** From the CNAME lookup on, the A-record query having resolved nothing. *)
Ltac cname_part Hrest final :=
  intros [e|]; cbn;
  [ no_cname_resolver
  | intros [cname|]; cbn;
    [ destruct (map (rstrip is_dot) cname) as [|c cs] eqn:Ec; cbn;
      [ destruct final; cbn; [intros []; stop | continue Hrest]
      | intros []; destruct final; cbn; [intros []; stop | continue Hrest] ]
    | destruct final; cbn; [intros []; stop | continue Hrest] ] ].

Ltac body Hrest final :=
  cbn; intros [e|]; cbn;
  [ no_a_resolver
  | intros [answers|]; cbn;
    [ destruct (map (rstrip is_dot) answers) as [|ip ips] eqn:Eres; cbn;
      [ cname_part Hrest final
      | intros [];
        destruct (any_expected (ip :: ips) expected_ips) eqn:Eany; cbn;
        [ intros []; stop
        | destruct final; cbn; [intros []; stop | continue Hrest] ] ]
    | cname_part Hrest final ] ].

(** Whatever the world answers, the loop keeps to the schedule. *)
Lemma attempts_always (n : nat) :
  forall k : nat,
    1 <= n ->
    always (retry_run expected_ips k n)
      (attempts cfg domain expected_ips retries (map Z.of_nat (seq k n))).
Proof.
  induction n as [|n IH]; intros k Hn; [lia|].
  cbn [seq map attempts].
  set (rest := attempts cfg domain expected_ips retries (map Z.of_nat (seq (S k) n))).
  set (final := (Z.of_nat k =? retries - 1)%Z).
  assert (Hrest : always (fun o t => n = 0 /\ o = Returned false /\ t = []
                                     \/ retry_run expected_ips (S k) n o t) rest).
  { subst rest. destruct n as [|n'].
    - cbn. auto.
    - eapply always_weaken; [|apply IH; lia]. auto. }
  clearbody rest final. clear IH.
  destruct k as [|k'].
  - change (Z.of_nat 0 =? 0)%Z with true. body Hrest final.
  - replace (Z.of_nat (S k') =? 0)%Z with false by (symmetry; apply Z.eqb_neq; lia).
    cbn. intros []. intros []. body Hrest final.
Qed.
End Attempts.

Lemma total_wait_timeline (t : Trace) : total_wait t = waited (timeline t).
Proof.
  induction t as [|[c r] t IH]; simpl; [reflexivity|].
  unfold timeline in *. simpl. unfold waited in *. rewrite fold_right_app.
  destruct c; simpl; try (now rewrite IH).
  destruct (rtype =? "A"); simpl; now rewrite IH.
Qed.

(** Every run of verification keeps to [retry_run] from attempt 0. *)
Lemma verify_retry_run (cfg : Config) (domain : string)
  (expected_ips : list string) :
  nonempty expected_ips = true ->
  always (retry_run expected_ips 0 (Z.to_nat (Z.max 1 (DNS_RETRIES cfg))))
    (verify_domain_a_records cfg domain expected_ips).
Proof.
  intros Hexp. unfold verify_domain_a_records. rewrite Hexp. cbn. intros [].
  apply always_weaken
    with (P := retry_run expected_ips 0 (Z.to_nat (Z.max 1 (DNS_RETRIES cfg)))).
  - intros o t H. exact H.
  - apply attempts_always. lia.
Qed.

(** C4: when at least one IP is expected, A-record verification makes at
    most N A-record queries, N being the configured retry count and at
    least 1; nothing is waited before the first attempt and 2^k seconds
    before attempt k (counted from 0, k >= 1).  When every resolver the
    run asks for is made, it makes at least one attempt and returns the
    comparison of the answer of the last attempt made with the expected
    IPs; when one cannot be made (the resolver is built outside the
    [try]), the exception ends the run.  With DNS_RETRIES = 3, the first
    two attempts resolving nothing and the third resolving [rs], the waits
    were of 2 and 4 seconds, 6 in all, and if [rs] is not empty the
    verifier returns the result of attempt 3. *)
Theorem retry_schedule (W : Type) (h : Handler W) (w : W)
  (cfg : Config) (domain : string) (expected_ips : list string) :
  nonempty expected_ips = true ->
  let N := Z.to_nat (Z.max 1 (DNS_RETRIES cfg)) in
  let r := run h (verify_domain_a_records cfg domain expected_ips) w in
  (exists m,
     m <= N
     /\ List.length (a_results (trace_of r)) = m
     /\ (timeline (trace_of r) = schedule 0 m
         \/ timeline (trace_of r) = (schedule 0 m ++ pending m)%list)
     /\ (existsb no_resolver (trace_of r) = false ->
         1 <= m
         /\ timeline (trace_of r) = schedule 0 m
         /\ outcome_of r
            = Returned (any_expected (last (a_results (trace_of r)) [])
                          expected_ips))
     /\ (existsb no_resolver (trace_of r) = true ->
         exists e, outcome_of r = Raised (PyException e)))
  /\ (DNS_RETRIES cfg = 3%Z ->
      forall rs,
        a_results (trace_of r) = [[]; []; rs] ->
        timeline (trace_of r) = [Attempt; Wait 2; Attempt; Wait 4; Attempt]
        /\ total_wait (trace_of r) = 6%Z
        /\ (rs <> [] -> outcome_of r = Returned (any_expected rs expected_ips))).
Proof.
  intros Hexp N r.
  assert (Hrun : retry_run expected_ips 0 N (outcome_of r) (trace_of r)).
  { subst r N. apply always_run. now apply verify_retry_run. }
  destruct Hrun as (m & Hlen & Hcases). split.
  - exists m. split; [|split; [exact Hlen|]].
    { destruct Hcases as [(Hm & _)|(_ & _ & [(Hm & _)|(Hm & _)])]; lia. }
    destruct Hcases as [(Hm & Ht & Hno & Ho)|(He & Hno & [(Hm & Ht & Hl)|(Hm & Ht)])];
      rewrite Hno.
    + split; [now left|]. split; [intros _|discriminate].
      split; [lia|]. now split.
    + split; [now left|]. split; [discriminate|]. intros _. exact He.
    + split; [right; exact Ht|]. split; [discriminate|]. intros _. exact He.
  - intros H3 rs Hrs. rewrite Hrs in Hlen, Hcases. simpl in Hlen. subst m.
    assert (HN : N = 3) by (subst N; rewrite H3; reflexivity).
    rewrite total_wait_timeline.
    destruct Hcases as [(Hm & Ht & Hno & Ho)|(He & Hno & [(Hm & Ht & Hl)|(Hm & Ht)])].
    + rewrite Ht. repeat split. intros _. exact Ho.
    + rewrite Ht. repeat split. intros Hne. now destruct Hne.
    + lia.
Qed.

(** A zone whose A record appears at the third query. *)
Lemma retry_schedule_witness :
  let r := run dns_world
             (verify_domain_a_records config "example.com" ["203.0.113.10"])
             slow_zone in
  outcome_of r = Returned true /\ total_wait (trace_of r) = 6%Z.
Proof.
  intros r.
  destruct (retry_schedule Dns dns_world slow_zone config "example.com"
              ["203.0.113.10"] eq_refl) as [_ Hthird].
  destruct (Hthird eq_refl ["203.0.113.10"] eq_refl) as (_ & Hw & Ho).
  split; [apply Ho; discriminate | exact Hw].
Defined.

End VerifyFacts.

(** ** verify-dns.py: the Cloudflare short-circuit *)

Module ProxyFacts.
Import PyStr Py VerifyDns Observe Worlds RunFacts CidrFacts.
Local Arguments String.append : simpl never.

Section WithIpAddress.
Context {ipaddress : IpAddress}.




End WithIpAddress.


End ProxyFacts.

(** ** The matcher and what it decides *)

Module ReFacts.
Import PyStr Re.

Lemma star_loop_iff (body : string -> (string -> bool) -> bool) (a : regex)
  (k : string -> bool) :
  (forall s k', body s k' = true <-> exists rest, derives a s rest /\ k' rest = true) ->
  forall fuel s,
    String.length s <= fuel ->
    (star_loop body k fuel s = true
     <-> exists rest, derives (Star a) s rest /\ k rest = true).
Proof.
  intros Hbody. induction fuel as [|fuel IH]; intros s Hlen; simpl.
  - destruct s; [|simpl in Hlen; lia]. split.
    + intros Hk. exists "". split; [constructor | exact Hk].
    + intros (rest & Hd & Hk). inversion Hd; subst; [exact Hk|].
      simpl in *. lia.
  - destruct (body s _) eqn:Eb.
    + split; [intros _|reflexivity].
      apply Hbody in Eb. destruct Eb as (s1 & Hd & Hk1).
      destruct (Nat.ltb_spec (String.length s1) (String.length s)) as [Hlt|];
        [|discriminate].
      apply IH in Hk1; [|lia]. destruct Hk1 as (rest & Hstar & Hk).
      exists rest. split; [|exact Hk]. eapply D_star_more; eauto.
    + split.
      * intros Hk. exists s. split; [constructor | exact Hk].
      * intros (rest & Hd & Hk). inversion Hd; subst; [exact Hk|].
        exfalso. assert (Hb : body s
          (fun s1 => if (String.length s1 <? String.length s)%nat
                     then star_loop body k fuel s1 else false) = true).
        { apply Hbody. exists s1. split; [assumption|].
          destruct (Nat.ltb_spec (String.length s1) (String.length s)); [|lia].
          apply IH; [lia|]. eauto. }
        congruence.
Qed.

(** The matcher succeeds exactly when the pattern derives a prefix whose
    remainder the continuation accepts. *)
Lemma matches_iff (r : regex) :
  forall s k,
    matches r s k = true <-> exists rest, derives r s rest /\ k rest = true.
Proof.
  induction r as [|p|a IHa b IHb|a IHa|a IHa|]; intros s k; simpl.
  - split.
    + intros Hk. exists s. split; [constructor | exact Hk].
    + intros (rest & Hd & Hk). now inversion Hd; subst.
  - destruct s as [|c s].
    + split; [discriminate|]. intros (rest & Hd & _). inversion Hd.
    + destruct (p c) eqn:Ep.
      * split.
        -- intros Hk. exists s. split; [now constructor | exact Hk].
        -- intros (rest & Hd & Hk). now inversion Hd; subst.
      * split; [discriminate|]. intros (rest & Hd & _).
        inversion Hd; subst. congruence.
  - rewrite IHa. split.
    + intros (s1 & Ha & Hb). apply IHb in Hb. destruct Hb as (rest & Hb & Hk).
      exists rest. split; [econstructor; eauto | exact Hk].
    + intros (rest & Hd & Hk). inversion Hd; subst.
      exists s1. split; [assumption|]. apply IHb. eauto.
  - destruct (matches a s k) eqn:Ea.
    + split; [intros _|reflexivity].
      apply IHa in Ea. destruct Ea as (rest & Ha & Hk).
      exists rest. split; [now constructor | exact Hk].
    + split.
      * intros Hk. exists s. split; [apply D_opt_none | exact Hk].
      * intros (rest & Hd & Hk). inversion Hd; subst; [|exact Hk].
        assert (matches a s k = true) by (apply IHa; eauto). congruence.
  - apply star_loop_iff; [exact IHa | lia].
  - destruct (at_end s) eqn:Ee.
    + split.
      * intros Hk. exists s. split; [now constructor | exact Hk].
      * intros (rest & Hd & Hk). now inversion Hd; subst.
    + split; [discriminate|]. intros (rest & Hd & _).
      inversion Hd; subst. congruence.
Qed.

End ReFacts.

(** ** The hostname grammar and [DOMAIN_RE] *)

Module HostnameFacts.
Import PyStr Re ManageDomain Hostname ReFacts PyStrFacts.

Lemma append_nil_r (a : string) : a ++ "" = a.
Proof. induction a as [|c a IH]; simpl; [reflexivity | now rewrite IH]. Qed.

Lemma append_assoc (a b c : string) : (a ++ b) ++ c = a ++ b ++ c.
Proof. induction a as [|d a IH]; simpl; [reflexivity | now rewrite IH]. Qed.

Lemma length_append (a b : string) :
  String.length (a ++ b) = String.length a + String.length b.
Proof. induction a as [|d a IH]; simpl; [reflexivity | now rewrite IH]. Qed.

Lemma chars_append (a b : string) : chars (a ++ b) = (chars a ++ chars b)%list.
Proof.
  unfold chars. induction a as [|d a IH]; simpl; [reflexivity | now rewrite IH].
Qed.

Lemma chars_length (a : string) : List.length (chars a) = String.length a.
Proof.
  unfold chars. induction a as [|d a IH]; simpl; [reflexivity | now rewrite IH].
Qed.

(** A non-empty string ends in a character. *)
Lemma ends_in_char (c : ascii) (a : string) :
  exists m d, String c a = m ++ String d "".
Proof.
  revert c. induction a as [|e a IH]; intros c.
  - exists "", c. reflexivity.
  - destruct (IH e) as (m & d & Hm). exists (String c m), d.
    simpl. now rewrite Hm.
Qed.

Lemma alnum_not_hyphen (c : ascii) : is_alnum c = true -> is_hyphen c = false.
Proof.
  unfold is_hyphen. destruct (Ascii.eqb_spec c "-") as [->|]; [|reflexivity].
  vm_compute. discriminate.
Qed.

Lemma alnum_hyphen_cases (c : ascii) :
  is_alnum_hyphen c = true -> is_hyphen c = false -> is_alnum c = true.
Proof.
  unfold is_alnum_hyphen, is_hyphen. intros H Hh. rewrite Hh in H.
  now rewrite orb_false_r in H.
Qed.

Lemma alnum_is_alnum_hyphen (c : ascii) :
  is_alnum c = true -> is_alnum_hyphen c = true.
Proof. unfold is_alnum_hyphen. now intros ->. Qed.

(** A label by its shape: one alphanumeric, or two alphanumerics around at
    most 61 alphanumerics and hyphens. *)
Lemma label_shape (l : string) :
  label l = true <->
  exists c,
    is_alnum c = true
    /\ (l = String c ""
        \/ exists m d,
             l = String c (m ++ String d "")
             /\ String.length m <= 61
             /\ forallb is_alnum_hyphen (chars m) = true
             /\ is_alnum d = true).
Proof.
  unfold label. split.
  - intros H. destruct l as [|c l]; [discriminate H|].
    unfold chars in H. cbn [list_ascii_of_string List.length hd forallb] in H.
    apply andb_prop in H. destruct H as [H Hlast].
    apply andb_prop in H. destruct H as [H Hhd].
    apply andb_prop in H. destruct H as [H Hall].
    apply andb_prop in H. destruct H as [_ Hlen].
    apply andb_prop in Hall. destruct Hall as [Hc Hall].
    apply negb_true_iff in Hhd, Hlast. apply Nat.leb_le in Hlen.
    exists c. split; [now apply alnum_hyphen_cases|].
    destruct l as [|e l]; [now left | right].
    destruct (ends_in_char e l) as (m & d & Hm). exists m, d.
    rewrite Hm in *. fold (chars (m ++ String d "")) in *.
    rewrite chars_append in *.
    change (c :: (chars m ++ chars (String d ""))%list)
      with ((c :: chars m) ++ [d])%list in Hlast.
    rewrite last_last in Hlast.
    rewrite length_app, chars_length in Hlen. simpl in Hlen.
    rewrite forallb_app in Hall. apply andb_prop in Hall.
    destruct Hall as [Hm' Hd]. simpl in Hd. rewrite andb_true_r in Hd.
    repeat split; try assumption; [lia | now apply alnum_hyphen_cases].
  - intros (c & Hc & [->|(m & d & -> & Hlen & Hm & Hd)]).
    + unfold chars. simpl.
      rewrite (alnum_is_alnum_hyphen c Hc), (alnum_not_hyphen c Hc).
      reflexivity.
    + unfold chars.
      cbn [list_ascii_of_string List.length hd forallb Nat.leb].
      fold (chars (m ++ String d "")).
      rewrite chars_append, length_app, chars_length.
      change (chars (String d "")) with [d].
      change (c :: (chars m ++ [d])%list) with ((c :: chars m) ++ [d])%list.
      rewrite last_last, forallb_app, Hm.
      cbn [forallb List.length].
      rewrite (alnum_is_alnum_hyphen c Hc), (alnum_not_hyphen c Hc),
        (alnum_is_alnum_hyphen d Hd), (alnum_not_hyphen d Hd).
      cbn [andb negb]. rewrite !andb_true_r.
      apply Nat.leb_le. lia.
Qed.

(** [p{0,n}] consumes at most [n] characters, all in [p]. *)
Lemma derives_upto (p : ascii -> bool) (n : nat) :
  forall s rest,
    derives (upto n (Chr p)) s rest <->
    exists m,
      s = m ++ rest /\ String.length m <= n /\ forallb p (chars m) = true.
Proof.
  induction n as [|n IH]; intros s rest; simpl.
  - split.
    + intros H. inversion H; subst. exists "". auto.
    + intros (m & -> & Hlen & _). destruct m; [constructor | simpl in Hlen; lia].
  - split.
    + intros H. inversion H as [| | |? ? ? Hcat|? ?| | |]; subst.
      * inversion Hcat as [| |? ? ? ? ? Hc Hrest| | | | |]; subst.
        inversion Hc; subst.
        apply IH in Hrest. destruct Hrest as (m & -> & Hlen & Hall).
        exists (String c m). unfold chars in *. simpl.
        repeat split; [lia|]. now rewrite Hall, andb_true_r.
      * exists "". simpl. repeat split. lia.
    + intros (m & -> & Hlen & Hall). destruct m as [|c m].
      * apply D_opt_none.
      * unfold chars in Hall. simpl in *.
        apply andb_prop in Hall. destruct Hall as [Hc Hall].
        apply D_opt_some. eapply D_cat; [now constructor|].
        apply IH. exists m. repeat split; [lia | exact Hall].
Qed.

(** [LABEL_RE] consumes exactly the labels. *)
Lemma derives_label (s rest : string) :
  derives LABEL_RE s rest <-> exists l, s = l ++ rest /\ label l = true.
Proof.
  unfold LABEL_RE.
  pose proof (derives_upto is_alnum_hyphen 61) as Hupto.
  set (inner := upto 61 (Chr is_alnum_hyphen)) in *. clearbody inner.
  split.
  - intros H. inversion H as [| |? ? ? ? ? Hc Hopt| | | | |]; subst.
    inversion Hc; subst.
    inversion Hopt as [| | |? ? ? Hcat|? ?| | |]; subst.
    + inversion Hcat as [| |? ? ? ? ? Hm Hd| | | | |]; subst.
      apply Hupto in Hm. destruct Hm as (m & -> & Hlen & Hall).
      inversion Hd; subst.
      exists (String c (m ++ String c0 "")). split.
      * cbn [append]. now rewrite append_assoc.
      * apply label_shape. exists c. split; [assumption|]. right.
        exists m, c0. auto.
    + exists (String c ""). split; [reflexivity|].
      apply label_shape. exists c. auto.
  - intros (l & -> & Hl). apply label_shape in Hl.
    destruct Hl as (c & Hc & [->|(m & d & -> & Hlen & Hall & Hd)]);
      cbn [append].
    + eapply D_cat; [now constructor | apply D_opt_none].
    + eapply D_cat; [now constructor|]. apply D_opt_some.
      rewrite append_assoc. cbn [append].
      eapply D_cat with (s1 := String d rest); [|apply D_chr; exact Hd].
      apply Hupto. exists m. auto.
Qed.

Lemma is_dot_eq (c : ascii) : is_dot c = true -> c = "."%char.
Proof. unfold is_dot. now destruct (Ascii.eqb_spec c "."). Qed.

(** The repetition consumes dotted labels. *)
Lemma derives_tail (s rest : string) :
  derives (Star (Cat (Chr is_dot) LABEL_RE)) s rest <->
  exists labels, s = dotted labels ++ rest /\ forallb label labels = true.
Proof.
  split.
  - intros H. remember (Star (Cat (Chr is_dot) LABEL_RE)) as r eqn:Er.
    induction H as [| | | | |a s|a s s1 s2 Hbody _ Hlt Hstar IH|];
      try discriminate Er.
    + exists []. auto.
    + injection Er as ->.
      destruct (IH eq_refl) as (labels & -> & Hall).
      inversion Hbody as [| |? ? ? ? ? Hc Hl| | | | |]; subst.
      inversion Hc as [|? ? ? Hdot| | | | | |]; subst.
      apply is_dot_eq in Hdot. subst.
      apply derives_label in Hl. destruct Hl as (l & -> & Hl).
      exists (l :: labels). split.
      * cbn [dotted append]. now rewrite append_assoc.
      * cbn [forallb]. now rewrite Hl.
  - intros (labels & -> & Hall).
    induction labels as [|l labels IH]; cbn [dotted append].
    + constructor.
    + cbn [forallb] in Hall. apply andb_prop in Hall.
      destruct Hall as [Hl Hall].
      eapply D_star_more with (s1 := dotted labels ++ rest).
      * eapply D_cat; [now constructor|].
        apply derives_label. exists l. split; [|exact Hl].
        now rewrite append_assoc.
      * cbn [String.length]. rewrite !length_append. lia.
      * now apply IH.
Qed.

Lemma at_end_cases (s : string) : at_end s = true <-> s = "" \/ s = LF.
Proof.
  unfold at_end, LF. destruct s as [|c [|d s]].
  - tauto.
  - destruct (Ascii.eqb_spec c "010") as [->|Hc].
    + tauto.
    + split; [discriminate|]. intros [H|H]; [discriminate | congruence].
  - split; [discriminate|]. intros [H|H]; discriminate.
Qed.

(** What [DOMAIN_RE.match] accepts: dotted labels, then the end of the
    string or one final line feed. *)
Lemma domain_ok_iff (s : string) :
  domain_ok s = true <->
  exists l labels rest,
    s = l ++ dotted labels ++ rest
    /\ label l = true /\ forallb label labels = true
    /\ (rest = "" \/ rest = LF).
Proof.
  unfold domain_ok, re_match, DOMAIN_RE. rewrite matches_iff.
  pose proof derives_label as Hlabel. pose proof derives_tail as Htail.
  set (lab := LABEL_RE) in *. clearbody lab. split.
  - intros (rest0 & H & _).
    inversion H as [| |? ? ? ? ? Hl Hrest| | | | |]; subst.
    inversion Hrest as [| |? ? ? ? ? Hstar Heol| | | | |]; subst.
    inversion Heol; subst.
    apply Hlabel in Hl. destruct Hl as (l & -> & Hl).
    apply Htail in Hstar. destruct Hstar as (labels & -> & Hall).
    exists l, labels, rest0. repeat split; try assumption.
    now apply at_end_cases.
  - intros (l & labels & rest & -> & Hl & Hall & Hrest).
    exists rest. split; [|reflexivity].
    eapply D_cat; [apply Hlabel; eauto|].
    eapply D_cat; [apply Htail; eauto|].
    constructor. now apply at_end_cases.
Qed.

(** The parts of a string, put back behind their dots, are the string. *)
Lemma split_dotted (s : string) :
  exists l labels, split "." s = l :: labels /\ s = l ++ dotted labels.
Proof.
  induction s as [|c s (l & labels & Hs & Heq)]; cbn [split].
  - exists "", []. auto.
  - destruct (Ascii.eqb_spec c ".") as [->|Hc].
    + exists "", (l :: labels). rewrite Hs. split; [reflexivity|].
      cbn [dotted append]. now rewrite <- Heq.
    + rewrite Hs. exists (String c l), labels. split; [reflexivity|].
      cbn [append]. now rewrite <- Heq.
Qed.

Lemma split_clean (l : string) : count "." l = 0 -> split "." l = [l].
Proof.
  induction l as [|c l IH]; cbn [split count]; [reflexivity|].
  destruct (Ascii.eqb c "."); [discriminate|].
  intros H. now rewrite (IH H).
Qed.

Lemma split_clean_dot (l r : string) :
  count "." l = 0 -> split "." (l ++ String "." r) = l :: split "." r.
Proof.
  induction l as [|c l IH]; cbn [split count append].
  - reflexivity.
  - destruct (Ascii.eqb c "."); [discriminate|].
    intros H. now rewrite (IH H).
Qed.

Lemma split_of_dotted (l : string) (labels : list string) :
  count "." l = 0 ->
  Forall (fun x => count "." x = 0) labels ->
  split "." (l ++ dotted labels) = l :: labels.
Proof.
  intros Hl Hall. revert l Hl.
  induction Hall as [|x labels Hx Hall IH]; intros l Hl; cbn [dotted].
  - rewrite append_nil_r. now apply split_clean.
  - change ("." ++ x ++ dotted labels) with (String "." (x ++ dotted labels)).
    rewrite (split_clean_dot l _ Hl). now rewrite (IH x Hx).
Qed.

Lemma alnum_hyphen_no_dot (m : string) :
  forallb is_alnum_hyphen (chars m) = true -> count "." m = 0.
Proof.
  unfold chars. induction m as [|c m IH]; cbn [list_ascii_of_string forallb count].
  - reflexivity.
  - intros H. apply andb_prop in H. destruct H as [Hc Hm].
    destruct (Ascii.eqb_spec c ".") as [->|]; [discriminate Hc|].
    now rewrite (IH Hm).
Qed.

Lemma label_no_dot (l : string) : label l = true -> count "." l = 0.
Proof.
  unfold label. intros H.
  apply andb_prop in H. destruct H as [H _].
  apply andb_prop in H. destruct H as [H _].
  apply andb_prop in H. destruct H as [_ H].
  now apply alnum_hyphen_no_dot.
Qed.

Lemma labels_no_dot (labels : list string) :
  forallb label labels = true -> Forall (fun x => count "." x = 0) labels.
Proof.
  rewrite forallb_forall, Forall_forall. intros H x Hx.
  apply label_no_dot. now apply H.
Qed.

(** The hostnames are the dotted labels. *)
Lemma hostname_iff (s : string) :
  hostname s = true <->
  exists l labels,
    s = l ++ dotted labels /\ label l = true /\ forallb label labels = true.
Proof.
  unfold hostname. split.
  - intros H. destruct (split_dotted s) as (l & labels & Hs & Heq).
    rewrite Hs in H. cbn [forallb] in H. apply andb_prop in H.
    exists l, labels. tauto.
  - intros (l & labels & -> & Hl & Hall).
    rewrite split_of_dotted;
      [cbn [forallb]; now rewrite Hl, Hall
      | now apply label_no_dot | now apply labels_no_dot].
Qed.

(** What [validate_domain] accepts, for every string: the hostnames, and
    the hostnames followed by one line feed.  Apart from that final line
    feed the test is the hostname grammar of C5. *)
Theorem domain_ok_characterised (s : string) :
  domain_ok s = true <->
  hostname s = true \/ exists s', s = s' ++ LF /\ hostname s' = true.
Proof.
  rewrite domain_ok_iff. split.
  - intros (l & labels & rest & -> & Hl & Hall & [->| ->]).
    + left. rewrite append_nil_r. apply hostname_iff. eauto.
    + right. exists (l ++ dotted labels). split.
      * now rewrite append_assoc.
      * apply hostname_iff. eauto.
  - intros [H|(s' & -> & H)];
      apply hostname_iff in H; destruct H as (l & labels & -> & Hl & Hall).
    + exists l, labels, "". rewrite append_nil_r. auto.
    + exists l, labels, LF. rewrite append_assoc. auto.
Qed.

(** A string that does not end in a line feed passes the test exactly when
    it is a hostname. *)
Corollary domain_ok_without_line_feed (s : string) :
  (forall s', s <> s' ++ LF) -> domain_ok s = hostname s.
Proof.
  intros Hs. pose proof (domain_ok_characterised s) as H.
  destruct (domain_ok s), (hostname s); try reflexivity.
  - destruct (proj1 H eq_refl) as [H'|(s' & Heq & _)];
      [discriminate H' | now destruct (Hs s')].
  - apply (proj2 H). now left.
Qed.

End HostnameFacts.

(** ** manage-domain.py: validation *)

Module ValidateFacts.
Import PyStr Py Re ManageDomain Hostname.

Example accepts_example_com : domain_ok "example.com" = true.
Proof. reflexivity. Qed.

Example rejects_leading_hyphen : domain_ok "-bad.com" = false.
Proof. reflexivity. Qed.

Example rejects_empty_label : domain_ok "a..b.com" = false.
Proof. reflexivity. Qed.

Example rejects_empty : domain_ok "" = false.
Proof. reflexivity. Qed.

Example rejects_leading_dot : domain_ok ".example.com" = false.
Proof. reflexivity. Qed.

Example rejects_trailing_dot : domain_ok "example.com." = false.
Proof. reflexivity. Qed.

Example rejects_underscore : domain_ok "a_b.com" = false.
Proof. reflexivity. Qed.

Example accepts_63 :
  domain_ok "aaaaaaaaaaaaaaaaaaaaaaaaaaaaaaaaaaaaaaaaaaaaaaaaaaaaaaaaaaaaaaa.com"
  = true.
Proof. vm_compute. reflexivity. Qed.

Example rejects_64 :
  domain_ok "aaaaaaaaaaaaaaaaaaaaaaaaaaaaaaaaaaaaaaaaaaaaaaaaaaaaaaaaaaaaaaaa.com"
  = false.
Proof. vm_compute. reflexivity. Qed.

(** C5 fails on the code: the string example.com followed by a line feed
    is no hostname (the line feed is outside [A-Za-z0-9-] and the dot),
    yet the test of [validate_domain] accepts it, and [validate_domain]
    returns true without logging anything, in every world.  The [$] of
    [DOMAIN_RE] also matches before a final line feed. *)
Theorem validate_domain_accepts_final_line_feed :
  let d := "example.com" ++ LF in
  hostname d = false
  /\ domain_ok d = true
  /\ forall (W : Type) (h : Handler W) (w : W),
       run h (validate_domain d) w = (Returned true, w, []).
Proof. repeat split. Qed.

End ValidateFacts.

(** ** manage-domain.py: request and delete *)

Module ManageFacts.
Import PyStr Py Re ManageDomain Hostname Observe Worlds Ledger RunFacts.
Local Arguments String.append : simpl never.

Ltac walk tac :=
  cbn;
  lazymatch goal with
  | |- forall _ : unit, _ => intros []; walk tac
  | |- forall _ : bool, _ => intros []; walk tac
  | |- forall _ : option _, _ => intros [?|]; walk tac
  | |- forall _ : RunResult, _ => intros [? ?|?]; walk tac
  | |- forall _ : Z, _ => intros ?; walk tac
  | |- always _ (if ?b then _ else _) => destruct b eqn:?; walk tac
  | |- always _ (bind (if ?b then _ else _) _) => destruct b eqn:?; walk tac
  | |- always _ (bind (bind (if ?b then _ else _) _) _) =>
      destruct b eqn:?; walk tac
  | |- _ => tac
  end.

Lemma calm_app (t1 t2 : Trace) : calm t1 -> calm t2 -> calm (t1 ++ t2)%list.
Proof. intros H1 H2. apply Forall_app. now split. Qed.

Lemma calm_untouched (t : Trace) : calm t -> fs_untouched t.
Proof.
  unfold calm, fs_untouched. apply Forall_impl. intros e. unfold is_calm.
  destruct (is_fs_change (call_of e)); [|reflexivity].
  rewrite andb_false_r. discriminate.
Qed.

Lemma calm_no_failed_issuance (t : Trace) :
  calm t -> existsb failed_issuance t = false.
Proof.
  induction 1 as [|[c r] t He Ht IH]; [reflexivity|].
  cbn [existsb]. rewrite IH, orb_false_r.
  unfold is_calm in He. cbn [call_of] in He.
  destruct c; try reflexivity.
  change (failed_issuance (Ev (Run args) r))
    with (is_issuance (Run args) && run_failed r).
  destruct (is_issuance (Run args)); [discriminate He | reflexivity].
Qed.

Lemma preflight_bind {A B} (p : Prog A) (f : A -> Prog B) :
  always preflight p -> (forall a, always preflight (f a)) -> always preflight (bind p f).
Proof.
  intros Hp Hf. apply always_bind. eapply always_weaken; [|exact Hp].
  intros [a|e] t [Hc He].
  - eapply always_weaken; [|apply Hf].
    intros o t' [Hc' He']. split; [now apply calm_app | exact He'].
  - split; [exact Hc|]. intros e0 [= <-]. now apply He.
Qed.

Ltac preflight_leaf :=
  split; [repeat constructor | intros ? [=]; subst; reflexivity].

Lemma require_root_preflight : always preflight require_root.
Proof.
  unfold require_root. cbn. intros uid.
  destruct (uid =? 0)%Z; walk preflight_leaf.
Qed.

Lemma which_or_die_preflight (p hint : string) : always preflight (which_or_die p hint).
Proof. unfold which_or_die. walk preflight_leaf. Qed.

Lemma check_dependencies_preflight (cfg : Config) : always preflight (check_dependencies cfg).
Proof.
  unfold check_dependencies.
  apply preflight_bind; [walk preflight_leaf|]. intros _.
  apply preflight_bind; [apply which_or_die_preflight|]. intros _.
  apply preflight_bind; [apply which_or_die_preflight|]. intros _.
  walk preflight_leaf.
Qed.

Lemma validate_domain_preflight (domain : string) : always preflight (validate_domain domain).
Proof. unfold validate_domain. destruct (domain_ok domain); walk preflight_leaf. Qed.

Lemma check_domain_exists_preflight (cfg : Config) (domain : string) :
  always preflight (check_domain_exists cfg domain).
Proof. unfold check_domain_exists. walk preflight_leaf. Qed.

(** Every run of [disable_site] returns: a removal that raises is caught. *)

Lemma disable_site_returns (cfg : Config) (domain : string) (ok : bool) :
  always (fun o t => exists ok', o = Returned ok')
    (disable_site cfg domain ok).
Proof.
  unfold disable_site, raise_if. walk ltac:(eexists; reflexivity).
Qed.

Lemma remove_config_returns (cfg : Config) (domain : string) (ok : bool) :
  always (fun o t => exists ok', o = Returned ok')
    (remove_config cfg domain ok).
Proof.
  unfold remove_config, raise_if. walk ltac:(eexists; reflexivity).
Qed.










Section WithInt.
Variable py_int : string -> option Z.

Lemma load_names_calm (names : list string) :
  forall cfg,
    always (fun o t => calm t /\ exists cfg', o = Returned cfg')
      (load_names py_int cfg names).
Proof.
  induction names as [|name rest IH]; intros cfg; cbn.
  - split; [constructor | eauto].
  - intros [val|];
      (eapply always_weaken; [|apply IH]);
      intros o t [Hc Ho]; (split; [constructor; [reflexivity | exact Hc] | exact Ho]).
Qed.

Lemma load_env_overrides_preflight (cfg : Config) :
  always preflight (load_env_overrides py_int cfg).
Proof.
  eapply always_weaken; [|apply load_names_calm].
  intros o t [Hc [cfg' ->]]. split; [exact Hc | discriminate].
Qed.

Lemma prelude_preflight (cfg0 : Config) (args : Args) :
  always preflight (prelude py_int cfg0 args).
Proof.
  unfold prelude.
  apply preflight_bind; [apply require_root_preflight|]. intros _.
  apply preflight_bind; [apply load_env_overrides_preflight|]. intros cfg.
  apply preflight_bind; [apply check_dependencies_preflight|]. intros _.
  apply preflight_bind; [apply validate_domain_preflight|]. intros [|]; walk preflight_leaf.
Qed.

Ltac rewrite_tests :=
  repeat match goal with
         | H : (_ =? _)%Z = _ |- _ => rewrite H
         end.

Ltac abort_leaf :=
  cbn; rewrite_tests; cbn;
  let H := fresh in
  intros H;
  first [ discriminate H
        | split; [cbn; discriminate | repeat constructor] ].

(** The branch [request]: when the call to certbot fails, the branch ends
    with a status other than 0 and has changed nothing. *)
Lemma request_aborts (cfg : Config) (domain : string) (email : PyVal) :
  always (fun o t =>
            existsb failed_issuance t = true ->
            exit_status o <> 0%Z /\ fs_untouched t)
    (request cfg domain email).
Proof.
  unfold request, check_domain_exists, request_certificate, subprocess_run,
    create_nginx_config, enable_nginx_site, nginx_test, nginx_reload, raise_if.
  walk abort_leaf.
Qed.

(** C7: in every run of [request], if the call that asks certbot for the
    certificate fails (a return code other than 0, or the call raising),
    the process ends with an exit status other than 0 and the run has made
    no change to the file system: no configuration file is written and no
    enabled-site link is made. *)
Theorem failed_issuance_aborts (W : Type) (h : Handler W) (w : W)
  (cfg0 : Config) (domain : string) (email : option string) :
  let r := run h (main py_int cfg0 (ArgsRequest domain email)) w in
  existsb failed_issuance (trace_of r) = true ->
  exit_status (outcome_of r) <> 0%Z /\ fs_untouched (trace_of r).
Proof.
  intros r. subst r. apply always_run. unfold main.
  apply always_bind. eapply always_weaken; [|apply prelude_preflight].
  intros [cfg|e] t [Hcalm He].
  - eapply always_weaken; [|apply request_aborts].
    intros o t' Hreq Hfail.
    rewrite existsb_app, (calm_no_failed_issuance t Hcalm) in Hfail.
    destruct (Hreq Hfail) as [Hexit Hfs].
    split; [exact Hexit|].
    apply Forall_app. split; [now apply calm_untouched | exact Hfs].
  - intros Hfail. rewrite (calm_no_failed_issuance t Hcalm) in Hfail.
    discriminate Hfail.
Qed.

(** C6: when the steps before the branch have passed and
    [check_domain_exists] finds a configuration (available or enabled),
    [request] warns, exits with code 0, and the whole run has made no call
    that asks for a certificate and no change to the file system. *)
Theorem request_already_configured (W : Type) (h : Handler W)
  (cfg0 cfg : Config) (domain : string) (email : option string)
  (w0 w1 w2 : W) (t1 t2 : Trace) :
  run h (prelude py_int cfg0 (ArgsRequest domain email)) w0
    = (Returned cfg, w1, t1) ->
  run h (check_domain_exists cfg domain) w1 = (Returned true, w2, t2) ->
  let r := run h (main py_int cfg0 (ArgsRequest domain email)) w0 in
  outcome_of r = Raised (SystemExit 0)
  /\ exit_status (outcome_of r) = 0%Z
  /\ trace_of r
     = (t1 ++ t2
        ++ [Ev (Log "YELLOW"
                  ("[WARNING] " ++ "Domain " ++ domain
                   ++ " is already configured")) tt])%list
  /\ calm (trace_of r).
Proof.
  intros H1 H2 r.
  assert (Hc1 : calm t1).
  { pose proof (always_run h _ _ w0 (prelude_preflight cfg0 (ArgsRequest domain email)))
      as Hg. rewrite H1 in Hg. apply Hg. }
  assert (Hc2 : calm t2).
  { pose proof (always_run h _ _ w1 (check_domain_exists_preflight cfg domain)) as Hg.
    rewrite H2 in Hg. apply Hg. }
  assert (Hr : exists w3,
             r = (Raised (SystemExit 0), w3,
                  (t1 ++ t2
                   ++ [Ev (Log "YELLOW"
                             ("[WARNING] " ++ "Domain " ++ domain
                              ++ " is already configured")) tt])%list)).
  { subst r. unfold main.
    rewrite (run_bind_returned h _ _ _ _ _ _ H1). unfold request.
    rewrite (run_bind_returned h _ _ _ _ _ _ H2). cbn.
    answer. eexists. reflexivity. }
  destruct Hr as [w3 ->]. cbn.
  repeat split.
  apply calm_app; [exact Hc1|]. apply calm_app; [exact Hc2|].
  repeat constructor.
Qed.

End WithInt.

(** A host where example.com is configured already. *)
Lemma request_already_configured_witness :
  exit_status
    (outcome_of (run host_world
                   (main int_of_digits config (ArgsRequest "example.com" None))
                   live_host)) = 0%Z.
Proof.
  apply (request_already_configured int_of_digits Host host_world config config
           "example.com" None live_host live_host live_host _ _
           eq_refl eq_refl).
Defined.

(** A host where certbot cannot issue. *)
Lemma failed_issuance_aborts_witness :
  let r := run host_world
             (main int_of_digits config (ArgsRequest "example.com" None))
             issue_fails_host in
  exit_status (outcome_of r) <> 0%Z /\ fs_untouched (trace_of r).
Proof.
  apply (failed_issuance_aborts int_of_digits Host host_world issue_fails_host
           config "example.com" None eq_refl).
Defined.

End ManageFacts.

(** ** verify-dns.py: resolution and provider *)

Module ResolveFacts.
Import PyStr Py VerifyDns Observe Tally RunFacts.
Local Arguments String.append : simpl never.

(** What [rstrip] leaves does not end in a stripped character. *)
Lemma rstrip_last (p : ascii -> bool) (s : string) :
  forall m c, rstrip p s = m ++ String c "" -> p c = false.
Proof.
  induction s as [|d s IH]; intros m c; cbn [rstrip].
  - destruct m; discriminate.
  - destruct (rstrip p s) as [|e r] eqn:Er.
    + destruct (p d) eqn:Ed.
      * destruct m; discriminate.
      * destruct m as [|d' m]; cbn [append].
        -- intros [= <-]. exact Ed.
        -- intros [= _ H]. destruct m; discriminate H.
    + destruct m as [|d' m]; cbn [append].
      * intros H. discriminate H.
      * intros [= _ H]. now apply (IH m c).
Qed.

(** [resolve_records] first makes a resolver.  When that raises, the
    exception goes through uncaught and no query is made.  Otherwise there
    is exactly one query, for the name and the type given, and the
    function returns: the empty list when the query raised, and else the
    answers, none of which ends in a dot. *)
Theorem resolve_records_answers (W : Type) (h : Handler W) (w : W)
  (cfg : Config) (domain rtype : string) :
  let r := run h (resolve_records cfg domain rtype) w in
  let made := h (NewResolver (DNS_SERVERS cfg) (DNS_TIMEOUT cfg)) w in
  match fst made with
  | Some e =>
      outcome_of r = Raised (PyException e)
      /\ dns_calls (trace_of r) = []
      /\ existsb no_resolver (trace_of r) = true
  | None =>
      exists records,
        outcome_of r = Returned records
        /\ dns_calls (trace_of r) = [(domain, rtype)]
        /\ dns_answers (trace_of r) = [records]
        /\ existsb no_resolver (trace_of r) = false
        /\ Forall (fun x => forall m, x <> m ++ ".") records
        /\ (fst (h (DnsResolve (DNS_SERVERS cfg) (DNS_TIMEOUT cfg) domain rtype)
                  (snd made))
            = None -> records = [])
  end.
Proof.
  cbn. destruct (h _ w) as [[e|] w1]; cbn.
  - repeat split.
  - destruct (h _ w1) as [[answers|] w2]; cbn.
    + exists (map (rstrip is_dot) answers). repeat split; try discriminate.
      apply Forall_forall. intros x Hx m Hm.
      apply in_map_iff in Hx. destruct Hx as (a & <- & _).
      apply rstrip_last in Hm. discriminate Hm.
    + exists []. repeat split. constructor.
Qed.

(** The provider named is Unknown or one of the table, and then a name
    server holds its signature; a name server that holds a signature is
    never classified Unknown. *)
Theorem provider_of_sound (nss : list string) :
  (provider_of nss = "Unknown provider"
   \/ exists ns sg,
        In ns nss /\ In sg SIGNATURES
        /\ contains (fst sg) ns = true /\ provider_of nss = snd sg)
  /\ ((exists ns sg, In ns nss /\ In sg SIGNATURES /\ contains (fst sg) ns = true)
      -> provider_of nss <> "Unknown provider").
Proof.
  induction nss as [|ns rest [IHs IHc]]; cbn [provider_of].
  - split; [now left|]. intros (ns & sg & [] & _).
  - unfold signature_of.
    destruct (find (fun sg => contains (fst sg) ns) SIGNATURES) as [sg|] eqn:Ef.
    + apply find_some in Ef. destruct Ef as [Hin Hc]. split.
      * right. exists ns, sg. cbn [In]. auto.
      * intros _. revert Hin. clear. cbn [SIGNATURES In].
        intros H. repeat (destruct H as [<-|H]; [discriminate|]). destruct H.
    + split.
      * destruct IHs as [Hu|(ns' & sg & Hin & Hsg & Hc & Hp)]; [now left|].
        right. exists ns', sg. cbn [In]. auto.
      * intros (ns' & sg & [<-|Hin] & Hsg & Hc).
        -- pose proof (find_none _ _ Ef sg Hsg) as Hn. cbn beta in Hn.
           congruence.
        -- apply IHc. eauto.
Qed.

Lemma provider_of_sound_witness :
  provider_of ["kate.ns.cloudflare.com"] <> "Unknown provider".
Proof.
  apply (proj2 (provider_of_sound ["kate.ns.cloudflare.com"])).
  exists "kate.ns.cloudflare.com", ("cloudflare", "Cloudflare").
  repeat split; simpl; auto.
Defined.

Section Identify.
Variables (cfg : Config) (base : string).

Lemma ns_lookup_always (tries : nat) :
  1 <= tries -> always (lookup_run base tries) (ns_lookup cfg base tries).
Proof.
  induction tries as [|n IH]; intros Hn; [lia|].
  cbn [ns_lookup resolve_records bind call raise_if]. intros [e|]; cbn [bind raise_if].
  { cbn. exists 0. split; [reflexivity|]. right.
    repeat split; try lia. eauto. }
  intros r. cbn [bind].
  set (rs := match r with
             | Some answers => map (rstrip is_dot) answers
             | None => []
             end).
  assert (Hrs : always
            (fun o t => lookup_run base (S n) o
               (Ev (NewResolver (DNS_SERVERS cfg) (DNS_TIMEOUT cfg)) None
                :: Ev (DnsResolve (DNS_SERVERS cfg) (DNS_TIMEOUT cfg) base "NS") r
                :: t))
            (if nonempty rs then Ret rs else ns_lookup cfg base n)).
  { unfold lookup_run, dns_calls, dns_answers in *.
    destruct rs as [|x rs'] eqn:Ers; cbn [nonempty].
    - destruct n as [|n'].
      + cbn. exists 1. split; [reflexivity|]. left. exists [].
        cbn. fold rs. rewrite Ers. repeat split; try lia.
      + eapply always_weaken; [|apply IH; lia].
        intros o t (k & Hc & Hcases).
        exists (S k). cbn. rewrite Hc. split; [reflexivity|].
        fold rs. rewrite Ers.
        destruct Hcases as [(final & Hk & Ha & Hf & Hno & Ho)
                           |(Hk & Ha & Hno & He)].
        * left. exists final. rewrite Ha.
          repeat split; try lia; try assumption.
          -- replace (k - 0) with (S (k - 1)) by lia. reflexivity.
          -- intros Hlt. apply Hf. lia.
        * right. rewrite Ha. repeat split; try lia; assumption.
    - cbn. exists 1. split; [reflexivity|]. left. exists (x :: rs').
      cbn. fold rs. rewrite Ers.
      repeat split; try lia. discriminate. }
  destruct r as [answers|]; exact Hrs.
Qed.

End Identify.

(** [identify_dns_provider] asks for the NS records of the base domain,
    at most as often as there are configured servers (once when there are
    none), making a resolver for each query.  When every resolver is made
    it stops at the first answer that is not empty and names the provider
    from that answer, lower-cased; when every answer is empty the last one
    gives Unknown provider.  When a resolver cannot be made, all answers
    so far having been empty, its exception ends the run. *)
Theorem identify_dns_provider_lookup (W : Type) (h : Handler W) (w : W)
  (cfg : Config) (domain : string) :
  let r := run h (identify_dns_provider cfg domain) w in
  let tries := Nat.max 1 (List.length (DNS_SERVERS cfg)) in
  exists k,
    dns_calls (trace_of r) = repeat (extract_base_domain domain, "NS") k
    /\ ((exists final,
           1 <= k <= tries
           /\ dns_answers (trace_of r) = (repeat [] (k - 1) ++ [final])%list
           /\ (k < tries -> final <> [])
           /\ existsb no_resolver (trace_of r) = false
           /\ outcome_of r = Returned (provider_of (map lower final)))
        \/ (k < tries
            /\ dns_answers (trace_of r) = repeat [] k
            /\ existsb no_resolver (trace_of r) = true
            /\ exists e, outcome_of r = Raised (PyException e))).
Proof.
  intros r tries. subst r. apply always_run.
  unfold identify_dns_provider. cbn [log bind call]. intros [].
  apply always_bind. eapply always_weaken; [|apply ns_lookup_always; lia].
  intros o t (k & Hc & [(final & Hk & Ha & Hf & Hno & ->)|(Hk & Ha & Hno & e & ->)]).
  - cbn [always bind]. rewrite app_nil_r.
    exists k. split; [exact Hc|]. left. exists final. auto.
  - exists k. split; [exact Hc|]. right. eauto.
Qed.

End ResolveFacts.

(** ** verify-dns.py: what the proxy check decides *)

Module ProxyCheckFacts.
Import PyStr Py VerifyDns Observe Tally RunFacts CidrFacts.
Local Arguments String.append : simpl never.

Section WithIpAddress.
Context {ipaddress : IpAddress}.

Lemma in_cidr_in_any (ip : string) (a : Address) (cf4 : list string) :
  ip_address ip = Some a -> existsb (in_cidr ip) cf4 = in_any a cf4.
Proof.
  intros Ha. rewrite in_any_existsb. unfold in_cidr. now rewrite Ha.
Qed.

(** The scan makes no resolver and no DNS query; over records that all
    parse it says whether one of them lies in a range. *)
Lemma proxy_scan_decides (domain : string) (cf4 a_records : list string) :
  always (fun o t =>
            dns_answers t = [] /\ dns_calls t = []
            /\ existsb no_resolver t = false
            /\ (Forall (fun ip => ip_address ip <> None) a_records ->
                o = Returned
                      (existsb (fun ip => existsb (in_cidr ip) cf4) a_records)))
    (proxy_scan domain cf4 a_records).
Proof.
  induction a_records as [|ip rest IH]; cbn [proxy_scan existsb].
  - cbn. auto.
  - unfold ip_in_any_cidr.
    destruct (ip_address ip) as [a|] eqn:Ea; cbn [lift bind].
    + rewrite (in_cidr_in_any ip a cf4 Ea).
      destruct (in_any a cf4); cbn [orb].
      * cbn. intros []. auto.
      * eapply always_weaken; [|exact IH].
        intros o t (Ha & Hc & Hn & Ho). repeat split; try assumption.
        intros Hparse. apply Ho. now inversion Hparse.
    + cbn. repeat split. intros Hparse. inversion Hparse. congruence.
Qed.

(** [check_cloudflare_proxy] makes a resolver and, when that raises, ends
    with the exception without a query.  Otherwise it makes the one
    A-record query and, when the records all parse as addresses, returns
    whether one of them lies in one of the IPv4 ranges; in particular it
    returns false when nothing resolves. *)
Theorem check_cloudflare_proxy_decides (W : Type) (h : Handler W) (w : W)
  (cfg : Config) (domain : string) (cf4 cf6 : list string) :
  let r := run h (check_cloudflare_proxy cfg domain cf4 cf6) w in
  let a_records := concat (dns_answers (trace_of r)) in
  Forall (fun ip => ip_address ip <> None) a_records ->
  (existsb no_resolver (trace_of r) = false ->
   dns_calls (trace_of r) = [(domain, "A")]
   /\ outcome_of r
      = Returned (existsb (fun ip => existsb (in_cidr ip) cf4) a_records))
  /\ (existsb no_resolver (trace_of r) = true ->
      dns_calls (trace_of r) = []
      /\ exists e, outcome_of r = Raised (PyException e)).
Proof.
  intros r a_records. subst a_records r. apply always_run.
  unfold check_cloudflare_proxy. cbn [log call bind resolve_records raise_if].
  intros []. intros [e|]; cbn [bind raise_if].
  { cbn. intros _. split; [discriminate|]. intros _. eauto. }
  intros ans. cbn [bind].
  set (records := match ans with
                  | Some answers => map (rstrip is_dot) answers
                  | None => []
                  end).
  assert (Hgoal :
    always
      (fun o t =>
         dns_answers t = [] /\ dns_calls t = []
         /\ existsb no_resolver t = false
         /\ (Forall (fun ip => ip_address ip <> None) records ->
             o = Returned (existsb (fun ip => existsb (in_cidr ip) cf4) records)))
      (if nonempty records then proxy_scan domain cf4 records else Ret false)).
  { destruct records as [|ip rest] eqn:Er; cbn [nonempty].
    - cbn. auto.
    - apply proxy_scan_decides. }
  eapply always_weaken; [|destruct ans; exact Hgoal].
  intros o t (Ha & Hc & Hn & Ho).
  unfold dns_answers, dns_calls in *.
  cbn [flat_map dns_answer_of dns_call_of app existsb no_resolver orb].
  fold records. rewrite Ha, Hc, Hn. cbn [concat]. rewrite app_nil_r.
  intros Hparse. split.
  - intros _. split; [reflexivity | now apply Ho].
  - discriminate.
Qed.

End WithIpAddress.

(** The proxied zone of the samples and the fallback ranges. *)
Lemma check_cloudflare_proxy_decides_witness :
  outcome_of (run Worlds.dns_world
                (@check_cloudflare_proxy IPv4.ipv4 config "example.com"
                   FALLBACK_CIDRS [])
                Worlds.proxied_zone)
  = Returned true.
Proof.
  refine (proj2 (proj1 (@check_cloudflare_proxy_decides IPv4.ipv4 Worlds.Dns
                   Worlds.dns_world Worlds.proxied_zone config "example.com"
                   FALLBACK_CIDRS [] _) eq_refl)).
  repeat constructor; discriminate.
Defined.

End ProxyCheckFacts.

(** ** verify-dns.py: how [main] ends *)

Module ReportFacts.
Import PyStr Py VerifyDns Observe Tally RunFacts.
Local Arguments String.append : simpl never.
Local Arguments Z.of_nat : simpl never.
Local Arguments Z.pow : simpl never.
Local Arguments Z.eqb : simpl never.
Local Arguments Z.sub : simpl never.

Lemma lookups_only_app (t1 t2 : Trace) :
  lookups_only t1 -> lookups_only t2 -> lookups_only (t1 ++ t2)%list.
Proof. intros H1 H2. apply Forall_app. now split. Qed.

Lemma printed_app (t1 t2 : Trace) :
  printed (t1 ++ t2)%list = (printed t1 ++ printed t2)%list.
Proof. apply flat_map_app. Qed.

Lemma silent_bind {A B} (p : Prog A) (f : A -> Prog B) :
  always silent p -> (forall a, always silent (f a)) -> always silent (bind p f).
Proof.
  intros Hp Hf. apply always_bind. eapply always_weaken; [|exact Hp].
  intros o t (Hl & Hp' & [[a ->]|[e ->]]).
  - eapply always_weaken; [|apply Hf].
    intros o' t' (Hl' & Hp'' & Ho). repeat split.
    + now apply lookups_only_app.
    + now rewrite printed_app, Hp', Hp''.
    + exact Ho.
  - repeat split; try assumption. right. eauto.
Qed.

Ltac silent_leaf :=
  split; [repeat constructor|];
  split; [reflexivity|];
  first [left; eexists; reflexivity | right; eexists; reflexivity].

Ltac silent_walk :=
  cbn;
  lazymatch goal with
  | |- forall _ : unit, _ => intros []; silent_walk
  | |- forall _ : option _, _ => intros [?|]; silent_walk
  | |- always _ (if ?b then _ else _) => destruct b eqn:?; silent_walk
  | |- always _ (match ?b with _ => _ end) => destruct b eqn:?; silent_walk
  | |- _ => silent_leaf
  end.

Lemma resolve_records_silent (cfg : Config) (domain rtype : string) :
  always silent (resolve_records cfg domain rtype).
Proof. unfold resolve_records, raise_if. silent_walk. Qed.

Lemma log_silent (color msg : string) : always silent (call (Log color msg)).
Proof. silent_walk. Qed.

Lemma ns_lookup_silent (cfg : Config) (base : string) (tries : nat) :
  always silent (ns_lookup cfg base tries).
Proof.
  induction tries as [|n IH]; cbn [ns_lookup].
  - silent_walk.
  - apply silent_bind; [apply resolve_records_silent|].
    intros rs. destruct (nonempty rs); [silent_walk | exact IH].
Qed.

Lemma identify_silent (cfg : Config) (domain : string) :
  always silent (identify_dns_provider cfg domain).
Proof.
  unfold identify_dns_provider.
  apply silent_bind; [apply log_silent|]. intros _.
  apply silent_bind; [apply ns_lookup_silent|]. intros nss. silent_walk.
Qed.

Lemma fetch_silent : always silent fetch_cloudflare_cidrs.
Proof. unfold fetch_cloudflare_cidrs. silent_walk. Qed.

Lemma attempts_silent (cfg : Config) (domain : string)
  (expected_ips : list string) (retries : Z) (todo : list Z) :
  always silent (attempts cfg domain expected_ips retries todo).
Proof.
  induction todo as [|attempt rest IH]; cbn [attempts].
  - silent_walk.
  - apply silent_bind.
    { destruct (negb (attempt =? 0)%Z); silent_walk. }
    intros _. apply silent_bind; [apply resolve_records_silent|]. intros resolved.
    destruct (negb (nonempty resolved)).
    + apply silent_bind; [apply resolve_records_silent|]. intros cname.
      destruct (nonempty cname).
      * apply silent_bind; [apply log_silent|]. intros _.
        destruct (attempt =? retries - 1)%Z; [silent_walk | exact IH].
      * destruct (attempt =? retries - 1)%Z; [silent_walk | exact IH].
    + apply silent_bind; [apply log_silent|]. intros _.
      destruct (any_expected resolved expected_ips); [silent_walk|].
      destruct (attempt =? retries - 1)%Z; [silent_walk | exact IH].
Qed.

Lemma verify_silent (cfg : Config) (domain : string) (expected_ips : list string) :
  always silent (verify_domain_a_records cfg domain expected_ips).
Proof.
  unfold verify_domain_a_records.
  apply silent_bind; [apply log_silent|]. intros _.
  destruct (negb (nonempty expected_ips)); [silent_walk|].
  apply attempts_silent.
Qed.

Lemma last_behind {A} (l1 l2 : list A) (x d : A) :
  last (l1 ++ x :: l2)%list d = last (x :: l2) d.
Proof.
  induction l1 as [|y l1 IH]; [reflexivity|].
  cbn [app]. rewrite <- IH. cbn [last].
  destruct (l1 ++ x :: l2)%list eqn:E; [|reflexivity].
  now destruct l1.
Qed.

Lemma last_call_app (t1 t2 : Trace) (c : Call) :
  last_call t2 = Some c -> last_call (t1 ++ t2)%list = Some c.
Proof.
  unfold last_call. intros H. rewrite map_app.
  destruct (map (fun e => Some (call_of e)) t2) as [|x l] eqn:E;
    [discriminate H|].
  now rewrite last_behind.
Qed.

(** A report stays a report behind a silent prefix. *)
Lemma report_after_silent (V : bool -> Prop) (t1 t2 : Trace) (o : Outcome unit) :
  lookups_only t1 -> printed t1 = [] ->
  report_run V o t2 -> report_run V o (t1 ++ t2)%list.
Proof.
  intros Hl Hp [Hl2 Ho]. split; [now apply lookups_only_app|].
  destruct o as [[]|[code|e]]; [exact Ho | |].
  - destruct Ho as (obj & Hpr & Hlast & Hcode & Hkey).
    exists obj. rewrite printed_app, Hp, Hpr.
    repeat split; try assumption; try apply Hkey.
    now apply last_call_app.
  - now rewrite printed_app, Hp, Ho.
Qed.

Lemma report_bind {A} (V : bool -> Prop) (p : Prog A) (f : A -> Prog unit) :
  always silent p -> (forall a, always (report_run V) (f a)) ->
  always (report_run V) (bind p f).
Proof.
  intros Hp Hf. apply always_bind. eapply always_weaken; [|exact Hp].
  intros o t (Hl & Hpr & [[a ->]|[e ->]]).
  - eapply always_weaken; [|apply Hf].
    intros o' t' Hr. now apply report_after_silent.
  - split; assumption.
Qed.

Section WithIpAddress.
Context {ipaddress : IpAddress}.

(** The proxy check logs and queries only, and either returns or lets an
    exception through: that of a resolver that cannot be made, or the
    ValueError of an address that does not parse. *)
Lemma proxy_scan_silent (domain : string) (cf4 a_records : list string) :
  always silent (proxy_scan domain cf4 a_records).
Proof.
  induction a_records as [|ip rest IH]; cbn [proxy_scan].
  - silent_walk.
  - unfold ip_in_any_cidr. destruct (ip_address ip) as [a|]; cbn [lift bind].
    + destruct (in_any a cf4); [silent_walk | exact IH].
    + silent_walk.
Qed.

Lemma check_cloudflare_proxy_silent (cfg : Config) (domain : string)
  (cf4 cf6 : list string) :
  always silent (check_cloudflare_proxy cfg domain cf4 cf6).
Proof.
  unfold check_cloudflare_proxy.
  apply silent_bind; [apply log_silent|]. intros _.
  apply silent_bind; [apply resolve_records_silent|]. intros records.
  destruct (nonempty records); [apply proxy_scan_silent | silent_walk].
Qed.

Ltac report_leaf :=
  cbn;
  split;
  [ repeat constructor
  | eexists; repeat split;
    [ first [ left; repeat split; first [reflexivity | assumption]
            | right; left; repeat split; reflexivity
            | right; right; repeat split; first [reflexivity | assumption] ]
    | intros H; first [discriminate H | congruence]
    | intros H; first [reflexivity | exfalso; apply H; reflexivity | congruence ] ] ].

(** The end of [main] once verification has given [matched]. *)
Lemma finish_report (V : bool -> Prop) (provider : string) (proxy : bool)
  (matched : bool) :
  V matched ->
  (proxy = true -> provider = "Cloudflare") ->
  (proxy = false -> provider <> "Cloudflare") ->
  always (report_run V)
    (call (PrintJson
             (if proxy
              then [ ("message", matched_text matched);
                     ("dnsProvider", provider);
                     ("cloudflare_proxy", "disabled") ]
              else [ ("message", matched_text matched);
                     ("dnsProvider", provider) ])) ;;
     sys_exit (if matched then 0 else 1))%prog.
Proof.
  intros HV Hyes Hno. cbn. intros [].
  split; [repeat constructor|].
  destruct proxy.
  - rewrite (Hyes eq_refl). destruct matched; cbn.
    + eexists. split; [reflexivity|]. split; [reflexivity|]. split.
      * left. repeat split. exact HV.
      * cbn. split; [discriminate | intros H; now destruct H].
    + eexists. split; [reflexivity|]. split; [reflexivity|]. split.
      * right. right. repeat split. exact HV.
      * cbn. split; [discriminate | intros H; now destruct H].
  - pose proof (Hno eq_refl) as Hp. destruct matched; cbn.
    + eexists. split; [reflexivity|]. split; [reflexivity|]. split.
      * left. repeat split. exact HV.
      * cbn. split; [intros _ [= H]; now apply Hp | reflexivity].
    + eexists. split; [reflexivity|]. split; [reflexivity|]. split.
      * right. right. repeat split. exact HV.
      * cbn. split; [intros _ [= H]; now apply Hp | reflexivity].
Qed.

(** Verification, then the report. *)
Lemma verify_then_report (V : bool -> Prop) (cfg : Config) (domain : string)
  (expected_ips : list string) (provider : string) (proxy : bool) :
  always (fun o t => silent o t /\ forall b, o = Returned b -> V b)
    (verify_domain_a_records cfg domain expected_ips) ->
  (proxy = true -> provider = "Cloudflare") ->
  (proxy = false -> provider <> "Cloudflare") ->
  always (report_run V)
    (matched <- verify_domain_a_records cfg domain expected_ips ;;
     call (PrintJson
             (if proxy
              then [ ("message", matched_text matched);
                     ("dnsProvider", provider);
                     ("cloudflare_proxy", "disabled") ]
              else [ ("message", matched_text matched);
                     ("dnsProvider", provider) ])) ;;
     sys_exit (if matched then 0 else 1))%prog.
Proof.
  intros Hverify Hyes Hno.
  apply always_bind. eapply always_weaken; [|exact Hverify].
  intros o t [(Hl & Hp & [[matched ->]|[e ->]]) HV].
  - eapply always_weaken; [|apply (finish_report V provider proxy matched)];
      auto.
    intros o' t' Hr. now apply report_after_silent.
  - split; assumption.
Qed.

(** Every run of [main] is a report, given what verification can return. *)
Lemma main_reports (V : bool -> Prop) (cfg : Config) (arg_domain : string)
  (expected_ips : list string) :
  always (fun o t => silent o t /\ forall b, o = Returned b -> V b)
    (verify_domain_a_records cfg (strip_ws arg_domain) expected_ips) ->
  always (report_run V) (main cfg arg_domain expected_ips).
Proof.
  intros Hverify. unfold main. cbn zeta.
  apply report_bind; [apply log_silent|]. intros _.
  apply report_bind; [apply identify_silent|]. intros provider.
  apply report_bind; [apply log_silent|]. intros _.
  apply report_bind; [apply fetch_silent|]. intros [cf4 cf6]. cbn [fst snd].
  destruct (provider =? "Cloudflare") eqn:Ep.
  - apply String.eqb_eq in Ep. subst provider.
    apply report_bind; [apply check_cloudflare_proxy_silent|].
    intros proxied. destruct proxied.
    + cbn. intros [] []. split; [repeat constructor|].
      eexists. split; [reflexivity|]. split; [reflexivity|]. split.
      * right. left. split; reflexivity.
      * cbn. split; [discriminate | intros H; now destruct H].
    + apply report_bind; [apply log_silent|]. intros _.
      apply (verify_then_report V cfg (strip_ws arg_domain) expected_ips
               "Cloudflare" true); auto. discriminate.
  - apply String.eqb_neq in Ep.
    apply (verify_then_report V cfg (strip_ws arg_domain) expected_ips
             provider false); auto. discriminate.
Qed.

(** In every world a run of verify-dns.py only logs, sleeps, makes
    resolvers, queries DNS, fetches the Cloudflare ranges and prints, and
    it never returns from [main].  It ends with an uncaught exception and
    nothing printed, or it prints exactly one object, as its last call,
    and exits with 0 when the message is matched or the proxy is reported
    enabled and with 1 when the message is not matched.  The object has
    the key cloudflare_proxy exactly when the provider is Cloudflare. *)
Theorem main_report_and_exit_code (W : Type) (h : Handler W) (w : W)
  (cfg : Config) (arg_domain : string) (expected_ips : list string) :
  let r := run h (main cfg arg_domain expected_ips) w in
  lookups_only (trace_of r)
  /\ match outcome_of r with
     | Returned _ => False
     | Raised (PyException e) => printed (trace_of r) = []
     | Raised (SystemExit code) =>
         exists obj,
           printed (trace_of r) = [obj]
           /\ last_call (trace_of r) = Some (PrintJson obj)
           /\ ((code = 0%Z
                /\ (field "message" obj = Some "matched"
                    \/ obj = PROXY_ENABLED "Cloudflare"))
               \/ (code = 1%Z /\ field "message" obj = Some "not matched"))
           /\ (field "cloudflare_proxy" obj = None
               <-> field "dnsProvider" obj <> Some "Cloudflare")
     end.
Proof.
  intros r.
  assert (Hr : report_run (fun _ => True) (outcome_of r) (trace_of r)).
  { subst r. apply always_run. apply main_reports.
    eapply always_weaken; [|apply verify_silent]. auto. }
  destruct Hr as [Hl Hr]. split; [exact Hl|].
  destruct (outcome_of r) as [[]|[code|e]]; [exact Hr | | exact Hr].
  destruct Hr as (obj & Hp & Hlast & Hcode & Hkey).
  exists obj. repeat split; try assumption; try apply Hkey.
  destruct Hcode as [(-> & Hm & _)|[(-> & ->)|(-> & Hm & _)]]; auto.
Qed.



End WithIpAddress.


End ReportFacts.

(** ** verify-dns.py: the retry budget *)

Module BudgetFacts.
Import PyStr Py VerifyDns Observe Tally RunFacts.
Local Arguments String.append : simpl never.
Local Arguments Z.of_nat : simpl never.
Local Arguments Z.pow : simpl never.
Local Arguments Z.eqb : simpl never.
Local Arguments Z.sub : simpl never.

Section Attempts.
Variables (cfg : Config) (domain : string) (expected_ips : list string).

Ltac unfold_tally :=
  unfold budget_run, cname_queries, empty_answers, a_results, dns_calls in *.

Ltac use_answers :=
  repeat match goal with
         | H : map (rstrip is_dot) _ = _ |- _ => rewrite H
         end.

Ltac tally := unfold_tally; cbn; use_answers; cbn.

Ltac stop_leaf Hn :=
  tally;
  split; [repeat constructor|];
  split; [lia|];
  split; [intros ? _; reflexivity|];
  split; [reflexivity|];
  intros _; exact Hn.

(** The run ends here, and not by returning false. *)
Ltac end_leaf :=
  tally;
  split; [repeat constructor|];
  split; [lia|];
  split; [let H := fresh in intros ? H; first [discriminate H | reflexivity]|];
  split; [reflexivity|];
  discriminate.

Ltac go_on Hrest :=
  eapply always_weaken; [|exact Hrest];
  let o := fresh "o" in
  let t := fresh "t" in
  let Hq := fresh "Hq" in
  let Hc := fresh "Hc" in
  let He := fresh "He" in
  let Hl := fresh "Hl" in
  let Hf := fresh "Hf" in
  cbn beta; intros o t (Hq & Hc & He & Hl & Hf);
  tally;
  split; [repeat (constructor; [reflexivity|]); exact Hq|];
  split; [lia|];
  split; [let b := fresh in let Ho := fresh in
          intros b Ho; rewrite (He b Ho); reflexivity|];
  split; [rewrite Hl; lia|];
  intros Ho; rewrite (Hf Ho); reflexivity.

Ltac at_final Hrest Hfin :=
  match goal with
  | |- context [(?a =? ?b)%Z] =>
      let E := fresh "E" in
      destruct (a =? b)%Z eqn:E; cbn;
      [ intros []; stop_leaf (Hfin eq_refl) | go_on Hrest ]
  end.

Ltac budget_cname Hrest Hfin :=
  intros [e|]; cbn;
  [ end_leaf
  | intros [cname|]; cbn;
    [ destruct (map (rstrip is_dot) cname) as [|c cs] eqn:Ec; cbn;
      [ at_final Hrest Hfin | intros []; at_final Hrest Hfin ]
    | at_final Hrest Hfin ] ].

Ltac budget_body Hrest Hfin :=
  cbn; intros [e|]; cbn;
  [ end_leaf
  | intros [answers|]; cbn;
    [ destruct (map (rstrip is_dot) answers) as [|ip ips] eqn:Eres; cbn;
      [ budget_cname Hrest Hfin
      | intros [];
        destruct (any_expected (ip :: ips) expected_ips) eqn:Eany; cbn;
        [ intros []; end_leaf
        | at_final Hrest Hfin ] ]
    | budget_cname Hrest Hfin ] ].

Lemma attempts_budget (n : nat) :
  forall (k : nat) (retries : Z),
    1 <= n ->
    retries = Z.of_nat (k + n) ->
    always (budget_run domain n)
      (attempts cfg domain expected_ips retries (map Z.of_nat (seq k n))).
Proof.
  induction n as [|n IH]; intros k retries Hn Hret; [lia|].
  cbn [seq map attempts].
  set (rest := attempts cfg domain expected_ips retries
                 (map Z.of_nat (seq (S k) n))).
  assert (Hfin : (Z.of_nat k =? retries - 1)%Z = true -> 1 = S n).
  { rewrite Z.eqb_eq. lia. }
  assert (Hrest : always (budget_run domain n) rest).
  { subst rest. destruct n as [|n'].
    - cbn. unfold_tally. cbn. repeat split; try lia. constructor.
    - apply IH; lia. }
  clearbody rest. clear IH.
  destruct k as [|k'].
  - change (Z.of_nat 0 =? 0)%Z with true. budget_body Hrest Hfin.
  - replace (Z.of_nat (S k') =? 0)%Z with false
      by (symmetry; apply Z.eqb_neq; lia).
    cbn. intros []. intros []. budget_body Hrest Hfin.
Qed.

End Attempts.

Lemma waited_app (a b : list Tick) : waited (a ++ b) = (waited a + waited b)%Z.
Proof.
  unfold waited. induction a as [|[s|] a IH]; cbn [app fold_right].
  - reflexivity.
  - rewrite IH. lia.
  - exact IH.
Qed.

(** Seconds waited over [m] attempts from attempt [k] >= 1 on. *)
Lemma waited_schedule (m : nat) :
  forall k, 1 <= k ->
    waited (schedule k m) = (2 ^ Z.of_nat (k + m) - 2 ^ Z.of_nat k)%Z.
Proof.
  induction m as [|m IH]; intros k Hk.
  - unfold schedule, waited. cbn [seq flat_map fold_right].
    replace (k + 0) with k by lia. lia.
  - change (schedule k (S m)) with (slot k ++ schedule (S k) m)%list.
    rewrite waited_app, (IH (S k)) by lia.
    destruct k as [|k']; [lia|]. cbn [slot]. unfold waited at 1.
    cbn [fold_right].
    replace (Z.of_nat (S (S k') + m)) with (Z.of_nat (S k' + S m)) by lia.
    replace (Z.of_nat (S (S k'))) with (Z.of_nat (S k') + 1)%Z by lia.
    rewrite Z.pow_add_r by lia. lia.
Qed.

Lemma waited_from_start (m : nat) :
  1 <= m -> waited (schedule 0 m) = backoff_total m.
Proof.
  intros Hm. destruct m as [|m]; [lia|].
  change (schedule 0 (S m)) with (slot 0 ++ schedule 1 m)%list.
  rewrite waited_app, waited_schedule by lia.
  unfold backoff_total. cbn [slot]. unfold waited. cbn [fold_right].
  replace (Z.of_nat 1) with 1%Z by reflexivity.
  replace (Z.of_nat (1 + m)) with (Z.of_nat (S m)) by reflexivity. lia.
Qed.

Lemma empty_answers_le (results : list (list string)) :
  empty_answers results <= List.length results.
Proof. unfold empty_answers. apply filter_length_le. Qed.

Section Verify.
Context {W : Type} (h : Handler W).
Variables (w : W) (cfg : Config) (domain : string) (expected_ips : list string).

(** What both properties below rest on: the run keeps to the schedule and
    to the budget. *)
Lemma verify_runs :
  nonempty expected_ips = true ->
  let r := run h (verify_domain_a_records cfg domain expected_ips) w in
  let N := Z.to_nat (Z.max 1 (DNS_RETRIES cfg)) in
  retry_run expected_ips 0 N (outcome_of r) (trace_of r)
  /\ budget_run domain N (outcome_of r) (trace_of r).
Proof.
  intros Hexp r N. subst r. split.
  - apply always_run. now apply VerifyFacts.verify_retry_run.
  - apply always_run. unfold verify_domain_a_records.
    rewrite Hexp; cbn [negb]; cbn [log call bind]; intros [].
    eapply always_weaken;
      [|apply (attempts_budget cfg domain expected_ips N 0
                 (Z.max 1 (DNS_RETRIES cfg))); subst N; lia].
    intros o t (Hq & Hc & He & Hl & Hf). repeat split; assumption.
Qed.

End Verify.

Lemma waited_pending (m : nat) :
  1 <= m -> waited (pending m) = (2 ^ Z.of_nat m)%Z.
Proof.
  intros Hm. destruct m as [|m]; [lia|]. unfold waited. cbn [pending fold_right].
  lia.
Qed.

(** When at least one IP is expected, verification sleeps at most 2^N - 2
    seconds in all, in every world, N being the number of attempts
    allowed.  It returns false only after all N attempts, and has then
    slept exactly that long: a failure is never reported early. *)
Theorem verify_backoff_bound (W : Type) (h : Handler W) (w : W)
  (cfg : Config) (domain : string) (expected_ips : list string) :
  nonempty expected_ips = true ->
  let r := run h (verify_domain_a_records cfg domain expected_ips) w in
  let N := Z.to_nat (Z.max 1 (DNS_RETRIES cfg)) in
  (total_wait (trace_of r) <= backoff_total N)%Z
  /\ (outcome_of r = Returned false ->
      List.length (a_results (trace_of r)) = N
      /\ total_wait (trace_of r) = backoff_total N).
Proof.
  intros Hexp r N.
  destruct (verify_runs h w cfg domain expected_ips Hexp)
    as [(m & Hl & Hcases) (_ & _ & _ & _ & Hf)].
  fold r in Hl, Hcases, Hf. fold N in Hcases, Hf.
  assert (HN : 1 <= N) by (subst N; lia).
  assert (Hpow : forall a b, a <= b -> (2 ^ Z.of_nat a <= 2 ^ Z.of_nat b)%Z)
    by (intros a b Hab; apply Z.pow_le_mono_r; lia).
  rewrite VerifyFacts.total_wait_timeline.
  destruct Hcases as [(Hm & Ht & Hno & Ho)
                     |([e He] & Hno & [(Hm & Ht & Hlast)|(Hm & Ht)])].
  - rewrite Ht, waited_from_start by lia. split.
    + unfold backoff_total. pose proof (Hpow m N). lia.
    + intros Hfalse. specialize (Hf Hfalse). split; [exact Hf|].
      rewrite Hl in Hf. now rewrite Hf.
  - rewrite Ht, waited_from_start by lia. split.
    + unfold backoff_total. pose proof (Hpow m N). lia.
    + rewrite He. discriminate.
  - rewrite Ht, waited_app. split; [|rewrite He; discriminate].
    destruct m as [|m'].
    + cbn. unfold backoff_total.
      pose proof (Hpow 1 N HN) as H1.
      change (2 ^ Z.of_nat 1)%Z with 2%Z in H1. lia.
    + rewrite waited_from_start, waited_pending by lia.
      unfold backoff_total.
      pose proof (Hpow (S (S m')) N ltac:(lia)) as H2.
      rewrite (Nat2Z.inj_succ (S m')), Z.pow_succ_r in H2 by lia.
      change (0 + S m') with (S m'). lia.
Qed.

(** When at least one IP is expected, every DNS query of verification is
    for the domain given, in every world; a CNAME query is made only
    behind an A-record query that resolved nothing, at most once for each,
    and exactly once for each in a run that returns (a resolver that
    cannot be made ends the run before its query); so there are at most 2N
    queries. *)
Theorem verify_query_count (W : Type) (h : Handler W) (w : W)
  (cfg : Config) (domain : string) (expected_ips : list string) :
  nonempty expected_ips = true ->
  let r := run h (verify_domain_a_records cfg domain expected_ips) w in
  let N := Z.to_nat (Z.max 1 (DNS_RETRIES cfg)) in
  Forall (fun q => fst q = domain) (dns_calls (trace_of r))
  /\ cname_queries (trace_of r) <= empty_answers (a_results (trace_of r))
  /\ (forall b, outcome_of r = Returned b ->
      cname_queries (trace_of r) = empty_answers (a_results (trace_of r)))
  /\ List.length (dns_calls (trace_of r)) <= 2 * N.
Proof.
  intros Hexp r N.
  destruct (verify_runs h w cfg domain expected_ips Hexp)
    as [(m & Hl & Hcases) (Hq & Hc & He & Hlen & _)].
  fold r in Hl, Hcases, Hq, Hc, He, Hlen. fold N in Hcases.
  repeat split; try assumption.
  rewrite Hlen.
  pose proof (empty_answers_le (a_results (trace_of r))).
  destruct Hcases as [(Hm & _)|(_ & _ & [(Hm & _)|(Hm & _)])]; lia.
Qed.

(** A zone that never resolves, asked three times. *)
Lemma verify_backoff_bound_witness :
  total_wait
    (trace_of (run Worlds.dns_world
                 (verify_domain_a_records config "example.com" ["203.0.113.10"])
                 {| Worlds.a_script := []; Worlds.cname_script := [];
                    Worlds.ns_script := []; Worlds.cloudflare_ips := None |}))
  = 6%Z.
Proof.
  apply (proj2 (verify_backoff_bound Worlds.Dns Worlds.dns_world
                  {| Worlds.a_script := []; Worlds.cname_script := [];
                     Worlds.ns_script := []; Worlds.cloudflare_ips := None |}
                  config "example.com" ["203.0.113.10"] eq_refl)).
  reflexivity.
Defined.

(** The slow zone of the samples: three A queries, two CNAME queries. *)
Lemma verify_query_count_witness :
  cname_queries
    (trace_of (run Worlds.dns_world
                 (verify_domain_a_records config "example.com" ["203.0.113.10"])
                 Worlds.slow_zone))
  = 2.
Proof.
  rewrite (proj1 (proj2 (proj2 (verify_query_count Worlds.Dns
                                  Worlds.dns_world Worlds.slow_zone config
                                  "example.com" ["203.0.113.10"] eq_refl)))
             true eq_refl).
  reflexivity.
Defined.

End BudgetFacts.

(** ** verify-dns.py: the last two labels *)

Module LabelFacts.
Import PyStr PyStrFacts VerifyDns HostnameFacts.

Lemma lstrip_app (p s : string) :
  lstrip is_dot p <> "" -> lstrip is_dot (p ++ s) = lstrip is_dot p ++ s.
Proof.
  induction p as [|c p IH]; cbn [lstrip append]; intros H.
  - now destruct H.
  - destruct (is_dot c); [now apply IH | reflexivity].
Qed.

Lemma rstrip_cons (p : ascii -> bool) (c : ascii) (s : string) :
  rstrip p (String c s)
  = match rstrip p s with
    | EmptyString => if p c then EmptyString else String c EmptyString
    | r => String c r
    end.
Proof. reflexivity. Qed.

Lemma rstrip_clean (b : string) :
  count "." b = 0 -> rstrip is_dot b = b.
Proof.
  induction b as [|c b IH]; [reflexivity|].
  rewrite rstrip_cons. cbn [count].
  change (Ascii.eqb c ".") with (is_dot c).
  destruct (is_dot c); [discriminate|].
  intros H. rewrite (IH H). now destruct b.
Qed.

Lemma rstrip_app (x b : string) :
  b <> "" -> count "." b = 0 -> rstrip is_dot (x ++ b) = x ++ b.
Proof.
  intros Hb Hc. induction x as [|c x IH]; cbn [append].
  - now apply rstrip_clean.
  - rewrite rstrip_cons, IH. destruct (x ++ b) eqn:E; [|reflexivity].
    destruct x; [now destruct Hb | discriminate E].
Qed.

(** Splitting goes through a separator. *)
Lemma split_app (x r : string) :
  split "." (x ++ String "." r) = (split "." x ++ split "." r)%list.
Proof.
  induction x as [|c x IH]; cbn [append split].
  - reflexivity.
  - destruct (Ascii.eqb c ".").
    + now rewrite IH.
    + rewrite IH. destruct (split "." x) eqn:E; [|reflexivity].
      now destruct (split_nonnil "." x).
Qed.

Lemma last_two_of (A : Type) (l : list A) (a b : A) :
  last_n 2 (l ++ [a; b]) = [a; b].
Proof.
  unfold last_n. rewrite length_app. cbn [List.length].
  replace (List.length l + 2 - 2) with (List.length l + 0) by lia.
  rewrite skipn_app, skipn_all2 by lia.
  replace (List.length l + 0 - List.length l) with 0 by lia. reflexivity.
Qed.

(** For a name of at least three labels, written without a trailing dot,
    [extract_base_domain] gives the last two labels: whatever precedes
    them, as long as it is not made of dots only. *)
Theorem extract_base_domain_last_two (p a b : string) :
  lstrip is_dot p <> "" ->
  count "." a = 0 -> count "." b = 0 -> b <> "" ->
  extract_base_domain (p ++ "." ++ a ++ "." ++ b) = a ++ "." ++ b.
Proof.
  intros Hp Ha Hb Hne. unfold extract_base_domain, strip.
  rewrite (lstrip_app p _ Hp).
  replace (lstrip is_dot p ++ "." ++ a ++ "." ++ b)
    with ((lstrip is_dot p ++ "." ++ a ++ ".") ++ b)
    by (now rewrite !append_assoc).
  rewrite (rstrip_app _ b Hne Hb).
  replace ((lstrip is_dot p ++ "." ++ a ++ ".") ++ b)
    with (lstrip is_dot p ++ String "." (a ++ String "." b))
    by (now rewrite !append_assoc).
  rewrite !split_app, (split_clean a Ha), (split_clean b Hb).
  change ([a] ++ [b])%list with [a; b].
  rewrite last_two_of, length_app. cbn [List.length].
  pose proof (split_length "." (lstrip is_dot p)) as Hlen.
  destruct (Nat.ltb_spec 2 (List.length (split "." (lstrip is_dot p)) + 2));
    [reflexivity | lia].
Qed.

Lemma extract_base_domain_last_two_witness :
  extract_base_domain "www.shop.example.com" = "example.com".
Proof.
  apply (extract_base_domain_last_two "www.shop" "example" "com").
  - discriminate.
  - reflexivity.
  - reflexivity.
  - discriminate.
Defined.

End LabelFacts.

(** ** manage-domain.py: before the branch *)

Module PreludeFacts.
Import PyStr Py Re ManageDomain Hostname Observe Worlds Ledger RunFacts.
Local Arguments String.append : simpl never.

Ltac walk tac :=
  cbn;
  lazymatch goal with
  | |- forall _ : unit, _ => intros []; walk tac
  | |- forall _ : bool, _ => intros []; walk tac
  | |- forall _ : option _, _ => intros [?|]; walk tac
  | |- forall _ : RunResult, _ => intros [? ?|?]; walk tac
  | |- forall _ : Z, _ => intros ?; walk tac
  | |- always _ (if ?b then _ else _) => destruct b eqn:?; walk tac
  | |- always _ (bind (if ?b then _ else _) _) => destruct b eqn:?; walk tac
  | |- always _ (bind (bind (if ?b then _ else _) _) _) =>
      destruct b eqn:?; walk tac
  | |- _ => tac
  end.

Lemma probes_app (t1 t2 : Trace) :
  probes_only t1 -> probes_only t2 -> probes_only (t1 ++ t2)%list.
Proof. intros H1 H2. apply Forall_app. now split. Qed.

Lemma probes_no_runs (t : Trace) : probes_only t -> runs t = [].
Proof.
  induction 1 as [|[c r] t He Ht IH]; [reflexivity|].
  cbn [runs flat_map]. fold (runs t). rewrite IH.
  destruct c; try discriminate He; reflexivity.
Qed.

Lemma probes_no_changes (t : Trace) : probes_only t -> fs_changes t = [].
Proof.
  induction 1 as [|[c r] t He Ht IH]; [reflexivity|].
  cbn [fs_changes flat_map]. fold (fs_changes t). rewrite IH.
  destruct c; try discriminate He; reflexivity.
Qed.

Lemma always_and {A} (p : Prog A) :
  forall (P Q : Outcome A -> Trace -> Prop),
    always P p -> always Q p -> always (fun o t => P o t /\ Q o t) p.
Proof.
  induction p as [a|e|c k IH]; intros P Q HP HQ; simpl in *;
    [now split | now split |].
  intros r. apply (IH r (fun o t => P o (Ev c r :: t))
                        (fun o t => Q o (Ev c r :: t))); auto.
Qed.

(** What a run of probes cannot hold. *)
Lemma probes_skip (P : Event -> bool) (t1 t2 : Trace) :
  (forall e, is_probe (call_of e) = true -> P e = false) ->
  probes_only t1 -> existsb P (t1 ++ t2)%list = existsb P t2.
Proof.
  intros HP. induction 1 as [|e t He Ht IH]; [reflexivity|].
  cbn [app existsb]. now rewrite (HP e He), IH.
Qed.

Lemma fs_changes_app (t1 t2 : Trace) :
  fs_changes (t1 ++ t2)%list = (fs_changes t1 ++ fs_changes t2)%list.
Proof. apply flat_map_app. Qed.

Lemma runs_app (t1 t2 : Trace) : runs (t1 ++ t2)%list = (runs t1 ++ runs t2)%list.
Proof. apply flat_map_app. Qed.

Ltac blind :=
  let H := fresh in
  intros [c r] H; destruct c; try discriminate H; reflexivity.

Lemma probing_bind {A B} (p : Prog A) (f : A -> Prog B) :
  always probing p -> (forall a, always probing (f a)) -> always probing (bind p f).
Proof.
  intros Hp Hf. apply always_bind. eapply always_weaken; [|exact Hp].
  intros [a|e] t [Hc He].
  - eapply always_weaken; [|apply Hf].
    intros o t' [Hc' He']. split; [now apply probes_app | exact He'].
  - split; [exact Hc|]. intros e0 [= <-]. now apply He.
Qed.

Ltac probing_leaf :=
  split; [repeat constructor | intros ? [=]; subst; reflexivity].

Lemma require_root_probing : always probing require_root.
Proof.
  unfold require_root. cbn. intros uid.
  destruct (uid =? 0)%Z; walk probing_leaf.
Qed.

Lemma which_or_die_probing (p hint : string) : always probing (which_or_die p hint).
Proof. unfold which_or_die. walk probing_leaf. Qed.

Lemma check_dependencies_probing (cfg : Config) : always probing (check_dependencies cfg).
Proof.
  unfold check_dependencies.
  apply probing_bind; [walk probing_leaf|]. intros _.
  apply probing_bind; [apply which_or_die_probing|]. intros _.
  apply probing_bind; [apply which_or_die_probing|]. intros _.
  walk probing_leaf.
Qed.

Lemma same_fixed_refl (cfg : Config) : same_fixed cfg cfg.
Proof. repeat split. Qed.

Lemma same_fixed_trans (a b c : Config) :
  same_fixed a b -> same_fixed b c -> same_fixed a c.
Proof.
  unfold same_fixed. intros (?&?&?&?&?&?) (?&?&?&?&?&?).
  repeat split; congruence.
Qed.

Lemma setattr_fixed (cfg : Config) (name : string) (v : PyVal) :
  same_fixed (setattr cfg name v) cfg.
Proof.
  unfold setattr.
  repeat match goal with
         | |- context [if ?b then _ else _] => destruct b
         end; repeat split.
Qed.

Section WithInt.
Variable py_int : string -> option Z.

(** The loop over the environment returns in every run, asks for each name
    once and in order, leaves alone what is not overridable, and changes
    nothing when no name is set. *)
Lemma load_names_runs (names : list string) :
  forall cfg,
    always (fun o t =>
              exists cfg',
                o = Returned cfg'
                /\ calls t = map Environ names
                /\ same_fixed cfg' cfg
                /\ (Forall (fun l => snd l = None) (environ_lookups t) ->
                    cfg' = cfg))
      (load_names py_int cfg names).
Proof.
  induction names as [|name rest IH]; intros cfg; cbn.
  - exists cfg. repeat split.
  - intros [val|];
      (eapply always_weaken; [|apply IH]);
      intros o t (cfg' & -> & Hc & Hf & Hn); exists cfg';
      (split; [reflexivity|]); (split; [unfold calls in Hc |- *; cbn; now rewrite Hc|]).
    + split; [eapply same_fixed_trans; [exact Hf | apply setattr_fixed]|].
      intros H. inversion H as [|? ? Hx]. discriminate Hx.
    + split; [exact Hf|]. intros H. inversion H. auto.
Qed.

Lemma environ_probes (names : list string) (t : Trace) :
  calls t = map Environ names -> probes_only t.
Proof.
  revert names. induction t as [|[c r] t IH]; intros names H; [constructor|].
  destruct names as [|name rest]; [discriminate H|].
  injection H as Hc Ht. constructor; [cbn; now rewrite Hc | eapply IH, Ht].
Qed.

(** The steps before the branch only ask and log; they end early with
    status 1 only, and give a configuration only for a domain the pattern
    accepts. *)
Lemma prelude_runs (cfg0 : Config) (args : Args) :
  always (fun o t =>
            probing o t
            /\ forall cfg, o = Returned cfg ->
                 domain_ok (arg_domain args) = true /\ same_fixed cfg cfg0)
    (prelude py_int cfg0 args).
Proof.
  unfold prelude.
  apply always_bind. eapply always_weaken; [|apply require_root_probing].
  intros [[]|e] t1 [Hp1 He1];
    [|split; [split; [exact Hp1 | intros ? [= <-]; now apply He1] | discriminate]].
  apply always_bind. eapply always_weaken; [|apply load_names_runs].
  intros o t2 (cfg & -> & Hc & Hf & _).
  apply environ_probes in Hc.
  apply always_bind. eapply always_weaken; [|apply check_dependencies_probing].
  intros [[]|e] t3 [Hp3 He3].
  - unfold validate_domain.
    destruct (domain_ok (arg_domain args)) eqn:Hd; cbn.
    + split; [split; [|discriminate]|].
      * rewrite !app_nil_r. now repeat apply probes_app.
      * intros ? [= <-]. now split.
    + intros []. split; [split|discriminate].
      * repeat apply probes_app; trivial. repeat constructor.
      * intros ? [= <-]. reflexivity.
  - split; [split|discriminate].
    + now repeat apply probes_app.
    + intros ? [= <-]. now apply He3.
Qed.

Lemma last_call_behind (t1 t2 : Trace) :
  t2 <> [] -> last_call (t1 ++ t2)%list = last_call t2.
Proof.
  destruct t2 as [|e t2]; [congruence|]. intros _.
  unfold last_call. rewrite map_app. cbn [map].
  induction (map (fun e0 => Some (call_of e0)) t1) as [|y l1 IH]; [reflexivity|].
  cbn [app]. rewrite <- IH. cbn [last].
  destruct (l1 ++ _ :: _)%list eqn:E; [|reflexivity].
  now destruct l1.
Qed.

Lemma ends_in_error_bind {A B} (p : Prog A) (f : A -> Prog B) :
  always ends_in_error p -> (forall a, always ends_in_error (f a)) ->
  always ends_in_error (bind p f).
Proof.
  intros Hp Hf. apply always_bind. eapply always_weaken; [|exact Hp].
  intros [a|e] t H.
  - eapply always_weaken; [|apply Hf].
    intros o t' H' e Ho. destruct (H' e Ho) as [msg Hl]. exists msg.
    rewrite last_call_behind; [exact Hl|]. intros ->. discriminate Hl.
  - intros e0 [= <-]. now apply (H e).
Qed.

Ltac error_leaf :=
  let H := fresh in
  intros ? H; first [discriminate H | eexists; reflexivity].

Lemma which_or_die_ends (p hint : string) :
  always ends_in_error (which_or_die p hint).
Proof. unfold which_or_die. walk error_leaf. Qed.

(** When the steps before the branch end the run, the last line is an
    error. *)
Lemma prelude_ends (cfg0 : Config) (args : Args) :
  always ends_in_error (prelude py_int cfg0 args).
Proof.
  unfold prelude.
  apply ends_in_error_bind.
  { unfold require_root. cbn. intros uid.
    destruct (uid =? 0)%Z; walk error_leaf. }
  intros _. apply ends_in_error_bind.
  { eapply always_weaken; [|apply load_names_runs].
    intros o t (cfg & -> & _). discriminate. }
  intros cfg. apply ends_in_error_bind.
  { unfold check_dependencies.
    apply ends_in_error_bind; [walk error_leaf|]. intros _.
    apply ends_in_error_bind; [apply which_or_die_ends|]. intros _.
    apply ends_in_error_bind; [apply which_or_die_ends|]. intros _.
    walk error_leaf. }
  intros _. unfold validate_domain.
  destruct (domain_ok (arg_domain args)); walk error_leaf.
Qed.

(** [main] checks the domain before it acts: with a domain the pattern
    rejects, every run of [request] and [delete] ends with exit status 1,
    having only asked and logged: no subprocess was started and no change
    to the file system was asked for. *)
Theorem invalid_domain_rejected (W : Type) (h : Handler W) (w : W)
  (cfg0 : Config) (args : Args) :
  domain_ok (arg_domain args) = false ->
  let r := run h (main py_int cfg0 args) w in
  outcome_of r = Raised (SystemExit 1)
  /\ probes_only (trace_of r)
  /\ runs (trace_of r) = []
  /\ fs_changes (trace_of r) = [].
Proof.
  intros Hd r. subst r.
  assert (H : always (fun o t => o = Raised (SystemExit 1) /\ probes_only t)
                (main py_int cfg0 args)).
  { unfold main. apply always_bind.
    eapply always_weaken; [|apply prelude_runs].
    intros [cfg|e] t [[Hp He] Hr].
    - destruct (Hr cfg eq_refl) as [Hok _]. congruence.
    - split; [f_equal; now apply He | exact Hp]. }
  apply (always_run h _ _ w) in H. destruct H as [Ho Hp].
  auto using probes_no_runs, probes_no_changes.
Qed.

(** [load_env_overrides] returns in every world.  It looks up the five
    overridable names, once each and in the order of the list; the
    configuration it gives back has the nginx directories, the certbot
    path and the DNS settings it was given; and when none of the names is
    set the configuration comes back as it was. *)
Theorem load_env_overrides_keeps_fixed (W : Type) (h : Handler W) (w : W)
  (cfg : Config) :
  let r := run h (load_env_overrides py_int cfg) w in
  exists cfg',
    outcome_of r = Returned cfg'
    /\ calls (trace_of r) = map Environ OVERRIDABLE
    /\ same_fixed cfg' cfg
    /\ (Forall (fun l => snd l = None) (environ_lookups (trace_of r)) ->
        cfg' = cfg).
Proof.
  intros r. subst r.
  exact (always_run h _ _ w (load_names_runs OVERRIDABLE cfg)).
Qed.

(** Lines 80-88: a value found in the environment is stored as a boolean
    only when it reads true or false (in any case); any other text is
    stored as it is, and Python takes a text that is not empty for true. *)
Lemma override_truth (name val : string) :
  (name =? "BACKEND_APP_PORT") = false ->
  truthy (override py_int name val) = flag_text_truth val.
Proof.
  intros Hn. unfold override, flag_text_truth. rewrite Hn.
  destruct (lower val =? "true") eqn:Ht.
  - apply String.eqb_eq in Ht. rewrite Ht. cbn.
    destruct val; [discriminate Ht | reflexivity].
  - destruct (lower val =? "false") eqn:Hf; cbn.
    + now rewrite andb_false_r.
    + now rewrite andb_true_r.
Qed.

Ltac staging_found E :=
  injection E as <-;
  eexists; split; [reflexivity | now apply override_truth].

Ltac staging_leaf :=
  let H := fresh in
  let E := fresh in
  cbn; intros H;
  repeat match type of H with
         | _ \/ _ => destruct H as [E|H]; [try discriminate E|]
         end;
  first [contradiction | staging_found E].

Lemma load_env_overrides_staging (cfg : Config) (val : string) :
  always (fun o t =>
            In ("STAGING", Some val) (environ_lookups t) ->
            exists cfg',
              o = Returned cfg'
              /\ truthy (STAGING cfg') = flag_text_truth val)
    (load_env_overrides py_int cfg).
Proof.
  unfold load_env_overrides, OVERRIDABLE. walk staging_leaf.
Qed.

(** When [STAGING] is set in the environment, the configuration
    [load_env_overrides] gives back has staging on for every value but the
    empty text and [false] (in any case): also for [0], [no] and [off]. *)
Theorem staging_from_environment (W : Type) (h : Handler W) (w : W)
  (cfg : Config) (val : string) :
  let r := run h (load_env_overrides py_int cfg) w in
  In ("STAGING", Some val) (environ_lookups (trace_of r)) ->
  exists cfg',
    outcome_of r = Returned cfg'
    /\ truthy (STAGING cfg') = flag_text_truth val.
Proof.
  intros r. subst r.
  exact (always_run h _ _ w (load_env_overrides_staging cfg val)).
Qed.

Lemma always_true {A} (p : Prog A) : always (fun _ _ => True) p.
Proof. induction p as [a|e|c k IH]; simpl; auto. Qed.

Ltac seek :=
  lazymatch goal with
  | |- _ \/ _ => first [left; seek | right; seek]
  | |- _ => reflexivity
  end.

Ltac passed_leaf :=
  cbn;
  let H := fresh in
  intros H;
  first [ discriminate H
        | split; unfold tool_found; cbn; seek ].

Lemma check_dependencies_passed (cfg : Config) :
  always (fun o t =>
            o = Returned tt ->
            tool_found (CERTBOT_PATH cfg) t /\ tool_found "/usr/sbin/nginx" t)
    (check_dependencies cfg).
Proof.
  unfold check_dependencies, which_or_die. walk passed_leaf.
Qed.

Lemma require_root_passed :
  always (fun o t => o = Returned tt -> In (Ev Geteuid 0%Z) t) require_root.
Proof.
  unfold require_root. cbn. intros uid.
  destruct (Z.eqb_spec uid 0) as [->|]; cbn.
  - intros _. now left.
  - intros []. discriminate.
Qed.

(** A run of the steps before the branch that gives a configuration was
    started by root and found certbot and nginx. *)
Lemma prelude_passed (cfg0 : Config) (args : Args) :
  always (fun o t =>
            forall cfg, o = Returned cfg ->
              In (Ev Geteuid 0%Z) t
              /\ tool_found (CERTBOT_PATH cfg0) t
              /\ tool_found "/usr/sbin/nginx" t)
    (prelude py_int cfg0 args).
Proof.
  unfold prelude.
  apply always_bind. eapply always_weaken; [|apply require_root_passed].
  intros [[]|e] t1 H1; [|discriminate].
  apply always_bind. eapply always_weaken; [|apply load_names_runs].
  intros o t2 (cfg & -> & _ & (_ & _ & Hc & _) & _).
  apply always_bind. eapply always_weaken; [|apply check_dependencies_passed].
  intros [[]|e] t3 H3; [|discriminate].
  rewrite Hc in H3. destruct (H3 eq_refl) as [Hcb Hng].
  eapply always_weaken; [|apply always_true].
  intros o t4 _ cfg' _.
  unfold tool_found in *. rewrite !in_app_iff. tauto.
Qed.

(** [main] acts only when its checks went through: a run of [request] or
    [delete] that starts a command or asks for a change to the file
    system was started by root, found certbot and nginx, and was given a
    domain the pattern accepts. *)
Theorem main_checks_before_acting (W : Type) (h : Handler W) (w : W)
  (cfg0 : Config) (args : Args) :
  let r := run h (main py_int cfg0 args) w in
  runs (trace_of r) <> [] \/ fs_changes (trace_of r) <> [] ->
  In (Ev Geteuid 0%Z) (trace_of r)
  /\ tool_found (CERTBOT_PATH cfg0) (trace_of r)
  /\ tool_found "/usr/sbin/nginx" (trace_of r)
  /\ domain_ok (arg_domain args) = true.
Proof.
  intros r. subst r.
  apply (always_run h _ (fun o t =>
           runs t <> [] \/ fs_changes t <> [] ->
           In (Ev Geteuid 0%Z) t
           /\ tool_found (CERTBOT_PATH cfg0) t
           /\ tool_found "/usr/sbin/nginx" t
           /\ domain_ok (arg_domain args) = true) w).
  unfold main. apply always_bind.
  eapply always_weaken;
    [|apply always_and; [apply prelude_runs | apply prelude_passed]].
  intros [cfg|e] t [[[Hp He] Hr] Hpass].
  - destruct (Hr cfg eq_refl) as [Hd _].
    destruct (Hpass cfg eq_refl) as (Hroot & Hcb & Hng).
    eapply always_weaken; [|apply always_true].
    intros o t' _ _. unfold tool_found in *. rewrite !in_app_iff. tauto.
  - rewrite (probes_no_runs t Hp), (probes_no_changes t Hp).
    intros [H|H]; now destruct H.
Qed.

End WithInt.

Lemma invalid_domain_rejected_witness :
  let r := run host_world
             (main int_of_digits config (ArgsDelete "-bad-.example.com"))
             live_host in
  outcome_of r = Raised (SystemExit 1) /\ runs (trace_of r) = [].
Proof.
  intros r. subst r.
  destruct (invalid_domain_rejected int_of_digits _ host_world
              live_host config (ArgsDelete "-bad-.example.com"))
    as (Ho & _ & Hr & _); [vm_compute; reflexivity | now split].
Defined.

Lemma staging_from_environment_witness :
  let r := run host_world (load_env_overrides int_of_digits config)
             (with_environ new_host [("STAGING", "0")]) in
  exists cfg',
    outcome_of r = Returned cfg'
    /\ truthy (STAGING cfg') = true.
Proof.
  apply (staging_from_environment int_of_digits Host host_world
           (with_environ new_host [("STAGING", "0")]) config "0").
  vm_compute. tauto.
Defined.

Lemma main_checks_before_acting_witness :
  let r := run host_world
             (main int_of_digits config (ArgsRequest "example.com" None))
             new_host in
  In (Ev Geteuid 0%Z) (trace_of r)
  /\ tool_found "/usr/bin/certbot" (trace_of r)
  /\ tool_found "/usr/sbin/nginx" (trace_of r)
  /\ domain_ok "example.com" = true.
Proof.
  apply (main_checks_before_acting int_of_digits Host host_world new_host
           config (ArgsRequest "example.com" None)).
  left. vm_compute. discriminate.
Defined.

End PreludeFacts.

(** ** manage-domain.py: the domains [validate_domain] lets through *)

Module DomainFacts.
Import PyStr Py Re ManageDomain Hostname Observe Ledger RunFacts HostnameFacts.
Local Arguments String.append : simpl never.

Lemma forallb_weaken {A} (p q : A -> bool) (l : list A) :
  (forall a, p a = true -> q a = true) ->
  forallb p l = true -> forallb q l = true.
Proof.
  intros Hpq. rewrite !forallb_forall. intros H a Ha. now apply Hpq, H.
Qed.

Lemma label_chars (l : string) :
  label l = true -> forallb domain_char (chars l) = true.
Proof.
  unfold label. intros H.
  apply andb_prop in H. destruct H as [H _].
  apply andb_prop in H. destruct H as [H _].
  apply andb_prop in H. destruct H as [_ H].
  eapply forallb_weaken; [|exact H].
  intros c Hc. unfold domain_char. now rewrite Hc.
Qed.

Lemma dotted_chars (labels : list string) :
  forallb label labels = true ->
  forallb domain_char (chars (dotted labels)) = true.
Proof.
  induction labels as [|l labels IH]; cbn [forallb dotted]; [reflexivity|].
  intros H. apply andb_prop in H. destruct H as [Hl Hr].
  rewrite !chars_append, !forallb_app, (label_chars l Hl), (IH Hr).
  reflexivity.
Qed.

Lemma domain_chars_no_slash (s : string) :
  forallb domain_char (chars s) = true -> count "/" s = 0.
Proof.
  unfold chars.
  induction s as [|c s IH]; cbn [list_ascii_of_string forallb count];
    [reflexivity|].
  intros H. apply andb_prop in H. destruct H as [Hc Hs].
  destruct (Ascii.eqb_spec c "/") as [->|]; [discriminate Hc|].
  now apply IH.
Qed.

Lemma label_head (l : string) :
  label l = true -> exists c rest, l = String c rest /\ is_alnum c = true.
Proof.
  intros H. apply label_shape in H.
  destruct H as (c & Hc & [->|(m & d & -> & _)]); eauto.
Qed.

Lemma accepted_domain_chars (domain : string) :
  domain_ok domain = true -> forallb domain_char (chars domain) = true.
Proof.
  intros H. apply domain_ok_iff in H.
  destruct H as (l & labels & rest & -> & Hl & Hall & Hrest).
  rewrite !chars_append, !forallb_app, (label_chars l Hl),
    (dotted_chars labels Hall).
  destruct Hrest as [->| ->]; reflexivity.
Qed.

(** A domain that [DOMAIN_RE] accepts begins with a letter or a digit and
    holds only letters, digits, hyphens, dots and line feeds: it cannot be
    taken for an option by certbot, and, holding no slash, names a file
    directly inside the directory it is appended to. *)
Theorem accepted_domain_shape (domain : string) :
  domain_ok domain = true ->
  (exists c rest, domain = String c rest /\ is_alnum c = true)
  /\ forallb domain_char (chars domain) = true
  /\ count "/" domain = 0.
Proof.
  intros H. pose proof (accepted_domain_chars domain H) as Hchars.
  split; [|split; [exact Hchars | now apply domain_chars_no_slash]].
  apply domain_ok_iff in H.
  destruct H as (l & labels & rest & -> & Hl & _).
  destruct (label_head l Hl) as (c & r & -> & Hc).
  exists c, (r ++ dotted labels ++ rest). now split.
Qed.

Lemma accepted_domain_shape_witness :
  count "/" "shop.example.com" = 0.
Proof.
  apply (accepted_domain_shape "shop.example.com"). vm_compute. reflexivity.
Defined.

(** [validate_domain] returns in every world and touches nothing.  It
    returns true exactly for a hostname (labels of 1 to 63 letters, digits
    and hyphens, no hyphen at either end, joined by dots), or a hostname
    followed by one line feed; for any other text it logs one error line
    with the text and returns false. *)
Theorem validate_domain_decides (W : Type) (h : Handler W) (w : W)
  (domain : string) :
  let r := run h (validate_domain domain) w in
  exists b,
    outcome_of r = Returned b
    /\ (b = true <->
        hostname domain = true
        \/ exists s', domain = s' ++ LF /\ hostname s' = true)
    /\ calls (trace_of r) =
       if b then []
       else [Log "RED" ("[ERROR] " ++ "Invalid domain format: " ++ domain)].
Proof.
  intros r. subst r. unfold validate_domain.
  pose proof (domain_ok_characterised domain) as Hc.
  destruct (domain_ok domain); cbn.
  - exists true. repeat split; tauto.
  - answer. exists false. repeat split; try discriminate.
    intros H. apply Hc in H. discriminate H.
Qed.

End DomainFacts.

(** ** manage-domain.py: the branch [request] *)

Module RequestFacts.
Import PyStr Py Re ManageDomain Hostname Observe Worlds Ledger RunFacts
  PreludeFacts.
Local Arguments String.append : simpl never.

Ltac rewrite_tests :=
  repeat match goal with
         | H : (_ =? _)%Z = _ |- _ => rewrite H
         end.

Ltac own_change :=
  first [ left; reflexivity
        | right; left; reflexivity
        | right; right; left; reflexivity
        | right; right; right; reflexivity ].

Ltac own_changes :=
  repeat (apply Forall_cons; [own_change|]); apply Forall_nil.

Ltac among := repeat first [left; reflexivity | right].

Ltac facts :=
  repeat match goal with
         | |- _ /\ _ => split
         | |- _ = _ => reflexivity
         | |- In _ _ => among
         | |- _ \/ _ => among
         end.

Ltac request_leaf :=
  cbn; rewrite_tests; cbn;
  split; [own_changes|];
  split; [discriminate|];
  split; [split; intros ?; first [reflexivity | discriminate | congruence]|];
  split; [let H := fresh in intros H; first [discriminate H | facts]|];
  split; [let H := fresh in intros H; first [reflexivity | discriminate H]|];
  let H := fresh in intros H; first [discriminate H | facts].

Lemma request_runs (cfg : Config) (domain : string) (email : PyVal) :
  always (request_run cfg domain) (request cfg domain email).
Proof.
  unfold request_run, request, check_domain_exists, request_certificate,
    subprocess_run, create_nginx_config, enable_nginx_site, nginx_test,
    nginx_reload, raise_if.
  walk request_leaf.
Qed.

Lemma request_run_fixed (cfg cfg0 : Config) (domain : string)
  (o : Outcome unit) (t : Trace) :
  same_fixed cfg cfg0 -> request_run cfg domain o t -> request_run cfg0 domain o t.
Proof.
  unfold same_fixed, request_run, request_change.
  intros (Ha & He & _). now rewrite Ha, He.
Qed.

Lemma request_run_behind (cfg : Config) (domain : string)
  (o : Outcome unit) (t1 t2 : Trace) :
  probes_only t1 -> request_run cfg domain o t2 ->
  request_run cfg domain o (t1 ++ t2)%list.
Proof.
  unfold request_run. intros Hp (Hc & Hn & Hl & Hr & Hd & Hf).
  rewrite fs_changes_app, (probes_no_changes t1 Hp), (last_call_behind t1 t2 Hn).
  rewrite !(fun P HP => probes_skip P t1 t2 HP Hp) by blind.
  repeat split; try tauto.
  intros H. apply app_eq_nil in H. tauto.
Qed.

Lemma request_run_turned_away (cfg : Config) (domain : string) (t : Trace) :
  probes_only t -> (exists msg, last_call t = Some (Log "RED" msg)) ->
  request_run cfg domain (Raised (SystemExit 1)) t.
Proof.
  unfold request_run. intros Hp (msg & Hl).
  rewrite (probes_no_changes t Hp), Hl.
  pose proof (fun P HP => probes_skip P t [] HP Hp) as Hs.
  rewrite app_nil_r in Hs. rewrite !Hs by blind.
  repeat split; try discriminate; try constructor.
  intros ->. discriminate Hl.
Qed.

Section WithInt.
Variable py_int : string -> option Z.

Lemma main_request_runs (cfg0 : Config) (domain : string)
  (email : option string) :
  always (request_run cfg0 domain)
    (main py_int cfg0 (ArgsRequest domain email)).
Proof.
  unfold main. apply always_bind.
  assert (H : always (fun o t =>
                        (probing o t
                         /\ forall cfg, o = Returned cfg ->
                              domain_ok domain = true /\ same_fixed cfg cfg0)
                        /\ ends_in_error o t)
                (prelude py_int cfg0 (ArgsRequest domain email))).
  { apply always_and;
      [exact (prelude_runs py_int cfg0 (ArgsRequest domain email))
      | apply prelude_ends]. }
  eapply always_weaken; [|exact H].
  intros [cfg|e] t [[[Hp He] Hr] Hl].
  - destruct (Hr cfg eq_refl) as [_ Hf].
    eapply always_weaken; [|apply request_runs].
    intros o t' Hrun. apply request_run_behind; [exact Hp|].
    eapply request_run_fixed; eassumption.
  - rewrite (He e eq_refl). apply request_run_turned_away; [exact Hp|].
    now apply (Hl e).
Qed.

(** Whatever the host answers, a run of [request] asks for no change to
    the file system but these: creating the two site directories, writing
    the configuration file of its domain, and linking it.  It removes
    nothing, also when a later step fails. *)
Theorem request_changes_own_files (W : Type) (h : Handler W) (w : W)
  (cfg0 : Config) (domain : string) (email : option string) :
  let r := run h (main py_int cfg0 (ArgsRequest domain email)) w in
  Forall (request_change cfg0 domain) (fs_changes (trace_of r)).
Proof.
  intros r. subst r.
  exact (proj1 (always_run h _ _ w (main_request_runs cfg0 domain email))).
Qed.

(** A run of [request] comes to its end (exit status 0 by returning)
    exactly when its last line is the success line for the domain; and
    then certbot issued the certificate, [nginx -t] passed, the
    configuration file was written and no change to the file system
    raised. *)
Theorem request_success_report (W : Type) (h : Handler W) (w : W)
  (cfg0 : Config) (domain : string) (email : option string) :
  let r := run h (main py_int cfg0 (ArgsRequest domain email)) w in
  (outcome_of r = Returned tt <->
   last_call (trace_of r) = Some (CONFIGURED domain))
  /\ (outcome_of r = Returned tt ->
      existsb issued (trace_of r) = true
      /\ existsb test_passed (trace_of r) = true
      /\ In (WriteText (path (NGINX_SITES_AVAILABLE cfg0) domain))
           (fs_changes (trace_of r))
      /\ existsb refused (trace_of r) = false).
Proof.
  intros r. subst r.
  destruct (always_run h _ _ w (main_request_runs cfg0 domain email))
    as (_ & _ & Hl & Hr & _).
  now split.
Qed.

(** [request] does not look at what [nginx_reload] returns: once the
    reload command has run to its end, with whatever status, the run
    reports success and returns. *)
Theorem request_ignores_reload_status (W : Type) (h : Handler W) (w : W)
  (cfg0 : Config) (domain : string) (email : option string) :
  let r := run h (main py_int cfg0 (ArgsRequest domain email)) w in
  existsb reload_completed (trace_of r) = true ->
  outcome_of r = Returned tt
  /\ last_call (trace_of r) = Some (CONFIGURED domain).
Proof.
  intros r. subst r.
  destruct (always_run h _ _ w (main_request_runs cfg0 domain email))
    as (_ & _ & Hl & _ & Hd & _).
  intros H. split; [|apply Hl]; now apply Hd.
Qed.

(** When [nginx -t] fails in a run of [request], the run ends with exit
    status 1 and nginx is not reloaded; the configuration file written
    before the test is not taken back. *)
Theorem request_failed_test_keeps_config (W : Type) (h : Handler W) (w : W)
  (cfg0 : Config) (domain : string) (email : option string) :
  let r := run h (main py_int cfg0 (ArgsRequest domain email)) w in
  existsb failed_test (trace_of r) = true ->
  outcome_of r = Raised (SystemExit 1)
  /\ existsb reload_started (trace_of r) = false
  /\ In (WriteText (path (NGINX_SITES_AVAILABLE cfg0) domain))
       (fs_changes (trace_of r))
  /\ Forall (request_change cfg0 domain) (fs_changes (trace_of r)).
Proof.
  intros r. subst r.
  destruct (always_run h _ _ w (main_request_runs cfg0 domain email))
    as (Hc & _ & _ & _ & _ & Hf).
  intros H. destruct (Hf H) as (Ho & Hr & Hw). auto.
Qed.

End WithInt.

Lemma request_ignores_reload_status_witness :
  let r := run host_world
             (main int_of_digits config (ArgsRequest "example.com" None))
             (with_tools new_host 0 1) in
  outcome_of r = Returned tt
  /\ last_call (trace_of r) = Some (CONFIGURED "example.com").
Proof.
  apply (request_ignores_reload_status int_of_digits Host host_world).
  vm_compute. reflexivity.
Defined.

Lemma request_failed_test_keeps_config_witness :
  let r := run host_world
             (main int_of_digits config (ArgsRequest "example.com" None))
             (with_tools new_host 1 0) in
  outcome_of r = Raised (SystemExit 1)
  /\ existsb reload_started (trace_of r) = false
  /\ In (WriteText "/etc/nginx/sites-available/example.com")
       (fs_changes (trace_of r))
  /\ Forall (request_change config "example.com") (fs_changes (trace_of r)).
Proof.
  apply (request_failed_test_keeps_config int_of_digits Host host_world).
  vm_compute. reflexivity.
Defined.

End RequestFacts.

(** ** manage-domain.py: [delete_domain] *)

Module DeleteFacts.
Import PyStr Py Re ManageDomain Hostname Observe Worlds Ledger RunFacts
  PreludeFacts.
Local Arguments String.append : simpl never.

Ltac rewrite_tests :=
  repeat match goal with
         | H : (_ =? _)%Z = _ |- _ => rewrite H
         end.

Ltac one_of :=
  first [ reflexivity
        | left; reflexivity
        | right; left; reflexivity
        | right; right; left; reflexivity
        | right; right; right; reflexivity
        | right; reflexivity ].

Ltac each := repeat (apply Forall_cons; [one_of|]); apply Forall_nil.

Ltac own_leaf := cbn; split; each.

(** The removals and the command lines of [delete_domain] are those of
    its domain. *)
Lemma delete_domain_own (cfg : Config) (domain : string) :
  always (fun o t =>
            Forall (delete_change cfg domain) (fs_changes t)
            /\ Forall (delete_command cfg domain) (runs t))
    (delete_domain cfg domain).
Proof.
  unfold delete_domain, disable_site, remove_config, revoke_certificate,
    finish_delete, subprocess_run, nginx_test, nginx_reload, raise_if.
  walk own_leaf.
Qed.

Ltac absent_leaf :=
  cbn;
  let H := fresh in
  intros H;
  first [ discriminate H
        | split; [reflexivity|];
          split; [each|];
          let H' := fresh in
          intros H'; first [discriminate H' | reflexivity] ].

Lemma delete_domain_absent (cfg : Config) (domain : string) :
  always (fun o t =>
            existsb found t = false ->
            fs_changes t = []
            /\ Forall nginx_command (runs t)
            /\ (o = Returned tt -> last_call t = Some (REPORT_DELETED domain)))
    (delete_domain cfg domain).
Proof.
  unfold delete_domain, disable_site, remove_config, revoke_certificate,
    finish_delete, subprocess_run, nginx_test, nginx_reload, raise_if.
  walk absent_leaf.
Qed.

Ltac nginx_leaf :=
  cbn; rewrite_tests; cbn;
  split; [split; intros ?; first [reflexivity | discriminate | congruence]|];
  split;
  [ let H := fresh in
    intros H; first [discriminate H | split; reflexivity]
  | let H := fresh in
    intros H; first [discriminate H | reflexivity] ].

Lemma delete_domain_nginx (cfg : Config) (domain : string) :
  always (fun o t =>
            (o = Returned tt <-> existsb reload_passed t = true)
            /\ (existsb failed_test t = true ->
                o = Raised (SystemExit 1) /\ existsb reload_started t = false)
            /\ (existsb reload_failed t = true -> o = Raised (SystemExit 1)))
    (delete_domain cfg domain).
Proof.
  unfold delete_domain, disable_site, remove_config, revoke_certificate,
    finish_delete, subprocess_run, nginx_test, nginx_reload, raise_if.
  walk nginx_leaf.
Qed.

Section WithInt.
Variable py_int : string -> option Z.

(** Whatever the host answers, a run of [delete] removes nothing but the
    enabled link and the configuration file of its domain, creates and
    writes nothing, and starts no command but certbot's revoke and delete
    for that domain, [nginx -t] and the reload. *)
Theorem delete_touches_own_files (W : Type) (h : Handler W) (w : W)
  (cfg0 : Config) (domain : string) :
  let r := run h (main py_int cfg0 (ArgsDelete domain)) w in
  Forall (delete_change cfg0 domain) (fs_changes (trace_of r))
  /\ Forall (delete_command cfg0 domain) (runs (trace_of r)).
Proof.
  intros r. subst r.
  apply (always_run h _ (fun o t =>
           Forall (delete_change cfg0 domain) (fs_changes t)
           /\ Forall (delete_command cfg0 domain) (runs t)) w).
  unfold main. apply always_bind.
  eapply always_weaken;
    [|exact (prelude_runs py_int cfg0 (ArgsDelete domain))].
  intros [cfg|e] t [[Hp He] Hr].
  - destruct (Hr cfg eq_refl) as [_ (Ha & Hn & Hc & _)].
    eapply always_weaken; [|apply delete_domain_own].
    intros o t' [Hch Hru].
    rewrite fs_changes_app, runs_app, (probes_no_changes t Hp),
      (probes_no_runs t Hp).
    unfold delete_change, delete_command, revoke_args, delete_args in *.
    rewrite Ha, Hn, Hc in *. now split.
  - rewrite (probes_no_changes t Hp), (probes_no_runs t Hp).
    split; constructor.
Qed.

End WithInt.

(** Deleting a domain of which nothing is found (no link, no
    configuration file, no certificate directory) removes nothing and
    does not call certbot: it only tests and reloads nginx, and a run that
    returns reports the domain as deleted. *)
Theorem delete_domain_nothing_there (W : Type) (h : Handler W) (w : W)
  (cfg : Config) (domain : string) :
  let r := run h (delete_domain cfg domain) w in
  existsb found (trace_of r) = false ->
  fs_changes (trace_of r) = []
  /\ Forall nginx_command (runs (trace_of r))
  /\ (outcome_of r = Returned tt ->
      last_call (trace_of r) = Some (REPORT_DELETED domain)).
Proof.
  intros r. subst r.
  exact (always_run h _ _ w (delete_domain_absent cfg domain)).
Qed.

Lemma delete_domain_nothing_there_witness :
  let r := run host_world (delete_domain config "example.com") new_host in
  fs_changes (trace_of r) = []
  /\ Forall nginx_command (runs (trace_of r))
  /\ (outcome_of r = Returned tt ->
      last_call (trace_of r) = Some (REPORT_DELETED "example.com")).
Proof.
  apply (delete_domain_nothing_there Host host_world new_host config
           "example.com").
  vm_compute. reflexivity.
Defined.

(** [delete_domain] returns exactly when the reload of nginx ended with
    status 0.  When [nginx -t] fails the run ends with exit status 1
    without a reload, and when the reload fails it ends with exit status
    1: in both cases behind the removals, which are not taken back. *)
Theorem delete_domain_needs_nginx (W : Type) (h : Handler W) (w : W)
  (cfg : Config) (domain : string) :
  let r := run h (delete_domain cfg domain) w in
  (outcome_of r = Returned tt <-> existsb reload_passed (trace_of r) = true)
  /\ (existsb failed_test (trace_of r) = true ->
      outcome_of r = Raised (SystemExit 1)
      /\ existsb reload_started (trace_of r) = false)
  /\ (existsb reload_failed (trace_of r) = true ->
      outcome_of r = Raised (SystemExit 1)).
Proof.
  intros r. subst r.
  exact (always_run h _ _ w (delete_domain_nginx cfg domain)).
Qed.

End DeleteFacts.

(** ** manage-domain.py: the rendered configuration *)

Module RenderFacts.
Import PyStr Py Re ManageDomain Hostname Observe Ledger ManageMore
  HostnameFacts DomainFacts.
Local Arguments String.append : simpl never.

Lemma count_app (c : ascii) (a b : string) :
  count c (a ++ b) = count c a + count c b.
Proof.
  induction a as [|d a IH].
  - reflexivity.
  - change (String d a ++ b) with (String d (a ++ b)).
    cbn [count]. rewrite IH. lia.
Qed.

Lemma count_outside (p : ascii -> bool) (c : ascii) (s : string) :
  forallb p (chars s) = true -> p c = false -> count c s = 0.
Proof.
  unfold chars. intros Hs Hc.
  induction s as [|d s IH]; cbn [list_ascii_of_string forallb count] in *;
    [reflexivity|].
  apply andb_prop in Hs. destruct Hs as [Hd Hs].
  destruct (Ascii.eqb_spec d c) as [->|]; [congruence|].
  now apply IH.
Qed.

Lemma count_app_same (c : ascii) (a a' b b' : string) :
  count c a = count c a' -> count c b = count c b' ->
  count c (a ++ b) = count c (a' ++ b').
Proof. intros Ha Hb. now rewrite !count_app, Ha, Hb. Qed.

Lemma count_app_sum (c : ascii) (a b : string) (n m k : nat) :
  count c a = n -> count c b = m -> n + m = k -> count c (a ++ b) = k.
Proof. intros <- <- <-. apply count_app. Qed.

(** Piece by piece along a concatenation. *)
Ltac same_pieces H :=
  lazymatch goal with
  | |- count _ (_ ++ _) = count _ (_ ++ _) =>
      apply count_app_same; [first [reflexivity | exact H] | same_pieces H]
  | |- _ => reflexivity
  end.

Ltac sum_pieces :=
  lazymatch goal with
  | |- count _ (_ ++ _) = _ =>
      eapply count_app_sum; [sum_pieces | sum_pieces | ]
  | |- count _ _ = _ => first [eassumption | vm_compute; reflexivity]
  end.

(** A domain that [validate_domain] lets through adds to the rendered
    configuration only characters a domain may hold: of any other
    character (a brace, a semicolon, a quote, a space, a slash, a hash
    sign) the text holds as many as the bare template does. *)
Theorem server_block_domain_adds_nothing (st : Site) (cfg : Config)
  (domain : string) (c : ascii) :
  domain_ok domain = true ->
  domain_char c = false ->
  count c (_nginx_server_block st cfg domain)
  = count c (_nginx_server_block st cfg "").
Proof.
  intros Hd Hc.
  pose proof (accepted_domain_chars domain Hd) as Hchars.
  pose proof (count_outside domain_char c domain Hchars Hc) as H0.
  unfold _nginx_server_block.
  destruct (WEBSOCKET_ENABLED st), (RATE_LIMIT_ENABLED st); same_pieces H0.
Qed.

Lemma server_block_domain_adds_nothing_witness :
  count ";" (_nginx_server_block site config "shop.example.com")
  = count ";" (_nginx_server_block site config "").
Proof.
  apply (server_block_domain_adds_nothing site config "shop.example.com" ";");
    vm_compute; reflexivity.
Defined.

(** With settings that hold no brace, the text rendered for an accepted
    domain opens four blocks and closes four. *)
Theorem server_block_braces (st : Site) (cfg : Config) (domain : string) :
  domain_ok domain = true ->
  Forall (fun s => count "{" s = 0 /\ count "}" s = 0) (settings st cfg) ->
  count "{" (_nginx_server_block st cfg domain) = 4
  /\ count "}" (_nginx_server_block st cfg domain) = 4.
Proof.
  intros Hd Hs.
  pose proof (accepted_domain_chars domain Hd) as Hchars.
  pose proof (count_outside domain_char "{" domain Hchars eq_refl) as Ho.
  pose proof (count_outside domain_char "}" domain Hchars eq_refl) as Hc.
  unfold settings in Hs.
  repeat match goal with
         | H : Forall _ (_ :: _) |- _ =>
             let Ha := fresh "Ha" in
             let Hb := fresh "Hb" in
             apply Forall_cons_iff in H; destruct H as [[Ha Hb] H]
         end.
  unfold _nginx_server_block.
  destruct (WEBSOCKET_ENABLED st), (RATE_LIMIT_ENABLED st);
    split; sum_pieces; reflexivity.
Qed.

Lemma server_block_braces_witness :
  count "{" (_nginx_server_block site config "shop.example.com") = 4
  /\ count "}" (_nginx_server_block site config "shop.example.com") = 4.
Proof.
  apply (server_block_braces site config "shop.example.com");
    [vm_compute; reflexivity | repeat constructor].
Defined.

End RenderFacts.

(** ** manage-domain.py: the branch [renew] *)

Module RenewFacts.
Import PyStr Py Re ManageDomain Observe Worlds Ledger ManageMore RunFacts
  PreludeFacts.
Local Arguments String.append : simpl never.

Ltac rewrite_tests :=
  repeat match goal with
         | H : (_ =? _)%Z = _ |- _ => rewrite H
         end.

Ltac renew_leaf :=
  cbn; rewrite_tests; cbn;
  split; [reflexivity|];
  split; [repeat (apply Forall_cons;
                  [first [left; reflexivity | right; reflexivity]|]);
          apply Forall_nil|];
  split; [reflexivity|];
  split; [split; intros ?; first [reflexivity | discriminate | congruence]|];
  let H := fresh in
  intros H; first [reflexivity | exfalso; apply H; reflexivity].

Lemma renew_runs (cfg : Config) : always (renew_run cfg) (renew cfg).
Proof.
  unfold renew_run, renew, subprocess_run, nginx_reload.
  walk renew_leaf.
Qed.

Lemma renew_run_fixed (cfg cfg0 : Config) (o : Outcome unit) (t : Trace) :
  same_fixed cfg cfg0 -> renew_run cfg o t -> renew_run cfg0 o t.
Proof.
  unfold same_fixed, renew_run, renew_command, renew_args.
  intros (_ & _ & Hc & _). now rewrite Hc.
Qed.

Lemma renew_run_behind (cfg : Config) (o : Outcome unit) (t1 t2 : Trace) :
  probes_only t1 -> renew_run cfg o t2 -> renew_run cfg o (t1 ++ t2)%list.
Proof.
  unfold renew_run. intros Hp H.
  rewrite fs_changes_app, runs_app, (probes_no_changes t1 Hp),
    (probes_no_runs t1 Hp).
  rewrite !(fun P HP => probes_skip P t1 t2 HP Hp) by blind.
  exact H.
Qed.

Lemma renew_run_turned_away (cfg : Config) (t : Trace) :
  probes_only t -> renew_run cfg (Raised (SystemExit 1)) t.
Proof.
  unfold renew_run. intros Hp.
  rewrite (probes_no_changes t Hp), (probes_no_runs t Hp).
  pose proof (fun P HP => probes_skip P t [] HP Hp) as Hs.
  rewrite app_nil_r in Hs. rewrite !Hs by blind.
  repeat split; try discriminate; constructor.
Qed.

Section WithInt.
Variable py_int : string -> option Z.

Lemma main_renew_runs (cfg0 : Config) :
  always (renew_run cfg0) (main_renew py_int cfg0).
Proof.
  unfold main_renew.
  apply always_bind. eapply always_weaken; [|apply require_root_probing].
  intros [[]|e] t1 [Hp1 He1];
    [|rewrite (He1 e eq_refl); now apply renew_run_turned_away].
  apply always_bind. eapply always_weaken; [|apply load_names_runs].
  intros o t2 (cfg & -> & Hc & Hf & _).
  apply environ_probes in Hc.
  apply always_bind. eapply always_weaken; [|apply check_dependencies_probing].
  intros [[]|e] t3 [Hp3 He3].
  - eapply always_weaken; [|apply renew_runs].
    intros o t4 H. repeat apply renew_run_behind; trivial.
    eapply renew_run_fixed; eassumption.
  - rewrite (He3 e eq_refl). apply renew_run_turned_away.
    now repeat apply probes_app.
Qed.

(** In every run of [renew] no file is changed and nothing is started but
    certbot's renewal and the reload of nginx.  The reload is started
    exactly when the renewal ended with status 0.  The run returns exactly
    when the reload ran to its end: a reload that fails is reported in the
    log but not in the exit status.  Every other run ends with status 1. *)
Theorem renew_reloads_after_success (W : Type) (h : Handler W) (w : W)
  (cfg0 : Config) :
  let r := run h (main_renew py_int cfg0) w in
  fs_changes (trace_of r) = []
  /\ Forall (renew_command cfg0) (runs (trace_of r))
  /\ existsb reload_started (trace_of r) = existsb renewed (trace_of r)
  /\ (outcome_of r = Returned tt <->
      existsb reload_completed (trace_of r) = true)
  /\ (outcome_of r <> Returned tt -> exit_status (outcome_of r) = 1%Z).
Proof.
  intros r. subst r.
  exact (always_run h _ _ w (main_renew_runs cfg0)).
Qed.

End WithInt.
End RenewFacts.

(** ** manage-domain.py: [verify_dns] *)

Module CheckDnsFacts.
Import PyStr Py Re ManageDomain Observe Tally Ledger ManageMore RunFacts.
Local Arguments String.append : simpl never.

Ltac dns_cases :=
  repeat match goal with
         | |- forall _ : unit, _ => intros []
         | |- forall _ : option string, _ => intros [?|]
         | |- forall _ : option (list string), _ => intros [[|? ?]|]
         | |- forall _ : RunResult, _ =>
             let rc := fresh "rc" in
             let out := fresh "out" in
             intros [rc out|?];
             [destruct (rc =? 0)%Z eqn:?;
              [destruct (dig_addresses out) as [|? ?] eqn:?|]|]
         | |- _ => progress cbn
         end.

Ltac dns_rewrite :=
  cbn;
  repeat match goal with
         | H : (_ =? _)%Z = _ |- _ => rewrite H
         | H : dig_addresses _ = _ |- _ => rewrite H
         end;
  cbn; rewrite ?app_nil_r.

Ltac asks_leaf :=
  dns_rewrite;
  split; [reflexivity|];
  split;
  [ let H := fresh in
    intros H;
    first [ discriminate H
          | split; [reflexivity|]; split; [reflexivity|];
            split; [reflexivity|]; eexists; reflexivity ]
  | let H := fresh in
    intros H;
    first [ discriminate H
          | split; [eexists; reflexivity|]; split; reflexivity ] ].

(** What is asked of the world. *)
Lemma verify_dns_asks (dnspython : bool) (cfg : Config) (domain : string)
  (expected_ips : list string) :
  always (fun o t =>
            fs_changes t = []
            /\ (existsb no_resolver t = true ->
                dnspython = true
                /\ dns_calls t = []
                /\ runs t = []
                /\ exists e, o = Raised (PyException e))
            /\ (existsb no_resolver t = false ->
                (exists b, o = Returned b)
                /\ dns_calls t = (if dnspython then [(domain, "A")] else [])
                /\ runs t = (if nonempty (from_resolver t) then []
                             else [dig_args domain])))
    (verify_dns dnspython cfg domain expected_ips).
Proof.
  unfold verify_dns, raise_if.
  destruct dnspython, expected_ips as [|ip ips]; dns_cases; asks_leaf.
Qed.



(** [verify_dns] changes nothing.  With dnspython installed it first
    makes a resolver, outside any [try]: when that raises, the exception
    ends the run before any query and before dig.  Otherwise the function
    returns; it asks the resolver once, for the A records of the domain,
    when dnspython is installed, and not at all otherwise; and it starts
    dig, once, exactly when the resolver gave no address: dig is the
    fallback, never a second opinion. *)
Theorem verify_dns_dig_is_fallback (W : Type) (h : Handler W) (w : W)
  (dnspython : bool) (cfg : Config) (domain : string)
  (expected_ips : list string) :
  let r := run h (verify_dns dnspython cfg domain expected_ips) w in
  fs_changes (trace_of r) = []
  /\ (existsb no_resolver (trace_of r) = true ->
      dnspython = true
      /\ dns_calls (trace_of r) = []
      /\ runs (trace_of r) = []
      /\ exists e, outcome_of r = Raised (PyException e))
  /\ (existsb no_resolver (trace_of r) = false ->
      (exists b, outcome_of r = Returned b)
      /\ dns_calls (trace_of r) = (if dnspython then [(domain, "A")] else [])
      /\ runs (trace_of r) = (if nonempty (from_resolver (trace_of r)) then []
                              else [dig_args domain])).
Proof.
  intros r. subst r.
  exact (always_run h _ _ w
           (verify_dns_asks dnspython cfg domain expected_ips)).
Qed.


End CheckDnsFacts.

(** ** manage-domain.py: the addresses read from dig *)

Module DigFacts.
Import PyStr Py Re ManageDomain Hostname ManageMore ReFacts HostnameFacts.
Local Arguments String.append : simpl never.

Lemma derives_cat (a b : regex) (s rest : string) :
  derives (Cat a b) s rest <->
  exists s1, derives a s s1 /\ derives b s1 rest.
Proof.
  split.
  - intros H. inversion H; subst. eauto.
  - intros (s1 & Ha & Hb). econstructor; eauto.
Qed.

Lemma derives_chr (p : ascii -> bool) (s rest : string) :
  derives (Chr p) s rest <-> exists c, s = String c rest /\ p c = true.
Proof.
  split.
  - intros H. inversion H; subst. eauto.
  - intros (c & -> & Hc). now constructor.
Qed.

Lemma derives_eol (s rest : string) :
  derives Eol s rest <-> s = rest /\ at_end s = true.
Proof.
  split.
  - intros H. inversion H; subst. auto.
  - intros [-> H]. now constructor.
Qed.

Lemma derives_digit_star (s rest : string) :
  derives (Star (Chr is_digit)) s rest <->
  exists m, s = m ++ rest /\ forallb is_digit (chars m) = true.
Proof.
  split.
  - intros H. remember (Star (Chr is_digit)) as r eqn:Er.
    induction H as [| | | | |a s|a s s1 s2 Hbody _ Hlt Hstar IH|];
      try discriminate Er.
    + exists "". auto.
    + injection Er as ->.
      destruct (IH eq_refl) as (m & -> & Hm).
      apply derives_chr in Hbody. destruct Hbody as (c & -> & Hc).
      exists (String c m). split; [reflexivity|].
      cbn. now rewrite Hc.
  - intros (m & -> & Hm).
    induction m as [|c m IH].
    + constructor.
    + cbn in Hm. apply andb_prop in Hm. destruct Hm as [Hc Hm].
      apply D_star_more with (s1 := m ++ rest).
      * change (String c m ++ rest) with (String c (m ++ rest)).
        now constructor.
      * change (String c m ++ rest) with (String c (m ++ rest)).
        cbn [String.length]. lia.
      * now apply IH.
Qed.

Lemma derives_digits (s rest : string) :
  derives DIGITS s rest <-> exists m, s = m ++ rest /\ digits m = true.
Proof.
  unfold DIGITS. rewrite derives_cat. split.
  - intros (s1 & Hc & Hs). apply derives_chr in Hc.
    destruct Hc as (c & -> & Hc).
    apply derives_digit_star in Hs. destruct Hs as (m & -> & Hm).
    exists (String c m). split; [reflexivity|].
    unfold digits. cbn. fold (chars m). now rewrite Hc, Hm.
  - intros ([|c m] & -> & Hm); [discriminate Hm|].
    unfold digits in Hm. cbn in Hm. fold (chars m) in Hm.
    apply andb_prop in Hm. destruct Hm as [Hc Hm].
    exists (m ++ rest). split.
    + apply derives_chr. exists c. now split.
    + apply derives_digit_star. eauto.
Qed.

Lemma digits_no_dot (m : string) : digits m = true -> count "." m = 0.
Proof.
  unfold digits. intros H. apply andb_prop in H. destruct H as [_ H].
  induction m as [|c m IH]; [reflexivity|].
  cbn in *. apply andb_prop in H. destruct H as [Hc Hm].
  destruct (Ascii.eqb_spec c ".") as [->|]; [discriminate Hc|].
  now apply IH.
Qed.

Ltac eat_digits H a Ha :=
  let s := fresh "s" in
  let Hd := fresh in
  apply derives_cat in H; destruct H as (s & Hd & H);
  apply derives_digits in Hd; destruct Hd as (a & -> & Ha).

Ltac eat_dot H :=
  let s := fresh "s" in
  let c := fresh "c" in
  let Hc := fresh in
  let Hd := fresh in
  apply derives_cat in H; destruct H as (s & Hc & H);
  apply derives_chr in Hc; destruct Hc as (c & -> & Hd);
  apply is_dot_eq in Hd; subst c.

(** What the pattern of line 271 accepts. *)
Lemma a_line_iff (s : string) :
  re_match A_LINE_RE s = true <->
  exists a b c d rest,
    s = a ++ dotted [b; c; d] ++ rest
    /\ digits a = true /\ digits b = true
    /\ digits c = true /\ digits d = true
    /\ (rest = "" \/ rest = LF).
Proof.
  unfold re_match, A_LINE_RE. rewrite matches_iff. split.
  - intros (rest & H & _).
    eat_digits H a Ha. eat_dot H.
    eat_digits H b Hb. eat_dot H.
    eat_digits H c Hc. eat_dot H.
    eat_digits H d Hd.
    apply derives_eol in H. destruct H as [-> He].
    apply at_end_cases in He.
    exists a, b, c, d, rest. split; [|auto 10].
    cbn [dotted]. rewrite !append_assoc. reflexivity.
  - intros (a & b & c & d & rest & -> & Ha & Hb & Hc & Hd & Hrest).
    exists rest. split; [|reflexivity].
    cbn [dotted]. rewrite !append_assoc.
    repeat (apply derives_cat; eexists; split;
            [first [ apply derives_digits; eexists; split; [reflexivity|eassumption]
                   | apply derives_chr; exists "."%char; split; reflexivity ]|]).
    change ("" ++ rest) with rest.
    apply derives_eol. split; [reflexivity|]. now apply at_end_cases.
Qed.

Lemma quad_iff (s : string) :
  dotted_quad s = true <->
  exists a b c d,
    s = a ++ dotted [b; c; d]
    /\ digits a = true /\ digits b = true
    /\ digits c = true /\ digits d = true.
Proof.
  unfold dotted_quad. split.
  - destruct (split_dotted s) as (l & labels & Hs & ->).
    rewrite Hs. destruct labels as [|b [|c [|d [|? ?]]]]; try discriminate.
    intros H. do 3 (apply andb_prop in H; destruct H as [H ?]).
    exists l, b, c, d. repeat split; assumption.
  - intros (a & b & c & d & -> & Ha & Hb & Hc & Hd).
    rewrite split_of_dotted.
    + now rewrite Ha, Hb, Hc, Hd.
    + now apply digits_no_dot.
    + repeat constructor; now apply digits_no_dot.
Qed.

(** A stripped line does not end in white space. *)
Lemma rstrip_end (p : ascii -> bool) (s m : string) (d : ascii) :
  rstrip p s = m ++ String d "" -> p d = false.
Proof.
  revert m. induction s as [|c s IH]; intros m H; cbn [rstrip] in H.
  - destruct m; discriminate H.
  - destruct (rstrip p s) as [|e r] eqn:Er.
    + destruct (p c) eqn:Ec; [destruct m; discriminate H|].
      destruct m as [|x m]; [now injection H as <-|].
      injection H as _ H. destruct m; discriminate H.
    + destruct m as [|x m]; [discriminate H|].
      injection H as _ H. now apply (IH m).
Qed.

Lemma stripped_no_line_feed (line s' : string) : strip_ws line <> s' ++ LF.
Proof.
  unfold strip_ws, strip, LF. intros H.
  apply rstrip_end in H. discriminate H.
Qed.

(** The lines of dig's output kept as addresses are those that, stripped
    of white space, are four runs of digits with dots between them: a
    name, as dig prints for a CNAME, is dropped, and so is an address of
    three or five groups; no group is checked against 255. *)
Theorem dig_addresses_are_quads (out ip : string) :
  In ip (dig_addresses out) <->
  dotted_quad ip = true
  /\ exists line, In line (splitlines out) /\ strip_ws line = ip.
Proof.
  unfold dig_addresses. rewrite filter_In, in_map_iff.
  assert (Hre : forall line,
             re_match A_LINE_RE (strip_ws line) = dotted_quad (strip_ws line)).
  { intros line. apply eq_true_iff_eq. rewrite a_line_iff, quad_iff. split.
    - intros (a & b & c & d & rest & Hs & Ha & Hb & Hc & Hd & [->| ->]).
      + rewrite append_nil_r in Hs. eauto 10.
      + exfalso. apply (stripped_no_line_feed line (a ++ dotted [b; c; d])).
        now rewrite Hs, append_assoc.
    - intros (a & b & c & d & Hs & Ha & Hb & Hc & Hd).
      exists a, b, c, d, "". rewrite append_nil_r. auto 10. }
  split.
  - intros [(line & <- & Hin) Hm]. rewrite Hre in Hm. eauto.
  - intros [Hq (line & Hin & <-)]. rewrite Hre. eauto.
Qed.

End DigFacts.

(** ** manage-domain.py: the branch [check] *)

Module CheckFacts.
Import PyStr Py Re ManageDomain Observe Tally Ledger ManageMore RunFacts
  PreludeFacts.
Local Arguments String.append : simpl never.
Local Arguments VerifyDns.any_expected : simpl never.

Ltac check_step :=
  match goal with
  | |- forall _ : unit, _ => intros []
  | |- forall _ : bool, _ => intros []
  | |- forall _ : option string, _ => intros [?|]
  | |- forall _ : option (list string), _ => intros [[|? ?]|]
  | |- forall _ : RunResult, _ =>
      let rc := fresh "rc" in
      let out := fresh "out" in
      intros [rc out|?]
  | |- context [if (?rc =? 0)%Z then _ else _] =>
      destruct (rc =? 0)%Z eqn:?
  | |- context [match dig_addresses ?out with _ => _ end] =>
      destruct (dig_addresses out) as [|? ?] eqn:?
  | |- context [nonempty (dig_addresses ?out)] =>
      destruct (dig_addresses out) as [|? ?] eqn:?
  | |- context [if VerifyDns.any_expected ?a ?b then _ else _] =>
      destruct (VerifyDns.any_expected a b) eqn:?
  | |- _ => progress cbn
  end.

Ltac rewrite_tests :=
  repeat match goal with
         | H : (_ =? _)%Z = _ |- _ => rewrite H
         | H : dig_addresses _ = _ |- _ => rewrite H
         end.

Ltac command :=
  first [ left; reflexivity
        | right; left; reflexivity
        | right; right; reflexivity ].

Ltac commands := repeat (apply Forall_cons; [command|]); apply Forall_nil.

Ltac not_dig :=
  let H := fresh in
  intros H;
  repeat match type of H with
         | _ \/ _ => destruct H as [H|H]; [discriminate H|]
         end;
  first [contradiction | discriminate H].

Ltac check_leaf :=
  cbn; rewrite_tests; cbn; rewrite ?app_nil_r, ?VerifyFacts.any_expected_nil;
  repeat match goal with
         | H : VerifyDns.any_expected _ _ = _ |- _ => rewrite H
         end;
  split; [reflexivity|];
  split; [commands|];
  split; [let H := fresh in
          intros H; first [discriminate H | split; [reflexivity | not_dig]]|];
  split;
  [ split;
    [ let H := fresh in
      intros H; first [discriminate H | split; [reflexivity | tauto]]
    | let H := fresh in
      intros [H [?|?]]; first [reflexivity | discriminate] ]
  | let H := fresh in
    intros H; first [reflexivity | exfalso; apply H; reflexivity] ].

Section WithLibraries.
Variable dnspython x509 : bool.
Variable cert_not_after : string -> option string.

Lemma check_runs (cfg : Config) (domain : string) (expected_ips : list string) :
  always (check_run domain expected_ips)
    (check dnspython x509 cert_not_after cfg domain expected_ips).
Proof.
  unfold check_run, check, check_domain_exists, read_cert_expiry, nginx_test,
    subprocess_run, verify_dns, raise_if.
  destruct dnspython, x509, expected_ips as [|ip ips],
    (cert_not_after (path (path LIVE domain) "cert.pem"));
    repeat check_step.
  all: check_leaf.
Qed.

Lemma probes_flat {A} (f : Event -> list A) (t : Trace) :
  (forall e, is_probe (call_of e) = true -> f e = []) ->
  probes_only t -> flat_map f t = [].
Proof.
  intros Hf. induction 1 as [|e t He Ht IH]; [reflexivity|].
  cbn [flat_map]. now rewrite (Hf e He), IH.
Qed.

Lemma check_run_behind (domain : string) (expected_ips : list string)
  (o : Outcome unit) (t1 t2 : Trace) :
  probes_only t1 -> check_run domain expected_ips o t2 ->
  check_run domain expected_ips o (t1 ++ t2)%list.
Proof.
  unfold check_run, dns_calls, from_resolver, from_dig. intros Hp H.
  rewrite fs_changes_app, runs_app, !flat_map_app,
    (probes_no_changes t1 Hp), (probes_no_runs t1 Hp).
  rewrite !(fun A f Hf => @probes_flat A f t1 Hf Hp) by blind.
  rewrite (probes_skip test_passed t1 t2) by (blind || exact Hp).
  exact H.
Qed.

Lemma check_run_turned_away (domain : string) (expected_ips : list string)
  (t : Trace) :
  probes_only t -> check_run domain expected_ips (Raised (SystemExit 1)) t.
Proof.
  unfold check_run, dns_calls, from_resolver, from_dig. intros Hp.
  rewrite (probes_no_changes t Hp), (probes_no_runs t Hp).
  rewrite !(fun A f Hf => @probes_flat A f t Hf Hp) by blind.
  pose proof (probes_skip test_passed t [] ltac:(blind) Hp) as Hs.
  rewrite app_nil_r in Hs. rewrite Hs.
  repeat split; try discriminate; try constructor.
  - intros [].
  - intros [H _]. discriminate H.
Qed.

Lemma validate_domain_probing (domain : string) :
  always probing (validate_domain domain).
Proof. unfold validate_domain. destruct (domain_ok domain); walk probing_leaf. Qed.

Variable py_int : string -> option Z.

Lemma main_check_runs (cfg0 : Config) (domain : string)
  (expected_ips : list string) :
  always (check_run domain expected_ips)
    (main_check dnspython x509 cert_not_after py_int cfg0 domain expected_ips).
Proof.
  unfold main_check.
  apply always_bind. eapply always_weaken; [|apply require_root_probing].
  intros [[]|e] t1 [Hp1 He1];
    [|rewrite (He1 e eq_refl); now apply check_run_turned_away].
  apply always_bind. eapply always_weaken; [|apply load_names_runs].
  intros o t2 (cfg & -> & Hc & _).
  apply environ_probes in Hc.
  apply always_bind. eapply always_weaken; [|apply check_dependencies_probing].
  intros [[]|e] t3 [Hp3 He3];
    [|rewrite (He3 e eq_refl); apply check_run_turned_away;
      now repeat apply probes_app].
  apply always_bind. eapply always_weaken; [|apply validate_domain_probing].
  intros [valid|e] t4 [Hp4 He4];
    [|rewrite (He4 e eq_refl); apply check_run_turned_away;
      now repeat apply probes_app].
  destruct valid; cbn [negb bind].
  - eapply always_weaken; [|apply check_runs].
    intros o t5 H. rewrite ?app_nil_l. now repeat apply check_run_behind.
  - cbn. rewrite ?app_nil_r. apply check_run_turned_away.
    now repeat apply probes_app.
Qed.

(** [check] only looks: whatever the host answers, a run changes no file
    and starts nothing but openssl on the certificate of its domain,
    [nginx -t] and dig for its domain (no certbot, no reload); and when no
    address is expected it asks nothing of the DNS and does not start
    dig. *)
Theorem check_changes_nothing (W : Type) (h : Handler W) (w : W)
  (cfg0 : Config) (domain : string) (expected_ips : list string) :
  let r := run h (main_check dnspython x509 cert_not_after py_int cfg0
                    domain expected_ips) w in
  fs_changes (trace_of r) = []
  /\ Forall (check_command domain) (runs (trace_of r))
  /\ (nonempty expected_ips = false ->
      dns_calls (trace_of r) = []
      /\ ~ In (dig_args domain) (runs (trace_of r))).
Proof.
  intros r. subst r.
  destruct (always_run h _ _ w (main_check_runs cfg0 domain expected_ips))
    as (Hc & Hr & Hd & _).
  auto.
Qed.


End WithLibraries.
End CheckFacts.
